(** * pennsieve-llm: a shallow embedding of package [llm]

    The Go package is a client for an LLM platform with three
    interchangeable backends (Lambda governor, Anthropic API, mock), a
    shared request/response/error data model and a content-block codec.
    This file embeds the package function by function and proves the
    properties of its specification.

    Conventions of the embedding:
    - a Go [string] and a Go [[]byte] are byte sequences: [string] and
      [list byte];
    - a Go struct is a record whose fields carry the struct's name as a
      prefix, a [map[string]interface{}] literal is a [gmap string Value];
    - [(T, error)] results are [error + T] ([inl] is the non-nil error);
    - the collaborators the package talks to (process environment, file
      system, AWS SDK, HTTP client, encoding/json) are values of the
      record [Env] or fields of the backends, and every message handed to
      a transport is appended to a [World] log. *)

From Stdlib Require Import ZArith NArith String Ascii List Lia Bool.
From Stdlib Require Import Strings.Byte Floats.SpecFloat DecimalString.
From stdpp Require Import base option list gmap strings.

Set Warnings "-register-all".
Open Scope string_scope.

(* ================================================================== *)
(** * Go runtime and standard library pieces used by the package       *)
(* ================================================================== *)

Definition float32 := spec_float.
Definition float64 := spec_float.

(** [strings.HasPrefix(s, prefix)]. *)
Definition HasPrefix (s prefix : string) : bool := String.prefix prefix s.

(** [strings.TrimPrefix(s, prefix)]: [s[len(prefix):]] when [s] has the
    prefix, [s] otherwise. *)
Definition TrimPrefix (s prefix : string) : string :=
  if HasPrefix s prefix
  then substring (String.length prefix) (String.length s - String.length prefix) s
  else s.

(** [os.IsPathSeparator] on Unix. *)
Definition IsPathSeparator (c : ascii) : bool := Ascii.eqb c "/".

(** The loop of [filepath.Ext]: [i] is one more than the index looked at. *)
Fixpoint Ext_loop (path : string) (i : nat) : string :=
  match i with
  | O => ""
  | S j =>
      match String.get j path with
      | None => ""
      | Some c =>
          if IsPathSeparator c then ""
          else if Ascii.eqb c "." then substring j (String.length path - j) path
          else Ext_loop path j
      end
  end.

(** [filepath.Ext(path)]: the suffix starting at the last dot of the last
    path element, or the empty string. *)
Definition Ext (path : string) : string := Ext_loop path (String.length path).

(** A name without a dot and without a path separator: what follows the
    last dot of a path that has an extension. *)
Fixpoint plainName (s : string) : bool :=
  match s with
  | "" => true
  | String c s' => negb (IsPathSeparator c) && negb (Ascii.eqb c ".") && plainName s'
  end.

(** Arguments of the [fmt] verbs the package uses: [%s], [%d], [%w]. *)
Inductive fmtArg :=
| ArgS (s : string)
| ArgD (n : Z).

Definition itoa (n : Z) : string := NilZero.string_of_int (Z.to_int n).

(** Go's marker for a verb that does not fit its argument. *)
Definition badVerb (v : ascii) (type value : string) : string :=
  "%!" ++ String v ("(" ++ type ++ "=" ++ value ++ ")").

(** [fmt.Sprintf] for the verbs the package uses: [%s] (and [%w], which
    prints the error's text) takes a string, [%d] an integer, [%%] is a
    percent sign. The package passes as many arguments as a format has
    verbs; a verb without an argument prints Go's [(MISSING)] marker. *)
Fixpoint Sprintf (format : string) (args : list fmtArg) : string :=
  match format with
  | "" => ""
  | String c rest =>
      if Ascii.eqb c "%" then
        match rest with
        | "" => "%!(NOVERB)"
        | String v rest' =>
            if Ascii.eqb v "%" then String "%" (Sprintf rest' args)
            else
              match args with
              | [] => "%!" ++ String v "(MISSING)" ++ Sprintf rest' []
              | ArgS s :: args' =>
                  (if Ascii.eqb v "s" || Ascii.eqb v "w" then s
                   else badVerb v "string" s) ++ Sprintf rest' args'
              | ArgD n :: args' =>
                  (if Ascii.eqb v "d" then itoa n
                   else badVerb v "int" (itoa n)) ++ Sprintf rest' args'
              end
        end
      else String c (Sprintf rest args)
  end.

(* ================================================================== *)
(** * types.go                                                          *)
(* ================================================================== *)

Record ContentBlock := {
  ContentBlock_Type : string;
  ContentBlock_Text : string;
  ContentBlock_Path : string;
  ContentBlock_Format : string;
  ContentBlock_Data : string;
  ContentBlock_MediaType : string;
  ContentBlock_Name : string
}.

Record Message := {
  Message_Role : string;
  Message_Content : list ContentBlock
}.

Record InvokeRequest := {
  InvokeRequest_Action : string;
  InvokeRequest_Model : string;
  InvokeRequest_Messages : list Message;
  InvokeRequest_System : string;
  InvokeRequest_MaxTokens : Z;
  InvokeRequest_Temperature : float32;
  InvokeRequest_ExecutionRunID : string;
  InvokeRequest_ExecutionBudgetUsd : float64
}.

Record ResponseContent := {
  ResponseContent_Type : string;
  ResponseContent_Text : string
}.

Record UsageInfo := {
  UsageInfo_InputTokens : Z;
  UsageInfo_OutputTokens : Z;
  UsageInfo_EstimatedCostUsd : float64
}.

Record BudgetInfo := {
  BudgetInfo_BudgetPeriod : string;
  BudgetInfo_PeriodBudgetUsd : float64;
  BudgetInfo_PeriodUsedUsd : float64;
  BudgetInfo_PeriodRemainingUsd : float64;
  BudgetInfo_ExecutionBudgetUsd : float64;
  BudgetInfo_ExecutionUsedUsd : float64;
  BudgetInfo_ExecutionRemainingUsd : float64
}.

Record InvokeResponse := {
  InvokeResponse_Content : list ResponseContent;
  InvokeResponse_Model : string;
  InvokeResponse_Usage : UsageInfo;
  InvokeResponse_BudgetRemaining : BudgetInfo;
  InvokeResponse_StopReason : string
}.

Record CheckBudgetResponse := {
  CheckBudgetResponse_BudgetPeriod : string;
  CheckBudgetResponse_PeriodBudgetUsd : float64;
  CheckBudgetResponse_PeriodUsedUsd : float64;
  CheckBudgetResponse_PeriodRemainingUsd : float64;
  CheckBudgetResponse_ExecutionBudgetUsd : float64;
  CheckBudgetResponse_ExecutionUsedUsd : float64;
  CheckBudgetResponse_ExecutionRemainingUsd : float64
}.

Record ModelInfo := {
  ModelInfo_ModelID : string;
  ModelInfo_Status : string;
  ModelInfo_Hint : string
}.

Record ListModelsResponse := {
  ListModelsResponse_Models : list ModelInfo
}.

Record ErrorResponse := {
  ErrorResponse_Error : string;
  ErrorResponse_Message : string;
  ErrorResponse_AllowedModels : list string;
  ErrorResponse_BudgetRemaining : option BudgetInfo;
  ErrorResponse_MaxSizeBytes : Z;
  ErrorResponse_RetryAfterSec : Z;
  ErrorResponse_Model : string
}.

(** Zero values of the structs ([T{}] in Go). *)
Definition zeroFloat : spec_float := S754_zero false.

Definition zeroUsageInfo : UsageInfo :=
  {| UsageInfo_InputTokens := 0; UsageInfo_OutputTokens := 0;
     UsageInfo_EstimatedCostUsd := zeroFloat |}.

Definition zeroBudgetInfo : BudgetInfo :=
  {| BudgetInfo_BudgetPeriod := "";
     BudgetInfo_PeriodBudgetUsd := zeroFloat;
     BudgetInfo_PeriodUsedUsd := zeroFloat;
     BudgetInfo_PeriodRemainingUsd := zeroFloat;
     BudgetInfo_ExecutionBudgetUsd := zeroFloat;
     BudgetInfo_ExecutionUsedUsd := zeroFloat;
     BudgetInfo_ExecutionRemainingUsd := zeroFloat |}.

(* ================================================================== *)
(** * errors.go                                                         *)
(* ================================================================== *)

Record GovernorError := {
  GovernorError_Code : string;
  GovernorError_Msg : string;
  GovernorError_AllowedModels : list string;
  GovernorError_BudgetRemaining : option BudgetInfo;
  GovernorError_RetryAfterSec : Z
}.

(** The dynamic types a Go [error] value takes in this package: the error
    made by [fmt.Errorf] (with the error wrapped by [%w], if any), a
    [*GovernorError], and the errors the collaborators return. A run-time
    panic, which nothing in the package recovers, ends a call too: it is
    the outcome [runtimePanic]. *)
Inductive error :=
| fmtError (msg : string) (wrapped : option error)
| governorError (e : GovernorError)
| externalError (msg : string)
| runtimePanic (msg : string).

(** [GovernorError.Error] (pointer receiver). *)
Definition GovernorError_Error (e : GovernorError) : string :=
  Sprintf "governor error [%s]: %s"
          [ArgS (GovernorError_Code e); ArgS (GovernorError_Msg e)].

(** The [Error()] method of an [error] value. *)
Definition error_Error (err : error) : string :=
  match err with
  | fmtError msg _ => msg
  | governorError e => GovernorError_Error e
  | externalError msg => msg
  | runtimePanic msg => msg
  end.

(** [fmt.Errorf(format, args...)] without a [%w] verb. *)
Definition Errorf (format : string) (args : list fmtArg) : error :=
  fmtError (Sprintf format args) None.

(** [fmt.Errorf(format, err)] where the only verb of [format] is [%w]. *)
Definition Errorf_w (format : string) (err : error) : error :=
  fmtError (Sprintf format [ArgS (error_Error err)]) (Some err).

Definition IsBudgetExceeded (e : GovernorError) : bool :=
  String.eqb (GovernorError_Code e) "budget_exceeded".

Definition IsModelNotAllowed (e : GovernorError) : bool :=
  String.eqb (GovernorError_Code e) "model_not_allowed".

Definition IsProviderNotAllowed (e : GovernorError) : bool :=
  String.eqb (GovernorError_Code e) "provider_not_allowed".

Definition IsModelNotEnabled (e : GovernorError) : bool :=
  String.eqb (GovernorError_Code e) "model_not_enabled".

Definition IsThrottled (e : GovernorError) : bool :=
  String.eqb (GovernorError_Code e) "bedrock_throttled".

(** [IsGovernorError(err)]: the type assertion of [err] to a [GovernorError] pointer. *)
Definition IsGovernorError (err : error) : option GovernorError * bool :=
  match err with
  | governorError ge => (Some ge, true)
  | _ => (None, false)
  end.

(* ================================================================== *)
(** * message.go                                                        *)
(* ================================================================== *)

Definition zeroContentBlock : ContentBlock :=
  {| ContentBlock_Type := ""; ContentBlock_Text := ""; ContentBlock_Path := "";
     ContentBlock_Format := ""; ContentBlock_Data := "";
     ContentBlock_MediaType := ""; ContentBlock_Name := "" |}.

Definition TextBlock (text : string) : ContentBlock :=
  {| ContentBlock_Type := "text"; ContentBlock_Text := text; ContentBlock_Path := "";
     ContentBlock_Format := ""; ContentBlock_Data := "";
     ContentBlock_MediaType := ""; ContentBlock_Name := "" |}.

Definition FileBlock (path : string) : ContentBlock :=
  {| ContentBlock_Type := "efs_document"; ContentBlock_Text := "";
     ContentBlock_Path := path; ContentBlock_Format := ""; ContentBlock_Data := "";
     ContentBlock_MediaType := ""; ContentBlock_Name := "" |}.

Definition ImageBlock (format base64Data : string) : ContentBlock :=
  {| ContentBlock_Type := "image"; ContentBlock_Text := ""; ContentBlock_Path := "";
     ContentBlock_Format := format; ContentBlock_Data := base64Data;
     ContentBlock_MediaType := ""; ContentBlock_Name := "" |}.

Definition UserMessage (blocks : list ContentBlock) : Message :=
  {| Message_Role := "user"; Message_Content := blocks |}.

Definition AssistantMessage (blocks : list ContentBlock) : Message :=
  {| Message_Role := "assistant"; Message_Content := blocks |}.

(* ================================================================== *)
(** * models.go, backend.go                                             *)
(* ================================================================== *)

Definition ModelHaiku45 : string := "us.anthropic.claude-haiku-4-5-20251001-v1:0".
Definition ModelSonnet45 : string := "us.anthropic.claude-sonnet-4-5-20250929-v1:0".
Definition ModelSonnet46 : string := "us.anthropic.claude-sonnet-4-6".
Definition ModelSonnet4 : string := "us.anthropic.claude-sonnet-4-20250514-v1:0".

Definition allModels : list ModelInfo :=
  [ {| ModelInfo_ModelID := ModelHaiku45; ModelInfo_Status := "available"; ModelInfo_Hint := "" |};
    {| ModelInfo_ModelID := ModelSonnet45; ModelInfo_Status := "available"; ModelInfo_Hint := "" |};
    {| ModelInfo_ModelID := ModelSonnet46; ModelInfo_Status := "available"; ModelInfo_Hint := "" |};
    {| ModelInfo_ModelID := ModelSonnet4; ModelInfo_Status := "available"; ModelInfo_Hint := "" |} ].

(* ================================================================== *)
(** * encoding/base64, the standard encoding                            *)
(* ================================================================== *)

(** The repository calls [base64.StdEncoding.EncodeToString]; its test
    decodes with [base64.StdEncoding.DecodeString]. Both belong to the Go
    standard library; they are embedded here after the library's
    [Encode] and [decodeQuantum] (RFC 4648, section 4, with padding). *)

Definition encodeStd : string :=
  "ABCDEFGHIJKLMNOPQRSTUVWXYZabcdefghijklmnopqrstuvwxyz0123456789+/".

Definition StdPadding : ascii := "=".

(** [enc.encode[i]]. *)
Definition encodeChar (i : N) : ascii :=
  match String.get (N.to_nat i) encodeStd with
  | Some c => c
  | None => zero
  end.

(** Position of [c] in [s], counted from [i]. *)
Fixpoint indexFrom (i : N) (c : ascii) (s : string) : option N :=
  match s with
  | "" => None
  | String d s' => if Ascii.eqb c d then Some i else indexFrom (N.succ i) c s'
  end.

(** [enc.decodeMap[c]]: the inverse table, [None] for the 0xFF entries. *)
Definition decodeMap (c : ascii) : option N := indexFrom 0 c encodeStd.

(** The 24-bit group of three source bytes. *)
Definition quantum (a b c : byte) : N :=
  N.lor (N.lor (N.shiftl (Byte.to_N a) 16) (N.shiftl (Byte.to_N b) 8)) (Byte.to_N c).

(** [val>>shift&0x3F], and the character [enc.encode[val>>shift&0x3F]]. *)
Definition sextetOf (val shift : N) : N := N.land (N.shiftr val shift) 63.

Definition sextet (val shift : N) : ascii := encodeChar (sextetOf val shift).

(** [Encoding.Encode] for [StdEncoding]: full groups, then the remainder
    of one or two bytes with padding. *)
Fixpoint EncodeToString (src : list byte) : string :=
  match src with
  | [] => ""
  | [a] =>
      let val := N.shiftl (Byte.to_N a) 16 in
      String (sextet val 18) (String (sextet val 12)
        (String StdPadding (String StdPadding "")))
  | [a; b] =>
      let val := N.lor (N.shiftl (Byte.to_N a) 16) (N.shiftl (Byte.to_N b) 8) in
      String (sextet val 18) (String (sextet val 12)
        (String (sextet val 6) (String StdPadding "")))
  | a :: b :: c :: rest =>
      let val := quantum a b c in
      String (sextet val 18) (String (sextet val 12)
        (String (sextet val 6) (String (sextet val 0) (EncodeToString rest))))
  end.

(** The Go conversion [byte(x)] of an unsigned integer. *)
Definition toByte (x : N) : byte :=
  match Byte.of_N (N.land x 255) with
  | Some b => b
  | None => x00
  end.

(** The value assembled from four decoded sextets. *)
Definition unquantum (d0 d1 d2 d3 : N) : N :=
  N.lor (N.lor (N.lor (N.shiftl d0 18) (N.shiftl d1 12)) (N.shiftl d2 6)) d3.

(** [Encoding.DecodeString] for [StdEncoding] on input without line
    breaks: groups of four characters, padding only in the last group,
    [None] for the library's [CorruptInputError]. *)
Fixpoint DecodeString (s : string) : option (list byte) :=
  match s with
  | "" => Some []
  | String c0 (String c1 (String c2 (String c3 rest))) =>
      match decodeMap c0, decodeMap c1 with
      | Some d0, Some d1 =>
          match decodeMap c2, decodeMap c3 with
          | Some d2, Some d3 =>
              let val := unquantum d0 d1 d2 d3 in
              match DecodeString rest with
              | Some tl =>
                  Some (toByte (N.shiftr val 16) :: toByte (N.shiftr val 8)
                          :: toByte val :: tl)
              | None => None
              end
          | Some d2, None =>
              if Ascii.eqb c3 StdPadding && String.eqb rest "" then
                let val := unquantum d0 d1 d2 0 in
                Some [toByte (N.shiftr val 16); toByte (N.shiftr val 8)]
              else None
          | None, _ =>
              if Ascii.eqb c2 StdPadding && Ascii.eqb c3 StdPadding
                 && String.eqb rest "" then
                let val := unquantum d0 d1 0 0 in
                Some [toByte (N.shiftr val 16)]
              else None
          end
      | _, _ => None
      end
  | _ => None
  end.

(* ================================================================== *)
(** * backend_anthropic.go: model mapping and the content-block codec   *)
(* ================================================================== *)

(** A value stored in a [map[string]interface{}] by the codec: a string,
    a slice of values, or a nested map. *)
Inductive Value :=
| VString (s : string)
| VList (l : list Value)
| VMap (m : gmap string Value).

Definition modelMap : gmap string string :=
  <[ModelHaiku45 := "claude-haiku-4-5-20251001"]>
  (<[ModelSonnet45 := "claude-sonnet-4-5-20250929"]>
  (<[ModelSonnet46 := "claude-sonnet-4-6"]>
  (<[ModelSonnet4 := "claude-sonnet-4-20250514"]> ∅))).

Definition MapModel (bedrockID : string) : string :=
  match modelMap !! bedrockID with
  | Some name => name
  | None =>
      if HasPrefix bedrockID "us.anthropic."
      then TrimPrefix bedrockID "us.anthropic."
      else bedrockID
  end.

Definition docMediaTypes : gmap string string :=
  <["pdf" := "application/pdf"]>
  (<["csv" := "text/csv"]>
  (<["txt" := "text/plain"]>
  (<["md" := "text/markdown"]>
  (<["html" := "text/html"]> ∅)))).

Definition docMediaType (ext : string) : string :=
  match docMediaTypes !! ext with
  | Some mt => mt
  | None => "application/octet-stream"
  end.

(** [os.ReadFile]: the file system the codec reads from. *)
Definition FileSystem := string -> error + list byte.

(** The map literal [{"type": "text", "text": text}]. *)
Definition textMap (text : string) : gmap string Value :=
  <["type" := VString "text"]> (<["text" := VString text]> ∅).

(** The map literal [{"type": typ, "source": {"type": "base64",
    "media_type": mediaType, "data": data}}]. *)
Definition sourceMap (typ mediaType data : string) : gmap string Value :=
  <["type" := VString typ]>
  (<["source" := VMap (<["type" := VString "base64"]>
                      (<["media_type" := VString mediaType]>
                      (<["data" := VString data]> ∅)))]> ∅).

Definition convertEFSDocument (ReadFile : FileSystem) (block : ContentBlock)
  : gmap string Value :=
  if String.eqb (ContentBlock_Path block) "" then
    textMap "[File not available locally: empty path]"
  else
    match ReadFile (ContentBlock_Path block) with
    | inl _ =>
        textMap (Sprintf "[File not available locally: %s]"
                         [ArgS (ContentBlock_Path block)])
    | inr data =>
        let ext := TrimPrefix (Ext (ContentBlock_Path block)) "." in
        sourceMap "document" (docMediaType ext) (EncodeToString data)
    end.

Definition convertContentBlock (ReadFile : FileSystem) (block : ContentBlock)
  : gmap string Value :=
  if String.eqb (ContentBlock_Type block) "text" then
    textMap (ContentBlock_Text block)
  else if String.eqb (ContentBlock_Type block) "image" then
    let mediaType := ContentBlock_MediaType block in
    let mediaType :=
      if String.eqb mediaType "" && negb (String.eqb (ContentBlock_Format block) "")
      then "image/" ++ ContentBlock_Format block
      else mediaType in
    sourceMap "image" mediaType (ContentBlock_Data block)
  else if String.eqb (ContentBlock_Type block) "document" then
    let mediaType := ContentBlock_MediaType block in
    let mediaType :=
      if String.eqb mediaType "" then docMediaType (ContentBlock_Format block)
      else mediaType in
    sourceMap "document" mediaType (ContentBlock_Data block)
  else if String.eqb (ContentBlock_Type block) "efs_document" then
    convertEFSDocument ReadFile block
  else
    textMap (Sprintf "[Unsupported content block: %s]" [ArgS (ContentBlock_Type block)]).

(** [convertMessages]: both loops append to a slice that starts empty. *)
Definition convertMessages (ReadFile : FileSystem) (messages : list Message)
  : list (gmap string Value) :=
  fold_left
    (fun result msg =>
       let blocks :=
         fold_left
           (fun blocks block =>
              (blocks ++ [VMap (convertContentBlock ReadFile block)])%list)
           (Message_Content msg) [] in
       (result ++ [<["role" := VString (Message_Role msg)]>
                   (<["content" := VList blocks]> ∅)])%list)
    messages [].

(** One message in the wire format: its role, and one converted block
    for each of its content blocks, in order. *)
Definition convertMessage (ReadFile : FileSystem) (msg : Message) : gmap string Value :=
  <["role" := VString (Message_Role msg)]>
  (<["content" :=
       VList (map (fun block => VMap (convertContentBlock ReadFile block))
                  (Message_Content msg))]> ∅).

(* ================================================================== *)
(** * The collaborators: transports, environment, encoding/json         *)
(* ================================================================== *)

(** [lambda.InvokeInput] and [lambda.InvokeOutput], the fields used. *)
Record InvokeInput := {
  InvokeInput_FunctionName : string;
  InvokeInput_Payload : string
}.

Record InvokeOutput := {
  InvokeOutput_FunctionError : option string;
  InvokeOutput_Payload : string
}.

(** A [*lambda.Client]: the invocation channel. *)
Record lambdaClient := {
  lambdaClient_Invoke : InvokeInput -> error + InvokeOutput
}.

(** An [aws.Config], as far as [lambda.NewFromConfig] uses it. *)
Record awsConfig := {
  awsConfig_client : lambdaClient
}.

(** An [*http.Request] and an [*http.Response]; the body of a response
    is what [io.ReadAll(resp.Body)] returns. *)
Record httpRequest := {
  httpRequest_Method : string;
  httpRequest_URL : string;
  httpRequest_Header : gmap string string;
  httpRequest_Body : string
}.

Record httpResponse := {
  httpResponse_StatusCode : Z;
  httpResponse_Body : error + string
}.

(** An [*http.Client]. *)
Record httpClient := {
  httpClient_Do : httpRequest -> error + httpResponse
}.

Definition StatusOK : Z := 200.

(** What has been handed to the two transports, oldest first. *)
Record World := {
  World_invocations : list InvokeInput;
  World_requests : list httpRequest
}.

Definition emptyWorld : World :=
  {| World_invocations := []; World_requests := [] |}.

(** The process environment of the package. *)
Class Env := {
  Getenv : string -> string;
  ReadFile : FileSystem;
  LoadDefaultConfig : error + awsConfig;
  DefaultClient : httpClient
}.

(** [json.Marshal] and [json.Unmarshal] at a given Go type. *)
Class Marshaler (T : Type) := Marshal : T -> error + string.
Class Unmarshaler (T : Type) := Unmarshal : string -> error + T.

(** ** A state and error monad for the code that threads [err] *)

Definition M (S A : Type) : Type := S -> (error + A) * S.

Definition ret {S A} (a : A) : M S A := fun s => (inr a, s).

Definition fail {S A} (err : error) : M S A := fun s => (inl err, s).

Definition bind {S A B} (m : M S A) (k : A -> M S B) : M S B :=
  fun s =>
    match m s with
    | (inl err, s') => (inl err, s')
    | (inr a, s') => k a s'
    end.

(** [v, err := f(); if err != nil { return fmt.Errorf(format, err) }]. *)
Definition wrapErr {S A} (format : string) (r : error + A) : M S A :=
  match r with
  | inl err => fail (Errorf_w format err)
  | inr a => ret a
  end.

Definition gets {S A} (f : S -> A) : M S A := fun s => (inr (f s), s).

Definition modify {S} (f : S -> S) : M S unit := fun s => (inr tt, f s).

Notation "'let*' x ':=' m 'in' k" := (bind m (fun x => k))
  (at level 10, x name, m at level 100, k at level 200).

(* ================================================================== *)
(** * backend_anthropic.go: the backend                                 *)
(* ================================================================== *)

Record AnthropicBackend := {
  AnthropicBackend_apiKey : string;
  AnthropicBackend_httpClient : httpClient
}.

Definition AnthropicOption := AnthropicBackend -> AnthropicBackend.

Definition WithAPIKey (key : string) : AnthropicOption :=
  fun b => {| AnthropicBackend_apiKey := key;
              AnthropicBackend_httpClient := AnthropicBackend_httpClient b |}.

Definition WithHTTPClient (client : httpClient) : AnthropicOption :=
  fun b => {| AnthropicBackend_apiKey := AnthropicBackend_apiKey b;
              AnthropicBackend_httpClient := client |}.

Definition NewAnthropicBackend `{Env} (opts : list AnthropicOption) : AnthropicBackend :=
  let b := {| AnthropicBackend_apiKey := Getenv "ANTHROPIC_API_KEY";
              AnthropicBackend_httpClient := DefaultClient |} in
  fold_left (fun b opt => opt b) opts b.

Record anthropicRequest := {
  anthropicRequest_Model : string;
  anthropicRequest_MaxTokens : Z;
  anthropicRequest_System : string;
  anthropicRequest_Temperature : float32;
  anthropicRequest_Messages : list (gmap string Value)
}.

Record anthropicContentBlock := {
  anthropicContentBlock_Type : string;
  anthropicContentBlock_Text : string
}.

Record anthropicUsage := {
  anthropicUsage_InputTokens : Z;
  anthropicUsage_OutputTokens : Z
}.

Record anthropicResponse := {
  anthropicResponse_Content : list anthropicContentBlock;
  anthropicResponse_Model : string;
  anthropicResponse_StopReason : string;
  anthropicResponse_Usage : anthropicUsage
}.

Record anthropicErrorResponse := {
  anthropicErrorResponse_Error_Type : string;
  anthropicErrorResponse_Error_Message : string
}.

(** [httpClient.Do]: the request reaches the transport. *)
Definition Do (client : httpClient) (httpReq : httpRequest)
  : M World (error + httpResponse) :=
  fun w =>
    (inr (httpClient_Do client httpReq),
     {| World_invocations := World_invocations w;
        World_requests := (World_requests w ++ [httpReq])%list |}).

(** The request struct [apiReq] that [Invoke] builds. *)
Definition apiRequest `{Env} (req : InvokeRequest) : anthropicRequest :=
  let model := MapModel (InvokeRequest_Model req) in
  let maxTokens := InvokeRequest_MaxTokens req in
  let maxTokens := if (maxTokens =? 0)%Z then 1024%Z else maxTokens in
  {| anthropicRequest_Model := model;
     anthropicRequest_MaxTokens := maxTokens;
     anthropicRequest_System := InvokeRequest_System req;
     anthropicRequest_Temperature := InvokeRequest_Temperature req;
     anthropicRequest_Messages := convertMessages ReadFile (InvokeRequest_Messages req) |}.

(** The loop of [Invoke] over [apiResp.Content]. *)
Definition textContent (blocks : list anthropicContentBlock) : list ResponseContent :=
  fold_left
    (fun content block =>
       if String.eqb (anthropicContentBlock_Type block) "text"
       then (content ++ [{| ResponseContent_Type := "text";
                            ResponseContent_Text := anthropicContentBlock_Text block |}])%list
       else content)
    blocks [].

(** The [InvokeResponse] that [Invoke] returns for a decoded reply. *)
Definition responseOf (apiResp : anthropicResponse) : InvokeResponse :=
  {| InvokeResponse_Content := textContent (anthropicResponse_Content apiResp);
     InvokeResponse_Model := anthropicResponse_Model apiResp;
     InvokeResponse_Usage :=
       {| UsageInfo_InputTokens := anthropicUsage_InputTokens (anthropicResponse_Usage apiResp);
          UsageInfo_OutputTokens := anthropicUsage_OutputTokens (anthropicResponse_Usage apiResp);
          UsageInfo_EstimatedCostUsd := zeroFloat |};
     InvokeResponse_BudgetRemaining := zeroBudgetInfo;
     InvokeResponse_StopReason := anthropicResponse_StopReason apiResp |}.

(** The request [http.NewRequestWithContext] returns, with the three
    headers set; the method and the URL are constants, so it does not fail. *)
Definition newMessagesRequest (b : AnthropicBackend) (body : string) : httpRequest :=
  {| httpRequest_Method := "POST";
     httpRequest_URL := "https://api.anthropic.com/v1/messages";
     httpRequest_Header :=
       <["anthropic-version" := "2023-06-01"]>
       (<["x-api-key" := AnthropicBackend_apiKey b]>
       (<["Content-Type" := "application/json"]> ∅));
     httpRequest_Body := body |}.

Definition AnthropicBackend_Invoke
  `{Env} `{Marshaler anthropicRequest}
  `{Unmarshaler anthropicResponse} `{Unmarshaler anthropicErrorResponse}
  (b : AnthropicBackend) (req : InvokeRequest) : M World InvokeResponse :=
  let apiReq := apiRequest req in
  let* body := wrapErr "failed to marshal Anthropic request: %w" (Marshal apiReq) in
  let httpReq := newMessagesRequest b body in
  let* r := Do (AnthropicBackend_httpClient b) httpReq in
  let* resp := wrapErr "Anthropic API request failed: %w" r in
  let* respBody := wrapErr "failed to read response body: %w" (httpResponse_Body resp) in
  if negb (httpResponse_StatusCode resp =? StatusOK)%Z then
    match Unmarshal respBody with
    | inr errResp =>
        if negb (String.eqb (anthropicErrorResponse_Error_Message errResp) "") then
          fail (Errorf "Anthropic API error (%s): %s"
                  [ArgS (anthropicErrorResponse_Error_Type errResp);
                   ArgS (anthropicErrorResponse_Error_Message errResp)])
        else
          fail (Errorf "Anthropic API returned status %d: %s"
                  [ArgD (httpResponse_StatusCode resp); ArgS respBody])
    | inl _ =>
        fail (Errorf "Anthropic API returned status %d: %s"
                [ArgD (httpResponse_StatusCode resp); ArgS respBody])
    end
  else
    let* apiResp := wrapErr "failed to unmarshal Anthropic response: %w" (Unmarshal respBody) in
    ret (responseOf apiResp).

Definition infFloat : spec_float := S754_infinity false.

Definition AnthropicBackend_CheckBudget (b : AnthropicBackend) (executionRunID : string)
  : M World CheckBudgetResponse :=
  ret {| CheckBudgetResponse_BudgetPeriod := "none";
         CheckBudgetResponse_PeriodBudgetUsd := zeroFloat;
         CheckBudgetResponse_PeriodUsedUsd := zeroFloat;
         CheckBudgetResponse_PeriodRemainingUsd := infFloat;
         CheckBudgetResponse_ExecutionBudgetUsd := zeroFloat;
         CheckBudgetResponse_ExecutionUsedUsd := zeroFloat;
         CheckBudgetResponse_ExecutionRemainingUsd := infFloat |}.

Definition AnthropicBackend_ListModels (b : AnthropicBackend) : M World ListModelsResponse :=
  ret {| ListModelsResponse_Models := allModels |}.

(* ================================================================== *)
(** * backend_lambda.go                                                 *)
(* ================================================================== *)

Record LambdaBackend := {
  LambdaBackend_functionName : string;
  LambdaBackend_lambdaClient : option lambdaClient
}.

Definition NewLambdaBackend (functionName : string) (client : option lambdaClient)
  : LambdaBackend :=
  {| LambdaBackend_functionName := functionName;
     LambdaBackend_lambdaClient := client |}.

(** [lambdaClient.Invoke]: the input reaches the invocation channel. *)
Definition lambdaInvoke {S} (client : lambdaClient) (input : InvokeInput)
  : M (S * World) (error + InvokeOutput) :=
  fun '(s, w) =>
    (inr (lambdaClient_Invoke client input),
     (s, {| World_invocations := (World_invocations w ++ [input])%list;
            World_requests := World_requests w |})).

(** [ensureClient] sets [b.lambdaClient] when it is nil; the embedding
    also returns the client that the field then holds. *)
Definition LambdaBackend_ensureClient `{Env} : M (LambdaBackend * World) lambdaClient :=
  fun '(b, w) =>
    match LambdaBackend_lambdaClient b with
    | Some client => (inr client, (b, w))
    | None =>
        match LoadDefaultConfig with
        | inl err => (inl (Errorf_w "failed to load AWS config: %w" err), (b, w))
        | inr cfg =>
            let client := awsConfig_client cfg in
            (inr client,
             ({| LambdaBackend_functionName := LambdaBackend_functionName b;
                 LambdaBackend_lambdaClient := Some client |}, w))
        end
    end.

(** The [GovernorError] built from an error envelope. *)
Definition governorErrorOf (errResp : ErrorResponse) : GovernorError :=
  {| GovernorError_Code := ErrorResponse_Error errResp;
     GovernorError_Msg := ErrorResponse_Message errResp;
     GovernorError_AllowedModels := ErrorResponse_AllowedModels errResp;
     GovernorError_BudgetRemaining := ErrorResponse_BudgetRemaining errResp;
     GovernorError_RetryAfterSec := ErrorResponse_RetryAfterSec errResp |}.

(** The tail of [call]: what is done with the output of the channel. *)
Definition handleOutput {S R} `{Unmarshaler ErrorResponse} `{Unmarshaler R}
  (output : InvokeOutput) : M S R :=
  match InvokeOutput_FunctionError output with
  | Some functionError =>
      fail (Errorf "governor function error: %s" [ArgS functionError])
  | None =>
      match Unmarshal (InvokeOutput_Payload output) with
      | inr errResp =>
          if negb (String.eqb (ErrorResponse_Error errResp) "") then
            fail (governorError (governorErrorOf errResp))
          else
            wrapErr "failed to unmarshal response: %w"
                (Unmarshal (InvokeOutput_Payload output))
      | inl _ =>
          wrapErr "failed to unmarshal response: %w"
              (Unmarshal (InvokeOutput_Payload output))
      end
  end.

Definition LambdaBackend_call {P R} `{Env}
  `{Marshaler P} `{Unmarshaler ErrorResponse} `{Unmarshaler R}
  (payload : P) : M (LambdaBackend * World) R :=
  let* client := LambdaBackend_ensureClient in
  let* payloadBytes := wrapErr "failed to marshal request: %w" (Marshal payload) in
  let* functionName := gets (fun s => LambdaBackend_functionName (fst s)) in
  let* r := lambdaInvoke client {| InvokeInput_FunctionName := functionName;
                                   InvokeInput_Payload := payloadBytes |} in
  let* output := wrapErr "failed to invoke governor: %w" r in
  handleOutput output.

Definition LambdaBackend_Invoke `{Env}
  `{Marshaler InvokeRequest} `{Unmarshaler ErrorResponse} `{Unmarshaler InvokeResponse}
  (req : InvokeRequest) : M (LambdaBackend * World) InvokeResponse :=
  LambdaBackend_call req.

Definition LambdaBackend_CheckBudget `{Env}
  `{Marshaler (gmap string Value)} `{Unmarshaler ErrorResponse}
  `{Unmarshaler CheckBudgetResponse}
  (executionRunID : string) : M (LambdaBackend * World) CheckBudgetResponse :=
  let payload : gmap string Value :=
    <["action" := VString "check-budget"]>
    (<["executionRunId" := VString executionRunID]> ∅) in
  LambdaBackend_call payload.

Definition LambdaBackend_ListModels `{Env}
  `{Marshaler (gmap string Value)} `{Unmarshaler ErrorResponse}
  `{Unmarshaler ListModelsResponse}
  : M (LambdaBackend * World) ListModelsResponse :=
  let payload : gmap string Value := <["action" := VString "list-models"]> ∅ in
  LambdaBackend_call payload.

(* ================================================================== *)
(** * backend_mock.go                                                   *)
(* ================================================================== *)

(** The mutex [mu] makes every method atomic; the embedding is
    sequential. A registered response is a pointer to a response: the
    slice holds response values, nil is not among them. *)
Record MockBackend := {
  MockBackend_responses : list InvokeResponse;
  MockBackend_callLog : list InvokeRequest
}.

Definition NewMockBackend : MockBackend :=
  {| MockBackend_responses := []; MockBackend_callLog := [] |}.

Definition SetResponse (b : MockBackend) (resp : InvokeResponse) : MockBackend :=
  {| MockBackend_responses := [resp];
     MockBackend_callLog := MockBackend_callLog b |}.

Definition SetResponses (b : MockBackend) (responses : list InvokeResponse) : MockBackend :=
  {| MockBackend_responses := responses;
     MockBackend_callLog := MockBackend_callLog b |}.

Definition Calls (b : MockBackend) : list InvokeRequest := MockBackend_callLog b.

(** The inner loop of the echo: the text of the first block of type
    [text] with a non-empty text, [""] when there is none. *)
Fixpoint firstText (content : list ContentBlock) : string :=
  match content with
  | [] => ""
  | block :: rest =>
      if String.eqb (ContentBlock_Type block) "text"
         && negb (String.eqb (ContentBlock_Text block) "")
      then ContentBlock_Text block
      else firstText rest
  end.

(** A block that the echo takes: type [text] and a non-empty text. *)
Definition echoable (block : ContentBlock) : Prop :=
  ContentBlock_Type block = "text" /\ ContentBlock_Text block <> "".

(** The outer loop, [for i := len(req.Messages) - 1; i >= 0; i--]: the
    argument is [i + 1]. *)
Fixpoint lastUserPrompt (messages : list Message) (i : nat) : string :=
  match i with
  | O => ""
  | S j =>
      match messages !! j with
      | None => ""
      | Some msg =>
          if String.eqb (Message_Role msg) "user"
          then firstText (Message_Content msg)
          else lastUserPrompt messages j
      end
  end.

Definition MockBackend_Invoke (req : InvokeRequest) : M MockBackend InvokeResponse :=
  fun b =>
    let callLog := (MockBackend_callLog b ++ [req])%list in
    match MockBackend_responses b with
    | resp :: rest =>
        if (1 <? length (resp :: rest))%nat then
          (inr resp, {| MockBackend_responses := rest; MockBackend_callLog := callLog |})
        else
          (inr resp, {| MockBackend_responses := resp :: rest;
                        MockBackend_callLog := callLog |})
    | [] =>
        let promptText :=
          lastUserPrompt (InvokeRequest_Messages req)
                         (length (InvokeRequest_Messages req)) in
        (inr {| InvokeResponse_Content :=
                  [{| ResponseContent_Type := "text";
                      ResponseContent_Text := Sprintf "[mock] %s" [ArgS promptText] |}];
                InvokeResponse_Model := InvokeRequest_Model req;
                InvokeResponse_Usage := zeroUsageInfo;
                InvokeResponse_BudgetRemaining := zeroBudgetInfo;
                InvokeResponse_StopReason := "end_turn" |},
         {| MockBackend_responses := []; MockBackend_callLog := callLog |})
    end.

Definition hundred : spec_float := S754_finite false 25 2.
Definition ten : spec_float := S754_finite false 5 1.

Definition MockBackend_CheckBudget (executionRunID : string)
  : M MockBackend CheckBudgetResponse :=
  ret {| CheckBudgetResponse_BudgetPeriod := "mock";
         CheckBudgetResponse_PeriodBudgetUsd := hundred;
         CheckBudgetResponse_PeriodUsedUsd := zeroFloat;
         CheckBudgetResponse_PeriodRemainingUsd := hundred;
         CheckBudgetResponse_ExecutionBudgetUsd := ten;
         CheckBudgetResponse_ExecutionUsedUsd := zeroFloat;
         CheckBudgetResponse_ExecutionRemainingUsd := ten |}.

Definition MockBackend_ListModels : M MockBackend ListModelsResponse :=
  ret {| ListModelsResponse_Models := allModels |}.

(** Invoking the mock on a list of requests, one after the other: the
    results of the calls in order, and the final state. *)
Fixpoint invokeAll (reqs : list InvokeRequest) (b : MockBackend)
  : list (error + InvokeResponse) * MockBackend :=
  match reqs with
  | [] => ([], b)
  | req :: reqs' =>
      let '(r, b') := MockBackend_Invoke req b in
      let '(rs, b'') := invokeAll reqs' b' in
      (r :: rs, b'')
  end.

(* ================================================================== *)
(** * backend.go: the interface                                         *)
(* ================================================================== *)

(** An implementation of [Backend] from outside the package. *)
Record OtherBackend := {
  OtherBackend_Invoke : InvokeRequest -> M World InvokeResponse;
  OtherBackend_CheckBudget : string -> M World CheckBudgetResponse;
  OtherBackend_ListModels : M World ListModelsResponse
}.

(** A value of the interface type [Backend]: nil, or a pointer to one of
    the implementations. *)
Inductive Backend :=
| nilBackend
| LambdaB (b : LambdaBackend)
| AnthropicB (b : AnthropicBackend)
| MockB (b : MockBackend)
| OtherB (b : OtherBackend).

(** Calling a method on a nil interface value panics. *)
Definition nilDereference : error :=
  runtimePanic "runtime error: invalid memory address or nil pointer dereference".

(** The JSON codecs a method call may need, whatever the backend. *)
Class Codecs := {
  Codecs_InvokeRequest :: Marshaler InvokeRequest;
  Codecs_map :: Marshaler (gmap string Value);
  Codecs_anthropicRequest :: Marshaler anthropicRequest;
  Codecs_ErrorResponse :: Unmarshaler ErrorResponse;
  Codecs_InvokeResponse :: Unmarshaler InvokeResponse;
  Codecs_CheckBudgetResponse :: Unmarshaler CheckBudgetResponse;
  Codecs_ListModelsResponse :: Unmarshaler ListModelsResponse;
  Codecs_anthropicResponse :: Unmarshaler anthropicResponse;
  Codecs_anthropicErrorResponse :: Unmarshaler anthropicErrorResponse
}.

(** Dynamic dispatch of [backend.Invoke(ctx, req)]. *)
Definition Backend_Invoke `{Env} `{Codecs} (req : InvokeRequest)
  : M (Backend * World) InvokeResponse :=
  fun '(backend, w) =>
    match backend with
    | nilBackend => (inl nilDereference, (backend, w))
    | LambdaB b =>
        let '(r, (b', w')) := LambdaBackend_Invoke req (b, w) in (r, (LambdaB b', w'))
    | AnthropicB b =>
        let '(r, w') := AnthropicBackend_Invoke b req w in (r, (AnthropicB b, w'))
    | MockB b =>
        let '(r, b') := MockBackend_Invoke req b in (r, (MockB b', w))
    | OtherB b =>
        let '(r, w') := OtherBackend_Invoke b req w in (r, (OtherB b, w'))
    end.

(** Dynamic dispatch of [backend.CheckBudget(ctx, executionRunID)]. *)
Definition Backend_CheckBudget `{Env} `{Codecs} (executionRunID : string)
  : M (Backend * World) CheckBudgetResponse :=
  fun '(backend, w) =>
    match backend with
    | nilBackend => (inl nilDereference, (backend, w))
    | LambdaB b =>
        let '(r, (b', w')) := LambdaBackend_CheckBudget executionRunID (b, w) in
        (r, (LambdaB b', w'))
    | AnthropicB b =>
        let '(r, w') := AnthropicBackend_CheckBudget b executionRunID w in
        (r, (AnthropicB b, w'))
    | MockB b =>
        let '(r, b') := MockBackend_CheckBudget executionRunID b in (r, (MockB b', w))
    | OtherB b =>
        let '(r, w') := OtherBackend_CheckBudget b executionRunID w in (r, (OtherB b, w'))
    end.

(** Dynamic dispatch of [backend.ListModels(ctx)]. *)
Definition Backend_ListModels `{Env} `{Codecs}
  : M (Backend * World) ListModelsResponse :=
  fun '(backend, w) =>
    match backend with
    | nilBackend => (inl nilDereference, (backend, w))
    | LambdaB b =>
        let '(r, (b', w')) := LambdaBackend_ListModels (b, w) in (r, (LambdaB b', w'))
    | AnthropicB b =>
        let '(r, w') := AnthropicBackend_ListModels b w in (r, (AnthropicB b, w'))
    | MockB b =>
        let '(r, b') := MockBackend_ListModels b in (r, (MockB b', w))
    | OtherB b =>
        let '(r, w') := OtherBackend_ListModels b w in (r, (OtherB b, w'))
    end.

(** ** backend_mock.go at the level of pointers *)

(** The two slices of the mock hold pointers. A pointer to a response is
    nil ([None]) or points to a response. A pointer to a request is nil or
    the address of a request in the caller's store; the caller (the
    governor's [Invoke] among them) may rewrite the request in place
    between calls, so every call comes with the store of its moment. The
    record [MockBackend] above is this one when no registered pointer is
    nil and the store does not change. *)
Definition loc := nat.

Definition Store := loc -> InvokeRequest.

Record MockBackendPtr := {
  MockBackendPtr_responses : list (option InvokeResponse);
  MockBackendPtr_callLog : list (option loc)
}.


Definition SetResponsePtr (b : MockBackendPtr) (resp : option InvokeResponse)
  : MockBackendPtr :=
  {| MockBackendPtr_responses := [resp];
     MockBackendPtr_callLog := MockBackendPtr_callLog b |}.

Definition SetResponsesPtr (b : MockBackendPtr) (responses : list (option InvokeResponse))
  : MockBackendPtr :=
  {| MockBackendPtr_responses := responses;
     MockBackendPtr_callLog := MockBackendPtr_callLog b |}.

Definition CallsPtr (b : MockBackendPtr) : list (option loc) := MockBackendPtr_callLog b.

(** The response that the echo synthesizes for a request. *)
Definition echoResponse (req : InvokeRequest) : InvokeResponse :=
  let promptText :=
    lastUserPrompt (InvokeRequest_Messages req) (length (InvokeRequest_Messages req)) in
  {| InvokeResponse_Content :=
       [{| ResponseContent_Type := "text";
           ResponseContent_Text := Sprintf "[mock] %s" [ArgS promptText] |}];
     InvokeResponse_Model := InvokeRequest_Model req;
     InvokeResponse_Usage := zeroUsageInfo;
     InvokeResponse_BudgetRemaining := zeroBudgetInfo;
     InvokeResponse_StopReason := "end_turn" |}.

(** [Invoke] returns the Go pair [(resp, err)]: the registered pointer as
    it is, nil included, or a pointer to the echo. The echo reads
    [req.Messages], which panics for a nil request, after the append. *)
Definition MockBackendPtr_Invoke (store : Store) (req : option loc) (b : MockBackendPtr)
  : (option InvokeResponse * option error) * MockBackendPtr :=
  let callLog := (MockBackendPtr_callLog b ++ [req])%list in
  match MockBackendPtr_responses b with
  | resp :: rest =>
      if (1 <? length (resp :: rest))%nat then
        ((resp, None),
         {| MockBackendPtr_responses := rest; MockBackendPtr_callLog := callLog |})
      else
        ((resp, None),
         {| MockBackendPtr_responses := resp :: rest; MockBackendPtr_callLog := callLog |})
  | [] =>
      match req with
      | None =>
          ((None, Some nilDereference),
           {| MockBackendPtr_responses := []; MockBackendPtr_callLog := callLog |})
      | Some l =>
          ((Some (echoResponse (store l)), None),
           {| MockBackendPtr_responses := []; MockBackendPtr_callLog := callLog |})
      end
  end.

(** A sequence of calls, each with the store of its moment and the
    pointer it passes. *)
Fixpoint invokeAllPtr (calls : list (Store * option loc)) (b : MockBackendPtr)
  : list (option InvokeResponse * option error) * MockBackendPtr :=
  match calls with
  | [] => ([], b)
  | (store, req) :: calls' =>
      let '(r, b') := MockBackendPtr_Invoke store req b in
      let '(rs, b'') := invokeAllPtr calls' b' in
      (r :: rs, b'')
  end.

(* ================================================================== *)
(** * governor.go with pluggable backends                               *)
(* ================================================================== *)

(** The version of governor.go that holds a [Backend] (the Go text that
    follows the README under src/; backend_test.go tests it). *)

Record Governor := {
  Governor_functionName : string;
  Governor_executionRunID : string;
  Governor_lambdaClient : option lambdaClient;
  Governor_backend : Backend
}.

Definition GovernorOption := Governor -> Governor.

Definition WithFunctionName (name : string) : GovernorOption :=
  fun g => {| Governor_functionName := name;
              Governor_executionRunID := Governor_executionRunID g;
              Governor_lambdaClient := Governor_lambdaClient g;
              Governor_backend := Governor_backend g |}.

Definition WithExecutionRunID (id : string) : GovernorOption :=
  fun g => {| Governor_functionName := Governor_functionName g;
              Governor_executionRunID := id;
              Governor_lambdaClient := Governor_lambdaClient g;
              Governor_backend := Governor_backend g |}.

Definition WithLambdaClient (client : option lambdaClient) : GovernorOption :=
  fun g => {| Governor_functionName := Governor_functionName g;
              Governor_executionRunID := Governor_executionRunID g;
              Governor_lambdaClient := client;
              Governor_backend := Governor_backend g |}.

Definition WithBackend (b : Backend) : GovernorOption :=
  fun g => {| Governor_functionName := Governor_functionName g;
              Governor_executionRunID := Governor_executionRunID g;
              Governor_lambdaClient := Governor_lambdaClient g;
              Governor_backend := b |}.

Definition setBackend (g : Governor) (b : Backend) : Governor := WithBackend b g.

(** The struct literal of [NewGovernor] with the options applied in
    order: the governor before the backend is selected. *)
Definition configured `{Env} (opts : list GovernorOption) : Governor :=
  let g := {| Governor_functionName := Getenv "LLM_GOVERNOR_FUNCTION";
              Governor_executionRunID := Getenv "EXECUTION_RUN_ID";
              Governor_lambdaClient := None;
              Governor_backend := nilBackend |} in
  fold_left (fun g opt => opt g) opts g.

Definition NewGovernor `{Env} (opts : list GovernorOption) : Governor :=
  let g := configured opts in
  match Governor_backend g with
  | nilBackend =>
      if negb (String.eqb (Governor_functionName g) "") then
        setBackend g (LambdaB (NewLambdaBackend (Governor_functionName g)
                                                (Governor_lambdaClient g)))
      else if negb (String.eqb (Getenv "ANTHROPIC_API_KEY") "") then
        setBackend g (AnthropicB (NewAnthropicBackend []))
      else
        setBackend g (MockB NewMockBackend)
  | _ => g
  end.

(** [Available]: the type assertion of the backend to a mock pointer. *)
Definition Available (g : Governor) : bool :=
  let isMock := match Governor_backend g with MockB _ => true | _ => false end in
  negb isMock.

Definition Governor_Backend (g : Governor) : Backend := Governor_backend g.

(** The request that [req] points to after the two assignments of [Invoke]. *)
Definition withDefaults (g : Governor) (req : InvokeRequest) : InvokeRequest :=
  let action :=
    if String.eqb (InvokeRequest_Action req) "" then "invoke"
    else InvokeRequest_Action req in
  let executionRunID :=
    if String.eqb (InvokeRequest_ExecutionRunID req) "" then Governor_executionRunID g
    else InvokeRequest_ExecutionRunID req in
  {| InvokeRequest_Action := action;
     InvokeRequest_Model := InvokeRequest_Model req;
     InvokeRequest_Messages := InvokeRequest_Messages req;
     InvokeRequest_System := InvokeRequest_System req;
     InvokeRequest_MaxTokens := InvokeRequest_MaxTokens req;
     InvokeRequest_Temperature := InvokeRequest_Temperature req;
     InvokeRequest_ExecutionRunID := executionRunID;
     InvokeRequest_ExecutionBudgetUsd := InvokeRequest_ExecutionBudgetUsd req |}.

(** Running a method of the backend the governor points to. *)
Definition onBackend {A} (m : M (Backend * World) A) : M (Governor * World) A :=
  fun '(g, w) =>
    let '(r, (backend', w')) := m (Governor_backend g, w) in
    (r, (setBackend g backend', w')).

Definition Governor_Invoke `{Env} `{Codecs} (req : InvokeRequest)
  : M (Governor * World) InvokeResponse :=
  fun '(g, w) => onBackend (Backend_Invoke (withDefaults g req)) (g, w).

(** [(r *InvokeResponse).Text]. *)
Definition Text (r : InvokeResponse) : string :=
  fold_left
    (fun text c =>
       if String.eqb (ResponseContent_Type c) "text"
       then text ++ ResponseContent_Text c
       else text)
    (InvokeResponse_Content r) "".

Definition newRequest (model system : string) (messages : list Message) : InvokeRequest :=
  {| InvokeRequest_Action := "";
     InvokeRequest_Model := model;
     InvokeRequest_Messages := messages;
     InvokeRequest_System := system;
     InvokeRequest_MaxTokens := 0;
     InvokeRequest_Temperature := zeroFloat;
     InvokeRequest_ExecutionRunID := "";
     InvokeRequest_ExecutionBudgetUsd := zeroFloat |}.

Definition Ask `{Env} `{Codecs} (model prompt : string) : M (Governor * World) string :=
  let* resp := Governor_Invoke (newRequest model "" [UserMessage [TextBlock prompt]]) in
  ret (Text resp).

Definition AskWithSystem `{Env} `{Codecs} (model system prompt : string)
  : M (Governor * World) string :=
  let* resp := Governor_Invoke (newRequest model system [UserMessage [TextBlock prompt]]) in
  ret (Text resp).

Definition AskAboutFile `{Env} `{Codecs} (model prompt filePath : string)
  : M (Governor * World) string :=
  let* resp := Governor_Invoke
                 (newRequest model "" [UserMessage [TextBlock prompt; FileBlock filePath]]) in
  ret (Text resp).

Definition Governor_CheckBudget `{Env} `{Codecs} : M (Governor * World) CheckBudgetResponse :=
  fun '(g, w) => onBackend (Backend_CheckBudget (Governor_executionRunID g)) (g, w).

Definition Governor_ListModels `{Env} `{Codecs} : M (Governor * World) ListModelsResponse :=
  onBackend Backend_ListModels.

(** [Invoke] of the governor at the level of pointers, for a governor
    with settings [g] whose backend is the mock [b]: the caller's request
    is rewritten in place, then its pointer is handed to the mock. *)
Definition storeAt (store : Store) (l : loc) (req : InvokeRequest) : Store :=
  fun l' => if Nat.eqb l' l then req else store l'.

Definition Governor_InvokePtr
  (g : Governor) (req : loc) (store : Store) (b : MockBackendPtr)
  : (option InvokeResponse * option error) * (MockBackendPtr * Store) :=
  let store' := storeAt store req (withDefaults g (store req)) in
  let '(r, b') := MockBackendPtr_Invoke store' (Some req) b in
  (r, (b', store')).

(* ================================================================== *)
(** * src/llm/governor.go: the governor that invokes the Lambda itself  *)
(* ================================================================== *)

Module LambdaGovernor.

Record Governor := {
  Governor_functionName : string;
  Governor_executionRunID : string;
  Governor_lambdaClient : option lambdaClient
}.

Definition GovernorOption := Governor -> Governor.

Definition WithFunctionName (name : string) : GovernorOption :=
  fun g => {| Governor_functionName := name;
              Governor_executionRunID := Governor_executionRunID g;
              Governor_lambdaClient := Governor_lambdaClient g |}.

Definition WithExecutionRunID (id : string) : GovernorOption :=
  fun g => {| Governor_functionName := Governor_functionName g;
              Governor_executionRunID := id;
              Governor_lambdaClient := Governor_lambdaClient g |}.

Definition WithLambdaClient (client : option lambdaClient) : GovernorOption :=
  fun g => {| Governor_functionName := Governor_functionName g;
              Governor_executionRunID := Governor_executionRunID g;
              Governor_lambdaClient := client |}.

Definition NewGovernor `{Env} (opts : list GovernorOption) : Governor :=
  let g := {| Governor_functionName := Getenv "LLM_GOVERNOR_FUNCTION";
              Governor_executionRunID := Getenv "EXECUTION_RUN_ID";
              Governor_lambdaClient := None |} in
  fold_left (fun g opt => opt g) opts g.

Definition ensureClient `{Env} : M (Governor * World) lambdaClient :=
  fun '(g, w) =>
    match Governor_lambdaClient g with
    | Some client => (inr client, (g, w))
    | None =>
        match LoadDefaultConfig with
        | inl err => (inl (Errorf_w "failed to load AWS config: %w" err), (g, w))
        | inr cfg =>
            let client := awsConfig_client cfg in
            (inr client, (WithLambdaClient (Some client) g, w))
        end
    end.

Definition Available (g : Governor) : bool :=
  negb (String.eqb (Governor_functionName g) "").

Definition invoke {P R} `{Env}
  `{Marshaler P} `{Unmarshaler ErrorResponse} `{Unmarshaler R}
  (payload : P) : M (Governor * World) R :=
  let* available := gets (fun s => Available (fst s)) in
  if negb available then
    fail (Errorf "LLM governor not available: LLM_GOVERNOR_FUNCTION is not set" [])
  else
    let* client := ensureClient in
    let* payloadBytes := wrapErr "failed to marshal request: %w" (Marshal payload) in
    let* functionName := gets (fun s => Governor_functionName (fst s)) in
    let* r := lambdaInvoke client {| InvokeInput_FunctionName := functionName;
                                     InvokeInput_Payload := payloadBytes |} in
    let* output := wrapErr "failed to invoke governor: %w" r in
    handleOutput output.

(** The request that [req] points to after the two assignments of [Invoke]. *)
Definition withDefaults (g : Governor) (req : InvokeRequest) : InvokeRequest :=
  let action :=
    if String.eqb (InvokeRequest_Action req) "" then "invoke"
    else InvokeRequest_Action req in
  let executionRunID :=
    if String.eqb (InvokeRequest_ExecutionRunID req) "" then Governor_executionRunID g
    else InvokeRequest_ExecutionRunID req in
  {| InvokeRequest_Action := action;
     InvokeRequest_Model := InvokeRequest_Model req;
     InvokeRequest_Messages := InvokeRequest_Messages req;
     InvokeRequest_System := InvokeRequest_System req;
     InvokeRequest_MaxTokens := InvokeRequest_MaxTokens req;
     InvokeRequest_Temperature := InvokeRequest_Temperature req;
     InvokeRequest_ExecutionRunID := executionRunID;
     InvokeRequest_ExecutionBudgetUsd := InvokeRequest_ExecutionBudgetUsd req |}.

Definition Invoke `{Env}
  `{Marshaler InvokeRequest} `{Unmarshaler ErrorResponse} `{Unmarshaler InvokeResponse}
  (req : InvokeRequest) : M (Governor * World) InvokeResponse :=
  fun '(g, w) =>
    let req := withDefaults g req in
    if String.eqb (InvokeRequest_ExecutionRunID req) "" then
      (inl (Errorf "executionRunId is required: set EXECUTION_RUN_ID env var or use WithExecutionRunID option" []),
       (g, w))
    else invoke req (g, w).

Definition CheckBudget `{Env}
  `{Marshaler (gmap string Value)} `{Unmarshaler ErrorResponse}
  `{Unmarshaler CheckBudgetResponse}
  : M (Governor * World) CheckBudgetResponse :=
  fun '(g, w) =>
    let req : gmap string Value :=
      <["action" := VString "check-budget"]>
      (<["executionRunId" := VString (Governor_executionRunID g)]> ∅) in
    invoke req (g, w).

Definition ListModels `{Env}
  `{Marshaler (gmap string Value)} `{Unmarshaler ErrorResponse}
  `{Unmarshaler ListModelsResponse}
  : M (Governor * World) ListModelsResponse :=
  let req : gmap string Value := <["action" := VString "list-models"]> ∅ in
  invoke req.

(** The three conveniences build the request literal and return the text
    of the response. *)
Definition Ask `{Env}
  `{Marshaler InvokeRequest} `{Unmarshaler ErrorResponse} `{Unmarshaler InvokeResponse}
  (model prompt : string) : M (Governor * World) string :=
  let* resp := Invoke (newRequest model ""
                         [{| Message_Role := "user";
                             Message_Content := [TextBlock prompt] |}]) in
  ret (Text resp).

Definition AskWithSystem `{Env}
  `{Marshaler InvokeRequest} `{Unmarshaler ErrorResponse} `{Unmarshaler InvokeResponse}
  (model system prompt : string) : M (Governor * World) string :=
  let* resp := Invoke (newRequest model system
                         [{| Message_Role := "user";
                             Message_Content := [TextBlock prompt] |}]) in
  ret (Text resp).

Definition AskAboutFile `{Env}
  `{Marshaler InvokeRequest} `{Unmarshaler ErrorResponse} `{Unmarshaler InvokeResponse}
  (model prompt filePath : string) : M (Governor * World) string :=
  let* resp := Invoke (newRequest model ""
                         [{| Message_Role := "user";
                             Message_Content := [TextBlock prompt; FileBlock filePath] |}]) in
  ret (Text resp).

End LambdaGovernor.

(** The two errors of [invoke] and [Invoke] that carry no argument. *)
Definition notAvailable : error :=
  Errorf "LLM governor not available: LLM_GOVERNOR_FUNCTION is not set" [].

Definition runIdRequired : error :=
  Errorf "executionRunId is required: set EXECUTION_RUN_ID env var or use WithExecutionRunID option" [].

(* ================================================================== *)
(** * Sample collaborators                                              *)
(* ================================================================== *)

(** Concrete collaborators on which the theorems below are exercised. *)

Definition noSuchFile : FileSystem := fun _ => inl (externalError "no such file").

Definition okOutput (payload : string) : InvokeOutput :=
  {| InvokeOutput_FunctionError := None; InvokeOutput_Payload := payload |}.

Definition sampleLambdaClient : lambdaClient :=
  {| lambdaClient_Invoke := fun input => inr (okOutput "{}") |}.

Definition faultyLambdaClient : lambdaClient :=
  {| lambdaClient_Invoke := fun input =>
       inr {| InvokeOutput_FunctionError := Some "Unhandled";
              InvokeOutput_Payload := "{}" |} |}.

Definition sampleReply : anthropicResponse :=
  {| anthropicResponse_Content :=
       [ {| anthropicContentBlock_Type := "text"; anthropicContentBlock_Text := "Hello " |};
         {| anthropicContentBlock_Type := "tool_use"; anthropicContentBlock_Text := "" |};
         {| anthropicContentBlock_Type := "text"; anthropicContentBlock_Text := "world" |} ];
     anthropicResponse_Model := "claude-sonnet-4-6";
     anthropicResponse_StopReason := "end_turn";
     anthropicResponse_Usage :=
       {| anthropicUsage_InputTokens := 12; anthropicUsage_OutputTokens := 3 |} |}.

Definition sampleHTTPClient : httpClient :=
  {| httpClient_Do := fun httpReq =>
       inr {| httpResponse_StatusCode := 200; httpResponse_Body := inr "{}" |} |}.

Definition sampleEnv (getenv : string -> string) : Env :=
  {| Getenv := getenv;
     ReadFile := noSuchFile;
     LoadDefaultConfig := inl (externalError "no AWS configuration");
     DefaultClient := sampleHTTPClient |}.

Definition noEnv : string -> string := fun _ => "".

Definition budgetExceeded : ErrorResponse :=
  {| ErrorResponse_Error := "budget_exceeded";
     ErrorResponse_Message := "daily budget exceeded";
     ErrorResponse_AllowedModels := [];
     ErrorResponse_BudgetRemaining := Some zeroBudgetInfo;
     ErrorResponse_MaxSizeBytes := 0;
     ErrorResponse_RetryAfterSec := 30;
     ErrorResponse_Model := "" |}.

Definition notAnError : ErrorResponse :=
  {| ErrorResponse_Error := "";
     ErrorResponse_Message := "";
     ErrorResponse_AllowedModels := [];
     ErrorResponse_BudgetRemaining := None;
     ErrorResponse_MaxSizeBytes := 0;
     ErrorResponse_RetryAfterSec := 0;
     ErrorResponse_Model := "" |}.

Definition sampleResponse (text : string) : InvokeResponse :=
  {| InvokeResponse_Content :=
       [{| ResponseContent_Type := "text"; ResponseContent_Text := text |}];
     InvokeResponse_Model := "";
     InvokeResponse_Usage := zeroUsageInfo;
     InvokeResponse_BudgetRemaining := zeroBudgetInfo;
     InvokeResponse_StopReason := "" |}.

Definition helloRequest (model : string) : InvokeRequest :=
  newRequest model "" [UserMessage [TextBlock "Hello"]].

Definition sampleAnthropicBackend : AnthropicBackend :=
  {| AnthropicBackend_apiKey := "sk-ant-test";
     AnthropicBackend_httpClient := sampleHTTPClient |}.

(** An environment with one variable set. *)
Definition setenv (key value : string) : string -> string :=
  fun k => if String.eqb k key then value else "".

(** Codecs that encode everything as ["{}"] and decode every payload to
    the given error envelope and to fixed replies. *)
Definition sampleCodecs (envelope : ErrorResponse) : Codecs :=
  {| Codecs_InvokeRequest := fun _ => inr "{}";
     Codecs_map := fun _ => inr "{}";
     Codecs_anthropicRequest := fun _ => inr "{}";
     Codecs_ErrorResponse := fun _ => inr envelope;
     Codecs_InvokeResponse := fun _ => inr (sampleResponse "answer");
     Codecs_CheckBudgetResponse := fun _ => inl (externalError "unexpected end of JSON input");
     Codecs_ListModelsResponse := fun _ => inr {| ListModelsResponse_Models := allModels |};
     Codecs_anthropicResponse := fun _ => inr sampleReply;
     Codecs_anthropicErrorResponse := fun _ => inl (externalError "unexpected end of JSON input") |}.

(** A request encoder that shows the two fields the governor defaults. *)
Definition showRequest : Marshaler InvokeRequest :=
  fun req => inr ("action=" ++ InvokeRequest_Action req
                  ++ ";executionRunId=" ++ InvokeRequest_ExecutionRunID req).

Definition showCodecs : Codecs :=
  {| Codecs_InvokeRequest := showRequest;
     Codecs_map := fun _ => inr "{}";
     Codecs_anthropicRequest := fun _ => inr "{}";
     Codecs_ErrorResponse := fun _ => inr notAnError;
     Codecs_InvokeResponse := fun _ => inr (sampleResponse "answer");
     Codecs_CheckBudgetResponse := fun _ => inl (externalError "unexpected end of JSON input");
     Codecs_ListModelsResponse := fun _ => inr {| ListModelsResponse_Models := allModels |};
     Codecs_anthropicResponse := fun _ => inr sampleReply;
     Codecs_anthropicErrorResponse := fun _ => inl (externalError "unexpected end of JSON input") |}.

(** The platform sets the function name but no execution run id. *)
Definition functionOnly : Env := sampleEnv (setenv "LLM_GOVERNOR_FUNCTION" "my-func").

(* ================================================================== *)
(** * Properties                                                        *)
(* ================================================================== *)

(** ** Strings *)

Lemma prefix_append (p r : string) : String.prefix p (p ++ r) = true.
Proof.
  induction p as [| c p IH]; simpl.
  - destruct r; reflexivity.
  - destruct (ascii_dec c c) as [_ | Hne]; [exact IH | contradiction].
Qed.

Lemma prefix_inv (p s : string) :
  String.prefix p s = true -> exists r, s = p ++ r.
Proof.
  revert s. induction p as [| c p IH]; intros s Hp.
  - exists s. reflexivity.
  - destruct s as [| d s]; simpl in Hp; [discriminate |].
    destruct (ascii_dec c d) as [-> | _]; [| discriminate].
    destruct (IH s Hp) as [r ->]. exists r. reflexivity.
Qed.

Lemma substring_all (s : string) : substring 0 (String.length s) s = s.
Proof. induction s as [| c s IH]; simpl; [reflexivity | rewrite IH; reflexivity]. Qed.

Lemma length_append (p r : string) :
  String.length (p ++ r) = (String.length p + String.length r)%nat.
Proof. induction p as [| c p IH]; simpl; [reflexivity | rewrite IH; reflexivity]. Qed.

Lemma substring_append_drop (p r : string) :
  substring (String.length p) (String.length (p ++ r) - String.length p) (p ++ r) = r.
Proof.
  induction p as [| c p IH]; simpl.
  - rewrite Nat.sub_0_r. apply substring_all.
  - exact IH.
Qed.

Lemma append_empty_r (s : string) : s ++ "" = s.
Proof.
  induction s as [| c s IH]; [reflexivity |].
  change (String c (s ++ "") = String c s). f_equal. exact IH.
Qed.

Lemma HasPrefix_append (p r : string) : HasPrefix (p ++ r) p = true.
Proof. apply prefix_append. Qed.

Lemma TrimPrefix_append (p r : string) : TrimPrefix (p ++ r) p = r.
Proof.
  unfold TrimPrefix. rewrite HasPrefix_append. apply substring_append_drop.
Qed.

Lemma get_append_r (s1 s2 : string) (n : nat) :
  String.get (String.length s1 + n) (s1 ++ s2) = String.get n s2.
Proof. induction s1 as [| c s1 IH]; simpl; [reflexivity | exact IH]. Qed.

Lemma get_lt (s : string) (n : nat) :
  (n < String.length s)%nat -> exists c, String.get n s = Some c.
Proof.
  revert n. induction s as [| c s IH]; intros n Hn; simpl in Hn; [lia |].
  destruct n as [| n]; simpl; [eauto |]. apply IH. lia.
Qed.

Lemma plainName_get (s : string) (n : nat) (c : ascii) :
  plainName s = true -> String.get n s = Some c ->
  IsPathSeparator c = false /\ Ascii.eqb c "." = false.
Proof.
  revert n. induction s as [| d s IH]; intros n Hs Hget; [discriminate |].
  simpl in Hs. apply andb_prop in Hs as [Hd Hs]. apply andb_prop in Hd as [Hsep Hdot].
  destruct n as [| n]; simpl in Hget.
  - injection Hget as <-. split; apply negb_true_iff; assumption.
  - eapply IH; eassumption.
Qed.

Lemma get_append_length (s1 s2 : string) :
  String.get (String.length s1) (s1 ++ s2) = String.get 0 s2.
Proof. rewrite <- (get_append_r s1 s2 0), Nat.add_0_r. reflexivity. Qed.

(** [filepath.Ext] of a path that ends in a dot and a plain name. *)
Lemma Ext_extension (base ext : string) :
  plainName ext = true -> Ext (base ++ String "." ext) = String "." ext.
Proof.
  intros Hext. unfold Ext. set (path := base ++ String "." ext).
  assert (Hloop : forall k, (k <= String.length ext)%nat ->
            Ext_loop path (S (String.length base + k)) = String "." ext).
  { induction k as [| k IH]; intros Hk.
    - rewrite Nat.add_0_r. cbn [Ext_loop]. unfold path.
      rewrite get_append_length. cbn [String.get].
      change (IsPathSeparator ".") with false. change (Ascii.eqb "." ".") with true.
      cbv iota. apply substring_append_drop.
    - cbn [Ext_loop]. unfold path at 1.
      rewrite get_append_r. cbn [String.get].
      destruct (get_lt ext k) as [c Hc]; [lia |]. rewrite Hc.
      destruct (plainName_get ext k c Hext Hc) as [-> ->].
      rewrite Nat.add_succ_r. apply IH. lia. }
  replace (String.length path) with (S (String.length base + String.length ext)).
  - apply Hloop. lia.
  - unfold path. rewrite length_append. simpl. lia.
Qed.

(** ** Model mapping and media types *)

Lemma modelMap_table :
  modelMap !! ModelHaiku45 = Some "claude-haiku-4-5-20251001" /\
  modelMap !! ModelSonnet45 = Some "claude-sonnet-4-5-20250929" /\
  modelMap !! ModelSonnet46 = Some "claude-sonnet-4-6" /\
  modelMap !! ModelSonnet4 = Some "claude-sonnet-4-20250514".
Proof. repeat split; vm_compute; reflexivity. Qed.

(** C5. [MapModel] on an identifier of the table returns the table's
    name; on an identifier outside the table that starts with
    [us.anthropic.] it returns the identifier without that prefix; every
    other identifier is returned unchanged. *)
Theorem MapModel_cases (id : string) :
  (forall name, modelMap !! id = Some name -> MapModel id = name) /\
  (forall rest, modelMap !! id = None -> id = "us.anthropic." ++ rest ->
                MapModel id = rest) /\
  (modelMap !! id = None -> (forall rest, id <> "us.anthropic." ++ rest) ->
   MapModel id = id).
Proof.
  unfold MapModel. split; [| split].
  - intros name ->. reflexivity.
  - intros rest -> ->. rewrite HasPrefix_append. apply TrimPrefix_append.
  - intros -> Hno. destruct (HasPrefix id "us.anthropic.") eqn:Hp; [| reflexivity].
    apply prefix_inv in Hp as [rest Hrest]. destruct (Hno rest Hrest).
Qed.

Lemma MapModel_cases_witness :
  MapModel ModelSonnet46 = "claude-sonnet-4-6" /\
  MapModel "us.anthropic.claude-future-model" = "claude-future-model" /\
  MapModel "some-other-model" = "some-other-model".
Proof.
  split; [| split].
  - apply (proj1 (MapModel_cases ModelSonnet46)). vm_compute. reflexivity.
  - apply (proj1 (proj2 (MapModel_cases "us.anthropic.claude-future-model"))).
    + vm_compute. reflexivity.
    + reflexivity.
  - apply (proj2 (proj2 (MapModel_cases "some-other-model"))).
    + vm_compute. reflexivity.
    + intros rest Hrest. discriminate Hrest.
Defined.

(** ** Base64: decoding what was encoded gives the bytes back *)

Section Base64.
Local Open Scope N_scope.

(** The powers of two of the shifts, as numerals for [lia]. *)
Ltac pow2 :=
  change (2 ^ 0) with 1; change (2 ^ 6) with 64; change (2 ^ 8) with 256;
  change (2 ^ 12) with 4096; change (2 ^ 16) with 65536; change (2 ^ 18) with 262144.

Lemma land_mul_pow2_low (x y k : N) : y < 2 ^ k -> N.land (x * 2 ^ k) y = 0.
Proof.
  intros Hy. apply N.bits_inj. intros n. rewrite N.land_spec, N.bits_0.
  destruct (N.lt_ge_cases n k) as [Hlt | Hge].
  - rewrite N.mul_pow2_bits_low by exact Hlt. reflexivity.
  - rewrite <- (N.mod_small y (2 ^ k)) by exact Hy.
    rewrite N.mod_pow2_bits_high by exact Hge. apply andb_false_r.
Qed.

Lemma lor_mul_pow2_low (x y k : N) : y < 2 ^ k -> N.lor (x * 2 ^ k) y = x * 2 ^ k + y.
Proof.
  intros Hy. rewrite N.add_nocarry_lxor by (apply land_mul_pow2_low; exact Hy).
  symmetry. apply N.lxor_lor. apply land_mul_pow2_low; exact Hy.
Qed.

Lemma quantum_sum (a b c : byte) :
  quantum a b c = Byte.to_N a * 65536 + Byte.to_N b * 256 + Byte.to_N c.
Proof.
  unfold quantum.
  pose proof (Byte.to_N_bounded a). pose proof (Byte.to_N_bounded b).
  pose proof (Byte.to_N_bounded c).
  rewrite !N.shiftl_mul_pow2.
  rewrite (lor_mul_pow2_low (Byte.to_N a) (Byte.to_N b * 2 ^ 8) 16) by (pow2; lia).
  replace (Byte.to_N a * 2 ^ 16 + Byte.to_N b * 2 ^ 8)
    with ((Byte.to_N a * 256 + Byte.to_N b) * 2 ^ 8) by (pow2; lia).
  rewrite lor_mul_pow2_low by (pow2; lia).
  pow2. lia.
Qed.

Lemma unquantum_sum (d0 d1 d2 d3 : N) :
  d1 < 64 -> d2 < 64 -> d3 < 64 ->
  unquantum d0 d1 d2 d3 = d0 * 262144 + d1 * 4096 + d2 * 64 + d3.
Proof.
  intros H1 H2 H3. unfold unquantum. rewrite !N.shiftl_mul_pow2.
  rewrite (lor_mul_pow2_low d0 (d1 * 2 ^ 12) 18) by (pow2; lia).
  replace (d0 * 2 ^ 18 + d1 * 2 ^ 12) with ((d0 * 64 + d1) * 2 ^ 12) by (pow2; lia).
  rewrite (lor_mul_pow2_low _ (d2 * 2 ^ 6) 12) by (pow2; lia).
  replace ((d0 * 64 + d1) * 2 ^ 12 + d2 * 2 ^ 6)
    with ((d0 * 4096 + d1 * 64 + d2) * 2 ^ 6) by (pow2; lia).
  rewrite lor_mul_pow2_low by (pow2; lia).
  pow2. lia.
Qed.

Lemma sextetOf_div (val shift : N) : sextetOf val shift = (val / 2 ^ shift) mod 64.
Proof.
  unfold sextetOf. rewrite N.shiftr_div_pow2.
  change 63 with (N.ones 6). rewrite N.land_ones. reflexivity.
Qed.

Lemma sextetOf_lt (val shift : N) : sextetOf val shift < 64.
Proof. rewrite sextetOf_div. apply N.mod_lt. discriminate. Qed.

Lemma toByte_to_N (a : byte) (x : N) : x mod 256 = Byte.to_N a -> toByte x = a.
Proof.
  intros Hx. unfold toByte. change 255 with (N.ones 8). rewrite N.land_ones.
  change (2 ^ 8) with 256. rewrite Hx, Byte.of_to_N. reflexivity.
Qed.

Ltac Zify.zify_post_hook ::= Z.to_euclidean_division_equations.

Lemma unquantum_quantum (a b c : byte) :
  let val := quantum a b c in
  unquantum (sextetOf val 18) (sextetOf val 12) (sextetOf val 6) (sextetOf val 0) = val.
Proof.
  intros val. rewrite unquantum_sum by apply sextetOf_lt.
  rewrite !sextetOf_div. subst val. rewrite quantum_sum.
  pose proof (Byte.to_N_bounded a). pose proof (Byte.to_N_bounded b).
  pose proof (Byte.to_N_bounded c).
  pow2. lia.
Qed.

Lemma quantum_bytes (a b c : byte) :
  let val := quantum a b c in
  toByte (N.shiftr val 16) = a /\ toByte (N.shiftr val 8) = b /\ toByte val = c.
Proof.
  intros val. subst val. rewrite quantum_sum.
  pose proof (Byte.to_N_bounded a). pose proof (Byte.to_N_bounded b).
  pose proof (Byte.to_N_bounded c).
  repeat split; apply toByte_to_N; rewrite ?N.shiftr_div_pow2; pow2; lia.
Qed.

Lemma decodeMap_encodeChar (i : N) : i < 64 -> decodeMap (encodeChar i) = Some i.
Proof.
  intros Hi.
  assert (Hall : forallb (fun n => match decodeMap (encodeChar (N.of_nat n)) with
                                   | Some j => N.eqb j (N.of_nat n)
                                   | None => false
                                   end) (seq 0 64) = true) by (vm_compute; reflexivity).
  rewrite forallb_forall in Hall.
  specialize (Hall (N.to_nat i)). rewrite N2Nat.id in Hall.
  destruct (decodeMap (encodeChar i)) as [j|].
  - f_equal. apply N.eqb_eq. apply Hall. apply in_seq. lia.
  - discriminate Hall. apply in_seq. lia.
Qed.

Lemma quantum_remainder2 (a b : byte) :
  N.lor (N.shiftl (Byte.to_N a) 16) (N.shiftl (Byte.to_N b) 8) = quantum a b x00.
Proof. unfold quantum. simpl (Byte.to_N x00). rewrite N.lor_0_r. reflexivity. Qed.

Lemma quantum_remainder1 (a : byte) :
  N.shiftl (Byte.to_N a) 16 = quantum a x00 x00.
Proof.
  unfold quantum. simpl (Byte.to_N x00). rewrite N.shiftl_0_l, !N.lor_0_r. reflexivity.
Qed.

Lemma sextetOf_low_zero (a b : byte) : sextetOf (quantum a b x00) 0 = 0.
Proof.
  rewrite sextetOf_div, quantum_sum. simpl (Byte.to_N x00). pow2. lia.
Qed.

Lemma sextetOf_mid_zero (a : byte) : sextetOf (quantum a x00 x00) 6 = 0.
Proof.
  rewrite sextetOf_div, quantum_sum. simpl (Byte.to_N x00). pow2. lia.
Qed.

Lemma decodeMap_sextet (val shift : N) :
  decodeMap (sextet val shift) = Some (sextetOf val shift).
Proof. apply decodeMap_encodeChar, sextetOf_lt. Qed.

Lemma bytes_ind3 (P : list byte -> Prop) :
  P [] -> (forall a, P [a]) -> (forall a b, P [a; b]) ->
  (forall a b c rest, P rest -> P (a :: b :: c :: rest)) ->
  forall l, P l.
Proof.
  intros H0 H1 H2 H3 l.
  assert (Hgen : forall n l', (length l' <= n)%nat -> P l').
  { induction n as [| n IH]; intros l' Hlen.
    - destruct l'; [exact H0 | simpl in Hlen; lia].
    - destruct l' as [| a [| b [| c rest]]]; auto.
      apply H3, IH. simpl in Hlen. lia. }
  apply (Hgen (length l)). lia.
Qed.

Theorem DecodeString_EncodeToString (src : list byte) :
  DecodeString (EncodeToString src) = Some src.
Proof.
  induction src as [| a | a b | a b c rest IH] using bytes_ind3.
  - reflexivity.
  - cbn [EncodeToString DecodeString]. rewrite quantum_remainder1.
    rewrite !decodeMap_sextet.
    change (decodeMap StdPadding) with (@None N). cbn [Ascii.eqb String.eqb andb Bool.eqb StdPadding].
    pose proof (unquantum_quantum a x00 x00) as Hu. cbv zeta in Hu.
    rewrite sextetOf_mid_zero, sextetOf_low_zero in Hu.
    simpl. rewrite Hu.
    destruct (quantum_bytes a x00 x00) as (Ha & _ & _). rewrite Ha. reflexivity.
  - cbn [EncodeToString DecodeString]. rewrite quantum_remainder2.
    rewrite !decodeMap_sextet.
    change (decodeMap StdPadding) with (@None N).
    pose proof (unquantum_quantum a b x00) as Hu. cbv zeta in Hu.
    rewrite sextetOf_low_zero in Hu.
    simpl. rewrite Hu.
    destruct (quantum_bytes a b x00) as (Ha & Hb & _). rewrite Ha, Hb. reflexivity.
  - cbn [EncodeToString DecodeString].
    rewrite !decodeMap_sextet, IH.
    pose proof (unquantum_quantum a b c) as Hu. cbv zeta in Hu. rewrite Hu.
    destruct (quantum_bytes a b c) as (Ha & Hb & Hc). rewrite Ha, Hb, Hc. reflexivity.
Qed.
End Base64.


(** ** The content-block codec *)

Lemma docMediaType_table :
  docMediaType "pdf" = "application/pdf" /\
  docMediaType "csv" = "text/csv" /\
  docMediaType "txt" = "text/plain" /\
  docMediaType "md" = "text/markdown" /\
  docMediaType "html" = "text/html".
Proof. repeat split; vm_compute; reflexivity. Qed.

Lemma docMediaType_unknown (ext : string) :
  ext ∉ ["pdf"; "csv"; "txt"; "md"; "html"] ->
  docMediaType ext = "application/octet-stream".
Proof.
  intros Hext. unfold docMediaType, docMediaTypes.
  rewrite !lookup_insert_ne, lookup_empty; [reflexivity | ..];
    intros <-; apply Hext; set_solver.
Qed.

Lemma append_nonempty (base ext : string) :
  String.eqb (base ++ String "." ext) "" = false.
Proof. destruct base; reflexivity. Qed.

(** The two loops of [convertMessages] are maps. *)
Lemma fold_left_snoc_map {A B} (f : A -> B) (l : list A) (acc : list B) :
  fold_left (fun acc x => (acc ++ [f x])%list) l acc = (acc ++ map f l)%list.
Proof.
  revert acc. induction l as [| x l IH]; intros acc; simpl.
  - rewrite app_nil_r. reflexivity.
  - rewrite IH, <- app_assoc. reflexivity.
Qed.

Lemma convertMessages_map (ReadFile : FileSystem) (messages : list Message) :
  convertMessages ReadFile messages = map (convertMessage ReadFile) messages.
Proof.
  unfold convertMessages.
  rewrite (fold_left_snoc_map
             (fun msg =>
                <["role" := VString (Message_Role msg)]>
                (<["content" :=
                     VList (fold_left
                              (fun blocks block =>
                                 (blocks ++ [VMap (convertContentBlock ReadFile block)])%list)
                              (Message_Content msg) [])]> ∅))).
  simpl. apply map_ext. intros msg. unfold convertMessage.
  rewrite (fold_left_snoc_map (fun block => VMap (convertContentBlock ReadFile block))).
  reflexivity.
Qed.

(** C6. An [efs_document] block whose path ends in [.pdf] and reads as
    the bytes [B] converts to the map with [type] [document] and a
    [source] map with [type] [base64], [media_type] [application/pdf] and
    [data] the base64 of [B], a string that decodes to [B] again; in
    general the media type is the table entry of the extension, and
    [application/octet-stream] for an extension outside the table. *)
Theorem convert_efs_document_roundtrip
  (ReadFile : FileSystem) (block : ContentBlock) (base ext : string) (B : list byte) :
  ContentBlock_Type block = "efs_document" ->
  ContentBlock_Path block = base ++ String "." ext ->
  plainName ext = true ->
  ReadFile (ContentBlock_Path block) = inr B ->
  convertContentBlock ReadFile block
    = <["type" := VString "document"]>
      (<["source" := VMap (<["type" := VString "base64"]>
                          (<["media_type" := VString (docMediaType ext)]>
                          (<["data" := VString (EncodeToString B)]> ∅)))]> ∅) /\
  (exists (source : gmap string Value) (data : string),
     convertContentBlock ReadFile block !! "type" = Some (VString "document") /\
     convertContentBlock ReadFile block !! "source" = Some (VMap source) /\
     source !! "type" = Some (VString "base64") /\
     source !! "media_type" = Some (VString (docMediaType ext)) /\
     source !! "data" = Some (VString data) /\
     DecodeString data = Some B) /\
  DecodeString (EncodeToString B) = Some B /\
  (ext = "pdf" -> docMediaType ext = "application/pdf") /\
  (ext = "csv" -> docMediaType ext = "text/csv") /\
  (ext = "txt" -> docMediaType ext = "text/plain") /\
  (ext = "md" -> docMediaType ext = "text/markdown") /\
  (ext = "html" -> docMediaType ext = "text/html") /\
  (ext ∉ ["pdf"; "csv"; "txt"; "md"; "html"] ->
   docMediaType ext = "application/octet-stream").
Proof.
  intros Htype Hpath Hext Hread.
  assert (Hconv : convertContentBlock ReadFile block
                  = <["type" := VString "document"]>
                    (<["source" := VMap (<["type" := VString "base64"]>
                                        (<["media_type" := VString (docMediaType ext)]>
                                        (<["data" := VString (EncodeToString B)]> ∅)))]> ∅)).
  { unfold convertContentBlock. rewrite Htype. cbn [String.eqb Ascii.eqb Bool.eqb].
    cbv iota. unfold convertEFSDocument. rewrite Hread, Hpath, append_nonempty.
    rewrite Ext_extension by exact Hext.
    change (String "." ext) with ("." ++ ext). rewrite TrimPrefix_append. reflexivity. }
  split; [exact Hconv |].
  split; [| split; [apply DecodeString_EncodeToString |]].
  - rewrite Hconv. eexists _, (EncodeToString B).
    split; [apply lookup_insert_eq |].
    split; [rewrite lookup_insert_ne by discriminate; apply lookup_insert_eq |].
    split; [apply lookup_insert_eq |].
    split; [rewrite lookup_insert_ne by discriminate; apply lookup_insert_eq |].
    split; [rewrite !lookup_insert_ne by discriminate; apply lookup_insert_eq |].
    apply DecodeString_EncodeToString.
  - destruct docMediaType_table as (Hpdf & Hcsv & Htxt & Hmd & Hhtml).
    repeat split; try (intros ->; assumption). apply docMediaType_unknown.
Qed.

Lemma convert_efs_document_roundtrip_witness :
  convertContentBlock (fun _ => inr ["f"; "a"; "k"; "e"]%byte) (FileBlock "/tmp/test.pdf")
    = <["type" := VString "document"]>
      (<["source" := VMap (<["type" := VString "base64"]>
                          (<["media_type" := VString "application/pdf"]>
                          (<["data" := VString "ZmFrZQ=="]> ∅)))]> ∅) /\
  DecodeString "ZmFrZQ==" = Some ["f"; "a"; "k"; "e"]%byte.
Proof.
  destruct (convert_efs_document_roundtrip
              (fun _ => inr ["f"; "a"; "k"; "e"]%byte) (FileBlock "/tmp/test.pdf")
              "/tmp/test" "pdf" ["f"; "a"; "k"; "e"]%byte) as (Hconv & _ & Hdec & _).
  - reflexivity.
  - reflexivity.
  - reflexivity.
  - reflexivity.
  - split; [exact Hconv | exact Hdec].
Defined.

Lemma Sprintf_file_not_available (path : string) :
  Sprintf "[File not available locally: %s]" [ArgS path]
  = "[File not available locally: " ++ path ++ "]".
Proof. reflexivity. Qed.

Lemma Sprintf_unsupported (type : string) :
  Sprintf "[Unsupported content block: %s]" [ArgS type]
  = "[Unsupported content block: " ++ type ++ "]".
Proof. reflexivity. Qed.

(** C2. The conversion of a content block always yields a wire block (it
    has no failure outcome, and [convertMessages] yields one wire block
    for each content block of each message): an [efs_document] block with
    an empty path, one whose file cannot be read, and a block of a type
    other than [text], [image], [document], [efs_document] each convert
    to the map with exactly the entries [type], which is [text], and
    [text], which is the placeholder. *)
Theorem convertContentBlock_placeholders (ReadFile : FileSystem) (block : ContentBlock) :
  (ContentBlock_Type block = "efs_document" -> ContentBlock_Path block = "" ->
   convertContentBlock ReadFile block
     = <["type" := VString "text"]>
       (<["text" := VString "[File not available locally: empty path]"]> ∅)) /\
  (forall err,
     ContentBlock_Type block = "efs_document" -> ContentBlock_Path block <> "" ->
     ReadFile (ContentBlock_Path block) = inl err ->
     convertContentBlock ReadFile block
       = <["type" := VString "text"]>
         (<["text" := VString ("[File not available locally: "
                               ++ ContentBlock_Path block ++ "]")]> ∅)) /\
  (ContentBlock_Type block ∉ ["text"; "image"; "document"; "efs_document"] ->
   convertContentBlock ReadFile block
     = <["type" := VString "text"]>
       (<["text" := VString ("[Unsupported content block: "
                             ++ ContentBlock_Type block ++ "]")]> ∅)) /\
  (ContentBlock_Type block ∉ ["text"; "image"; "document"] ->
   (ContentBlock_Type block = "efs_document" ->
    ContentBlock_Path block = "" \/ exists err, ReadFile (ContentBlock_Path block) = inl err) ->
   exists placeholder,
     convertContentBlock ReadFile block !! "type" = Some (VString "text") /\
     convertContentBlock ReadFile block !! "text" = Some (VString placeholder) /\
     dom (convertContentBlock ReadFile block) = ({["type"; "text"]} : gset string)) /\
  (forall messages,
     convertMessages ReadFile messages = map (convertMessage ReadFile) messages).
Proof.
  assert (Hempty : ContentBlock_Type block = "efs_document" -> ContentBlock_Path block = "" ->
                   convertContentBlock ReadFile block
                   = <["type" := VString "text"]>
                     (<["text" := VString "[File not available locally: empty path]"]> ∅)).
  { intros Htype Hpath. unfold convertContentBlock. rewrite Htype.
    cbn [String.eqb Ascii.eqb Bool.eqb]. cbv iota.
    unfold convertEFSDocument. rewrite Hpath. reflexivity. }
  assert (Hunreadable : forall err,
            ContentBlock_Type block = "efs_document" -> ContentBlock_Path block <> "" ->
            ReadFile (ContentBlock_Path block) = inl err ->
            convertContentBlock ReadFile block
            = <["type" := VString "text"]>
              (<["text" := VString ("[File not available locally: "
                                    ++ ContentBlock_Path block ++ "]")]> ∅)).
  { intros err Htype Hpath Hread. unfold convertContentBlock. rewrite Htype.
    cbn [String.eqb Ascii.eqb Bool.eqb]. cbv iota.
    unfold convertEFSDocument. rewrite Hread.
    apply String.eqb_neq in Hpath. rewrite Hpath.
    rewrite Sprintf_file_not_available. reflexivity. }
  assert (Hunknown : ContentBlock_Type block ∉ ["text"; "image"; "document"; "efs_document"] ->
                     convertContentBlock ReadFile block
                     = <["type" := VString "text"]>
                       (<["text" := VString ("[Unsupported content block: "
                                             ++ ContentBlock_Type block ++ "]")]> ∅)).
  { intros Htype. unfold convertContentBlock.
    assert (Hne : forall t, t ∈ ["text"; "image"; "document"; "efs_document"] ->
                            String.eqb (ContentBlock_Type block) t = false).
    { intros t Ht. apply String.eqb_neq. intros Heq. apply Htype. rewrite Heq. exact Ht. }
    rewrite !Hne by set_solver. rewrite Sprintf_unsupported. reflexivity. }
  assert (Hentries : forall placeholder : string,
            let wire : gmap string Value :=
              <["type" := VString "text"]> (<["text" := VString placeholder]> ∅) in
            wire !! "type" = Some (VString "text") /\
            wire !! "text" = Some (VString placeholder) /\
            dom wire = ({["type"; "text"]} : gset string)).
  { intros placeholder wire. subst wire. split; [apply lookup_insert_eq |].
    split; [rewrite lookup_insert_ne by discriminate; apply lookup_insert_eq |].
    rewrite !dom_insert_L, dom_empty_L. set_solver. }
  split; [exact Hempty |]. split; [exact Hunreadable |]. split; [exact Hunknown |].
  split; [| apply convertMessages_map].
  intros Hother Hefs.
  destruct (String.eqb_spec (ContentBlock_Type block) "efs_document") as [Htype | Htype].
  - destruct (String.eqb_spec (ContentBlock_Path block) "") as [Hpath | Hpath].
    + rewrite (Hempty Htype Hpath). eexists. apply Hentries.
    + destruct (Hefs Htype) as [Hpath' | [err Hread]]; [contradiction |].
      rewrite (Hunreadable err Htype Hpath Hread). eexists. apply Hentries.
  - rewrite Hunknown; [eexists; apply Hentries |].
    intros Hin. apply Hother.
    apply elem_of_cons in Hin as [Heq | Hin]; [rewrite Heq; apply list_elem_of_here |].
    apply list_elem_of_further.
    apply elem_of_cons in Hin as [Heq | Hin]; [rewrite Heq; apply list_elem_of_here |].
    apply list_elem_of_further.
    apply elem_of_cons in Hin as [Heq | Hin]; [rewrite Heq; apply list_elem_of_here |].
    apply elem_of_cons in Hin as [Heq | Hin]; [contradiction |].
    apply elem_of_nil in Hin. contradiction.
Qed.

Lemma convertContentBlock_placeholders_witness :
  convertContentBlock (fun _ => inl (externalError "no such file")) (FileBlock "")
    = <["type" := VString "text"]>
      (<["text" := VString "[File not available locally: empty path]"]> ∅) /\
  convertContentBlock (fun _ => inl (externalError "no such file"))
                      (FileBlock "/nonexistent/file.pdf")
    = <["type" := VString "text"]>
      (<["text" := VString "[File not available locally: /nonexistent/file.pdf]"]> ∅) /\
  convertContentBlock (fun _ => inl (externalError "no such file"))
    {| ContentBlock_Type := "foo"; ContentBlock_Text := ""; ContentBlock_Path := "";
       ContentBlock_Format := ""; ContentBlock_Data := "";
       ContentBlock_MediaType := ""; ContentBlock_Name := "" |}
    = <["type" := VString "text"]>
      (<["text" := VString "[Unsupported content block: foo]"]> ∅).
Proof.
  split; [| split].
  - apply (proj1 (convertContentBlock_placeholders _ (FileBlock ""))); reflexivity.
  - apply (proj1 (proj2 (convertContentBlock_placeholders _ (FileBlock "/nonexistent/file.pdf")))
             (externalError "no such file")).
    + reflexivity.
    + discriminate.
    + reflexivity.
  - apply (proj1 (proj2 (proj2 (convertContentBlock_placeholders _
             {| ContentBlock_Type := "foo"; ContentBlock_Text := ""; ContentBlock_Path := "";
                ContentBlock_Format := ""; ContentBlock_Data := "";
                ContentBlock_MediaType := ""; ContentBlock_Name := "" |})))).
    apply (bool_decide_unpack _). vm_compute. exact I.
Defined.

(** ** The Anthropic backend *)

Lemma fold_left_filter_snoc {A B} (p : A -> bool) (f : A -> B) (l : list A) (acc : list B) :
  fold_left (fun acc x => if p x then (acc ++ [f x])%list else acc) l acc
  = (acc ++ map f (List.filter p l))%list.
Proof.
  revert acc. induction l as [| x l IH]; intros acc; simpl.
  - rewrite app_nil_r. reflexivity.
  - rewrite IH. destruct (p x); simpl; [rewrite <- app_assoc |]; reflexivity.
Qed.

Lemma textContent_filter (blocks : list anthropicContentBlock) :
  textContent blocks
  = map (fun block => {| ResponseContent_Type := "text";
                         ResponseContent_Text := anthropicContentBlock_Text block |})
        (List.filter (fun block => String.eqb (anthropicContentBlock_Type block) "text")
                     blocks).
Proof. unfold textContent. rewrite fold_left_filter_snoc. reflexivity. Qed.

Section Anthropic.
Context `{Env} `{Marshaler anthropicRequest}.
Context `{Unmarshaler anthropicResponse} `{Unmarshaler anthropicErrorResponse}.

(** C7. The request that the Anthropic backend builds and sends has the
    model mapped by [MapModel], [max_tokens] 1024 when the request has
    zero and the request's value otherwise, the system prompt and the
    temperature unchanged and every message converted by the codec; on a
    reply with status 200 that decodes, the response holds the reply's
    text blocks, in order and nothing else, and the two token counters. *)
Theorem AnthropicBackend_Invoke_request_and_reply
  (b : AnthropicBackend) (req : InvokeRequest) (w : World) :
  let apiReq := apiRequest req in
  (anthropicRequest_Model apiReq = MapModel (InvokeRequest_Model req) /\
   (InvokeRequest_MaxTokens req = 0%Z -> anthropicRequest_MaxTokens apiReq = 1024%Z) /\
   (InvokeRequest_MaxTokens req <> 0%Z ->
    anthropicRequest_MaxTokens apiReq = InvokeRequest_MaxTokens req) /\
   anthropicRequest_System apiReq = InvokeRequest_System req /\
   anthropicRequest_Temperature apiReq = InvokeRequest_Temperature req /\
   anthropicRequest_Messages apiReq
     = map (convertMessage ReadFile) (InvokeRequest_Messages req)) /\
  (forall body,
     Marshal apiReq = inr body ->
     World_requests (snd (AnthropicBackend_Invoke b req w))
       = (World_requests w ++ [newMessagesRequest b body])%list) /\
  (forall body resp respBody apiResp,
     Marshal apiReq = inr body ->
     httpClient_Do (AnthropicBackend_httpClient b) (newMessagesRequest b body) = inr resp ->
     httpResponse_StatusCode resp = StatusOK ->
     httpResponse_Body resp = inr respBody ->
     Unmarshal respBody = inr apiResp ->
     exists r,
       fst (AnthropicBackend_Invoke b req w) = inr r /\
       InvokeResponse_Content r
         = map (fun block => {| ResponseContent_Type := "text";
                                ResponseContent_Text := anthropicContentBlock_Text block |})
               (List.filter
                  (fun block => String.eqb (anthropicContentBlock_Type block) "text")
                  (anthropicResponse_Content apiResp)) /\
       UsageInfo_InputTokens (InvokeResponse_Usage r)
         = anthropicUsage_InputTokens (anthropicResponse_Usage apiResp) /\
       UsageInfo_OutputTokens (InvokeResponse_Usage r)
         = anthropicUsage_OutputTokens (anthropicResponse_Usage apiResp)).
Proof.
  intros apiReq. split; [| split].
  - unfold apiReq, apiRequest. cbn.
    repeat split.
    + intros ->. reflexivity.
    + intros Hne. apply Z.eqb_neq in Hne. rewrite Hne. reflexivity.
    + apply convertMessages_map.
  - intros body Hbody. unfold AnthropicBackend_Invoke, bind. fold apiReq.
    rewrite Hbody. cbn [wrapErr ret Do].
    destruct (httpClient_Do (AnthropicBackend_httpClient b) (newMessagesRequest b body))
      as [err | resp]; cbn [wrapErr fail ret]; [reflexivity |].
    destruct (httpResponse_Body resp) as [err | respBody]; cbn [wrapErr fail ret]; [reflexivity |].
    destruct (negb (httpResponse_StatusCode resp =? StatusOK)%Z).
    + destruct (Unmarshal respBody) as [err | errResp]; [reflexivity |].
      destruct (negb (String.eqb (anthropicErrorResponse_Error_Message errResp) ""));
        reflexivity.
    + destruct (Unmarshal respBody) as [err | apiResp]; reflexivity.
  - intros body resp respBody apiResp Hbody Hdo Hstatus Hread Hdecode.
    exists (responseOf apiResp). split; [| split; [| split]].
    + unfold AnthropicBackend_Invoke, bind. fold apiReq.
      rewrite Hbody. cbn [wrapErr ret Do]. rewrite Hdo. cbn [wrapErr ret]. rewrite Hread.
      cbn [wrapErr ret]. rewrite Hstatus, Z.eqb_refl. cbn [negb]. rewrite Hdecode. reflexivity.
    + apply textContent_filter.
    + reflexivity.
    + reflexivity.
Qed.

End Anthropic.

Lemma AnthropicBackend_Invoke_request_and_reply_witness :
  anthropicRequest_MaxTokens
    (@apiRequest (sampleEnv noEnv) (helloRequest ModelSonnet46)) = 1024%Z /\
  exists r,
    fst (@AnthropicBackend_Invoke (sampleEnv noEnv) (fun _ => inr "{}")
           (fun _ => inr sampleReply) (fun _ => inl (externalError "EOF"))
           sampleAnthropicBackend (helloRequest ModelSonnet46) emptyWorld) = inr r /\
    InvokeResponse_Content r
      = [ {| ResponseContent_Type := "text"; ResponseContent_Text := "Hello " |};
          {| ResponseContent_Type := "text"; ResponseContent_Text := "world" |} ] /\
    UsageInfo_InputTokens (InvokeResponse_Usage r) = 12%Z /\
    UsageInfo_OutputTokens (InvokeResponse_Usage r) = 3%Z.
Proof.
  pose proof (@AnthropicBackend_Invoke_request_and_reply
                (sampleEnv noEnv) (fun _ => inr "{}")
                (fun _ => inr sampleReply) (fun _ => inl (externalError "EOF"))
                sampleAnthropicBackend (helloRequest ModelSonnet46) emptyWorld)
    as ((_ & Hzero & _) & _ & Hreply).
  split.
  - apply Hzero. reflexivity.
  - apply (Hreply "{}" {| httpResponse_StatusCode := 200; httpResponse_Body := inr "{}" |}
                  "{}" sampleReply); reflexivity.
Defined.

(** ** The Lambda backend *)

Section Lambda.
Context `{Env} {P R : Type}.
Context `{Marshaler P} `{Unmarshaler ErrorResponse} `{Unmarshaler R}.

(** The outcome of [handleOutput] does not depend on the state. *)
Lemma handleOutput_cases {S} (output : InvokeOutput) (s : S) :
  handleOutput (R := R) output s =
  (match InvokeOutput_FunctionError output with
   | Some functionError =>
       inl (Errorf "governor function error: %s" [ArgS functionError])
   | None =>
       match Unmarshal (InvokeOutput_Payload output) with
       | inr errResp =>
           if String.eqb (ErrorResponse_Error errResp) ""
           then match Unmarshal (InvokeOutput_Payload output) with
                | inl err => inl (Errorf_w "failed to unmarshal response: %w" err)
                | inr v => inr v
                end
           else inl (governorError (governorErrorOf errResp))
       | inl _ =>
           match Unmarshal (InvokeOutput_Payload output) with
           | inl err => inl (Errorf_w "failed to unmarshal response: %w" err)
           | inr v => inr v
           end
       end
   end, s).
Proof.
  unfold handleOutput.
  destruct (InvokeOutput_FunctionError output); [reflexivity |].
  destruct (Unmarshal (InvokeOutput_Payload output)) as [err | errResp].
  - destruct (Unmarshal (InvokeOutput_Payload output)); reflexivity.
  - destruct (String.eqb (ErrorResponse_Error errResp) ""); cbn [negb]; [| reflexivity].
    destruct (Unmarshal (InvokeOutput_Payload output)); reflexivity.
Qed.

(** When the client is there, the payload encodes and the channel
    answers, [call] hands the answer to [handleOutput]. *)
Lemma LambdaBackend_call_output
  (payload : P) (b : LambdaBackend) (w : World)
  (client : lambdaClient) (payloadBytes : string) (output : InvokeOutput) :
  fst (LambdaBackend_ensureClient (b, w)) = inr client ->
  Marshal payload = inr payloadBytes ->
  lambdaClient_Invoke client
    {| InvokeInput_FunctionName := LambdaBackend_functionName b;
       InvokeInput_Payload := payloadBytes |} = inr output ->
  exists s, LambdaBackend_call (R := R) payload (b, w) = handleOutput output s.
Proof.
  intros Hclient Hpayload Houtput. unfold LambdaBackend_call, bind.
  unfold LambdaBackend_ensureClient in *.
  destruct (LambdaBackend_lambdaClient b) as [c |].
  - injection Hclient as ->. rewrite Hpayload. cbn. rewrite Houtput. cbn. eauto.
  - destruct LoadDefaultConfig as [err | cfg]; [discriminate |].
    injection Hclient as ->. rewrite Hpayload. cbn. rewrite Houtput. cbn. eauto.
Qed.

(** [invoke] of src/llm/governor.go treats the answer in the same way. *)
Lemma LambdaGovernor_invoke_output
  (payload : P) (g : LambdaGovernor.Governor) (w : World)
  (client : lambdaClient) (payloadBytes : string) (output : InvokeOutput) :
  LambdaGovernor.Available g = true ->
  fst (LambdaGovernor.ensureClient (g, w)) = inr client ->
  Marshal payload = inr payloadBytes ->
  lambdaClient_Invoke client
    {| InvokeInput_FunctionName := LambdaGovernor.Governor_functionName g;
       InvokeInput_Payload := payloadBytes |} = inr output ->
  exists s, LambdaGovernor.invoke (R := R) payload (g, w) = handleOutput output s.
Proof.
  intros Havailable Hclient Hpayload Houtput.
  unfold LambdaGovernor.invoke, bind, gets. cbn [fst]. rewrite Havailable. cbn [negb].
  unfold LambdaGovernor.ensureClient in *.
  destruct (LambdaGovernor.Governor_lambdaClient g) as [c |].
  - injection Hclient as ->. rewrite Hpayload. cbn. rewrite Houtput. cbn. eauto.
  - destruct LoadDefaultConfig as [err | cfg]; [discriminate |].
    injection Hclient as ->. rewrite Hpayload. cbn. rewrite Houtput. cbn. eauto.
Qed.

(** C3. What [call] returns for a reply of the invocation channel: a
    function error gives a plain formatted error that is not a
    [GovernorError]; a payload that decodes to an error envelope with a
    non-empty [error] field gives a [GovernorError] with the envelope's
    code, message, allowed models, remaining budget and retry delay; any
    other payload is decoded as the expected type and returned (or the
    decoding error is). *)
Theorem LambdaBackend_call_reply
  (payload : P) (b : LambdaBackend) (w : World)
  (client : lambdaClient) (payloadBytes : string) (output : InvokeOutput) :
  fst (LambdaBackend_ensureClient (b, w)) = inr client ->
  Marshal payload = inr payloadBytes ->
  lambdaClient_Invoke client
    {| InvokeInput_FunctionName := LambdaBackend_functionName b;
       InvokeInput_Payload := payloadBytes |} = inr output ->
  let result : error + R := fst (LambdaBackend_call payload (b, w)) in
  (forall functionError,
     InvokeOutput_FunctionError output = Some functionError ->
     exists err,
       result = inl err /\
       error_Error err = "governor function error: " ++ functionError /\
       IsGovernorError err = (None, false)) /\
  (forall errResp,
     InvokeOutput_FunctionError output = None ->
     Unmarshal (InvokeOutput_Payload output) = inr errResp ->
     ErrorResponse_Error errResp <> "" ->
     result = inl (governorError
                     {| GovernorError_Code := ErrorResponse_Error errResp;
                        GovernorError_Msg := ErrorResponse_Message errResp;
                        GovernorError_AllowedModels := ErrorResponse_AllowedModels errResp;
                        GovernorError_BudgetRemaining :=
                          ErrorResponse_BudgetRemaining errResp;
                        GovernorError_RetryAfterSec :=
                          ErrorResponse_RetryAfterSec errResp |})) /\
  (InvokeOutput_FunctionError output = None ->
   (forall errResp,
      Unmarshal (InvokeOutput_Payload output) = inr errResp ->
      ErrorResponse_Error errResp = "") ->
   (forall v, Unmarshal (InvokeOutput_Payload output) = inr v -> result = inr v) /\
   (forall err,
      Unmarshal (InvokeOutput_Payload output) = inl err ->
      result = inl (Errorf_w "failed to unmarshal response: %w" err))).
Proof.
  intros Hclient Hpayload Houtput result.
  destruct (LambdaBackend_call_output payload b w client payloadBytes output
              Hclient Hpayload Houtput) as [s Hcall].
  subst result. rewrite Hcall, handleOutput_cases. cbn [fst].
  split; [| split].
  - intros functionError ->. eexists. split; [reflexivity |]. split; [| reflexivity].
    cbn. rewrite append_empty_r. reflexivity.
  - intros errResp -> -> Hcode. apply String.eqb_neq in Hcode. rewrite Hcode. reflexivity.
  - intros -> Hnone.
    destruct (Unmarshal (InvokeOutput_Payload output)) as [e | errResp] eqn:Henv.
    + split; [intros v -> | intros err ->]; reflexivity.
    + rewrite (Hnone errResp eq_refl). cbn [String.eqb].
      split; [intros v -> | intros err ->]; reflexivity.
Qed.

End Lambda.

Lemma LambdaBackend_call_reply_witness :
  (exists err,
     fst (@LambdaBackend_call InvokeRequest InvokeResponse (sampleEnv noEnv)
            (fun _ => inr "{}") (fun _ => inr budgetExceeded)
            (fun _ => inr (sampleResponse "answer"))
            (helloRequest ModelHaiku45)
            (NewLambdaBackend "my-func" (Some faultyLambdaClient), emptyWorld)) = inl err /\
     error_Error err = "governor function error: Unhandled" /\
     IsGovernorError err = (None, false)) /\
  fst (@LambdaBackend_call InvokeRequest InvokeResponse (sampleEnv noEnv)
         (fun _ => inr "{}") (fun _ => inr budgetExceeded)
         (fun _ => inr (sampleResponse "answer"))
         (helloRequest ModelHaiku45)
         (NewLambdaBackend "my-func" (Some sampleLambdaClient), emptyWorld))
  = inl (governorError
           {| GovernorError_Code := "budget_exceeded";
              GovernorError_Msg := "daily budget exceeded";
              GovernorError_AllowedModels := [];
              GovernorError_BudgetRemaining := Some zeroBudgetInfo;
              GovernorError_RetryAfterSec := 30 |}) /\
  fst (@LambdaBackend_call InvokeRequest InvokeResponse (sampleEnv noEnv)
         (fun _ => inr "{}") (fun _ => inr notAnError)
         (fun _ => inr (sampleResponse "answer"))
         (helloRequest ModelHaiku45)
         (NewLambdaBackend "my-func" (Some sampleLambdaClient), emptyWorld))
  = inr (sampleResponse "answer").
Proof.
  split; [| split].
  - apply (proj1 (@LambdaBackend_call_reply (sampleEnv noEnv) InvokeRequest InvokeResponse
             (fun _ => inr "{}") (fun _ => inr budgetExceeded)
             (fun _ => inr (sampleResponse "answer"))
             (helloRequest ModelHaiku45)
             (NewLambdaBackend "my-func" (Some faultyLambdaClient)) emptyWorld
             faultyLambdaClient "{}"
             {| InvokeOutput_FunctionError := Some "Unhandled";
                InvokeOutput_Payload := "{}" |}
             eq_refl eq_refl eq_refl) "Unhandled").
    reflexivity.
  - apply (proj1 (proj2 (@LambdaBackend_call_reply (sampleEnv noEnv)
             InvokeRequest InvokeResponse
             (fun _ => inr "{}") (fun _ => inr budgetExceeded)
             (fun _ => inr (sampleResponse "answer"))
             (helloRequest ModelHaiku45)
             (NewLambdaBackend "my-func" (Some sampleLambdaClient)) emptyWorld
             sampleLambdaClient "{}" (okOutput "{}")
             eq_refl eq_refl eq_refl)) budgetExceeded).
    + reflexivity.
    + reflexivity.
    + discriminate.
  - apply (proj2 (proj2 (@LambdaBackend_call_reply (sampleEnv noEnv)
             InvokeRequest InvokeResponse
             (fun _ => inr "{}") (fun _ => inr notAnError)
             (fun _ => inr (sampleResponse "answer"))
             (helloRequest ModelHaiku45)
             (NewLambdaBackend "my-func" (Some sampleLambdaClient)) emptyWorld
             sampleLambdaClient "{}" (okOutput "{}")
             eq_refl eq_refl eq_refl))).
    + reflexivity.
    + intros errResp Henv. injection Henv as <-. reflexivity.
    + reflexivity.
Defined.

(** ** The governor: backend selection *)

Lemma WithFunctionName_backend (name : string) (g : Governor) :
  Governor_backend (WithFunctionName name g) = Governor_backend g.
Proof. reflexivity. Qed.

Lemma WithExecutionRunID_backend (id : string) (g : Governor) :
  Governor_backend (WithExecutionRunID id g) = Governor_backend g.
Proof. reflexivity. Qed.

Lemma WithLambdaClient_backend (client : option lambdaClient) (g : Governor) :
  Governor_backend (WithLambdaClient client g) = Governor_backend g.
Proof. reflexivity. Qed.

Lemma fold_options_backend (opts : list GovernorOption) (g : Governor) :
  Forall (fun opt : GovernorOption =>
            forall g', Governor_backend (opt g') = Governor_backend g') opts ->
  Governor_backend (fold_left (fun g opt => opt g) opts g) = Governor_backend g.
Proof.
  revert g. induction opts as [| opt opts IH]; intros g Hkeep; [reflexivity |].
  inversion Hkeep as [| ? ? Hopt Hrest]; subst. simpl.
  rewrite IH by exact Hrest. apply Hopt.
Qed.

Section Selection.
Context `{Env}.

(** C4. [NewGovernor] keeps a backend that the options provided; without
    one it selects the Lambda backend when a function name is configured,
    else the Anthropic backend when ANTHROPIC_API_KEY is set, else the
    mock; [Available] holds exactly when the backend is not the mock. *)
Theorem NewGovernor_backend_selection (opts : list GovernorOption) :
  let g0 := configured opts in
  let g := NewGovernor opts in
  (Governor_backend g0 <> nilBackend -> Governor_backend g = Governor_backend g0) /\
  (Governor_backend g0 = nilBackend -> Governor_functionName g0 <> "" ->
   Governor_backend g
     = LambdaB (NewLambdaBackend (Governor_functionName g0) (Governor_lambdaClient g0))) /\
  (Governor_backend g0 = nilBackend -> Governor_functionName g0 = "" ->
   Getenv "ANTHROPIC_API_KEY" <> "" ->
   Governor_backend g = AnthropicB (NewAnthropicBackend [])) /\
  (Governor_backend g0 = nilBackend -> Governor_functionName g0 = "" ->
   Getenv "ANTHROPIC_API_KEY" = "" ->
   Governor_backend g = MockB NewMockBackend) /\
  (Available g = true <-> forall mock, Governor_backend g <> MockB mock) /\
  (forall (b : Backend) (before after : list GovernorOption),
     b <> nilBackend ->
     opts = (before ++ WithBackend b :: after)%list ->
     Forall (fun opt : GovernorOption =>
               forall g', Governor_backend (opt g') = Governor_backend g') after ->
     Governor_backend g = b).
Proof.
  intros g0 g.
  assert (Hkept : Governor_backend g0 <> nilBackend ->
                  Governor_backend g = Governor_backend g0).
  { intros Hb. subst g. unfold NewGovernor. fold g0.
    destruct (Governor_backend g0) eqn:Hg0; try reflexivity; try exact Hg0.
    destruct Hb. reflexivity. }
  split; [exact Hkept |]. split; [| split; [| split; [| split]]].
  - intros Hnil Hname. subst g. unfold NewGovernor. fold g0. rewrite Hnil.
    apply String.eqb_neq in Hname. rewrite Hname. reflexivity.
  - intros Hnil Hname Hkey. subst g. unfold NewGovernor. fold g0. rewrite Hnil, Hname.
    apply String.eqb_neq in Hkey. rewrite Hkey. reflexivity.
  - intros Hnil Hname Hkey. subst g. unfold NewGovernor. fold g0.
    rewrite Hnil, Hname, Hkey. reflexivity.
  - unfold Available. destruct (Governor_backend g) as [| b | b | mock | b]; cbn;
      split; try congruence; try (intros _ mock'; discriminate).
    intros Hno. destruct (Hno mock). reflexivity.
  - intros b before after Hb -> Hafter.
    assert (Hg0 : Governor_backend g0 = b).
    { subst g0. unfold configured. rewrite fold_left_app. simpl.
      rewrite fold_options_backend by exact Hafter. reflexivity. }
    rewrite Hkept; [exact Hg0 | rewrite Hg0; exact Hb].
Qed.

End Selection.

Lemma NewGovernor_backend_selection_witness :
  Governor_backend (@NewGovernor (sampleEnv noEnv) []) = MockB NewMockBackend /\
  Available (@NewGovernor (sampleEnv noEnv) []) = false /\
  Governor_backend (@NewGovernor (sampleEnv (setenv "LLM_GOVERNOR_FUNCTION" "my-func")) [])
    = LambdaB (NewLambdaBackend "my-func" None) /\
  Governor_backend (@NewGovernor (sampleEnv (setenv "ANTHROPIC_API_KEY" "sk-ant-test"))
                      [WithFunctionName "explicit-func"])
    = LambdaB (NewLambdaBackend "explicit-func" None) /\
  Governor_backend (@NewGovernor (sampleEnv (setenv "ANTHROPIC_API_KEY" "sk-ant-test")) [])
    = AnthropicB (@NewAnthropicBackend
                    (sampleEnv (setenv "ANTHROPIC_API_KEY" "sk-ant-test")) []) /\
  Governor_backend (@NewGovernor (sampleEnv (setenv "LLM_GOVERNOR_FUNCTION" "my-func"))
                      [WithBackend (MockB NewMockBackend); WithExecutionRunID "run-1"])
    = MockB NewMockBackend.
Proof.
  split; [| split; [| split; [| split; [| split]]]].
  - apply (proj1 (proj2 (proj2 (proj2
             (@NewGovernor_backend_selection (sampleEnv noEnv) []))))); reflexivity.
  - reflexivity.
  - apply (proj1 (proj2 (@NewGovernor_backend_selection
             (sampleEnv (setenv "LLM_GOVERNOR_FUNCTION" "my-func")) [])));
      [reflexivity | discriminate].
  - apply (proj1 (proj2 (@NewGovernor_backend_selection
             (sampleEnv (setenv "ANTHROPIC_API_KEY" "sk-ant-test"))
             [WithFunctionName "explicit-func"])));
      [reflexivity | discriminate].
  - apply (proj1 (proj2 (proj2 (@NewGovernor_backend_selection
             (sampleEnv (setenv "ANTHROPIC_API_KEY" "sk-ant-test")) []))));
      [reflexivity | reflexivity | discriminate].
  - apply (proj2 (proj2 (proj2 (proj2 (proj2 (@NewGovernor_backend_selection
             (sampleEnv (setenv "LLM_GOVERNOR_FUNCTION" "my-func"))
             [WithBackend (MockB NewMockBackend); WithExecutionRunID "run-1"])))))
           (MockB NewMockBackend) [] [WithExecutionRunID "run-1"]).
    + discriminate.
    + reflexivity.
    + repeat constructor.
Defined.

(** ** The governor: the execution run id *)

Lemma withDefaults_fields (g : Governor) (req : InvokeRequest) :
  (InvokeRequest_Action req = "" -> InvokeRequest_Action (withDefaults g req) = "invoke") /\
  (InvokeRequest_Action req <> "" ->
   InvokeRequest_Action (withDefaults g req) = InvokeRequest_Action req) /\
  (InvokeRequest_ExecutionRunID req = "" ->
   InvokeRequest_ExecutionRunID (withDefaults g req) = Governor_executionRunID g) /\
  (InvokeRequest_ExecutionRunID req <> "" ->
   InvokeRequest_ExecutionRunID (withDefaults g req) = InvokeRequest_ExecutionRunID req).
Proof.
  unfold withDefaults. cbn. repeat split.
  - intros ->. reflexivity.
  - intros Hne. apply String.eqb_neq in Hne. rewrite Hne. reflexivity.
  - intros ->. reflexivity.
  - intros Hne. apply String.eqb_neq in Hne. rewrite Hne. reflexivity.
Qed.

Section ExecutionRunID.
Context `{Env} `{Codecs}.

(** The governor with backends hands the request to a Lambda backend
    whatever its execution run id: the payload reaches the channel. *)
Lemma Governor_Invoke_Lambda_sends
  (g : Governor) (b : LambdaBackend) (client : lambdaClient)
  (req : InvokeRequest) (w : World) (payloadBytes : string) :
  Governor_backend g = LambdaB b ->
  LambdaBackend_lambdaClient b = Some client ->
  Marshal (withDefaults g req) = inr payloadBytes ->
  World_invocations (snd (snd (Governor_Invoke req (g, w))))
  = (World_invocations w
       ++ [{| InvokeInput_FunctionName := LambdaBackend_functionName b;
              InvokeInput_Payload := payloadBytes |}])%list.
Proof.
  intros Hb Hclient Hpayload.
  unfold Governor_Invoke, onBackend, Backend_Invoke. rewrite Hb.
  unfold LambdaBackend_Invoke, LambdaBackend_call, bind, LambdaBackend_ensureClient.
  rewrite Hclient, Hpayload. cbn.
  destruct (lambdaClient_Invoke client _) as [err | output]; cbn; [reflexivity |].
  destruct (handleOutput output
              (b, {| World_invocations :=
                       (World_invocations w
                          ++ [{| InvokeInput_FunctionName := LambdaBackend_functionName b;
                                 InvokeInput_Payload := payloadBytes |}])%list;
                     World_requests := World_requests w |})) as [r [b' w']] eqn:Hout.
  rewrite handleOutput_cases in Hout. injection Hout as _ _ <-. reflexivity.
Qed.

(** The governor of src/llm/governor.go refuses a request that has no
    execution run id after the defaulting, and sends nothing. *)
Lemma LambdaGovernor_Invoke_requires_executionRunID
  (g : LambdaGovernor.Governor) (req : InvokeRequest) (w : World) :
  LambdaGovernor.Governor_executionRunID g = "" ->
  InvokeRequest_ExecutionRunID req = "" ->
  LambdaGovernor.Invoke req (g, w)
  = (inl (Errorf "executionRunId is required: set EXECUTION_RUN_ID env var or use WithExecutionRunID option" []),
     (g, w)).
Proof.
  intros Hg Hreq. unfold LambdaGovernor.Invoke, LambdaGovernor.withDefaults. cbn.
  rewrite Hreq, Hg. reflexivity.
Qed.

End ExecutionRunID.

(** C1 (the code does not do this). With a function name configured, no
    execution run id anywhere and a request without one, [Invoke] of the
    governor with backends defaults the action and still hands the
    request to the Lambda backend: the payload with the empty
    [executionRunId] reaches the channel and the call succeeds. The
    governor of src/llm/governor.go returns the configuration error on
    the same input and sends nothing. *)
Theorem Governor_Invoke_empty_executionRunID_reaches_Lambda :
  let g := @NewGovernor functionOnly [WithLambdaClient (Some sampleLambdaClient)] in
  let g' := @LambdaGovernor.NewGovernor functionOnly
              [LambdaGovernor.WithLambdaClient (Some sampleLambdaClient)] in
  let req := helloRequest ModelHaiku45 in
  Governor_backend g = LambdaB (NewLambdaBackend "my-func" (Some sampleLambdaClient)) /\
  InvokeRequest_Action (withDefaults g req) = "invoke" /\
  InvokeRequest_ExecutionRunID (withDefaults g req) = "" /\
  @Governor_Invoke functionOnly showCodecs req (g, emptyWorld)
  = (inr (sampleResponse "answer"),
     (g, {| World_invocations :=
              [{| InvokeInput_FunctionName := "my-func";
                  InvokeInput_Payload := "action=invoke;executionRunId=" |}];
            World_requests := [] |})) /\
  @LambdaGovernor.Invoke functionOnly showRequest
     (fun _ => inr notAnError) (fun _ => inr (sampleResponse "answer")) req (g', emptyWorld)
  = (inl (fmtError "executionRunId is required: set EXECUTION_RUN_ID env var or use WithExecutionRunID option" None),
     (g', emptyWorld)).
Proof. intros g g' req. repeat apply conj; reflexivity. Qed.

(** ** The mock backend *)

Lemma echoable_test (block : ContentBlock) :
  String.eqb (ContentBlock_Type block) "text"
  && negb (String.eqb (ContentBlock_Text block) "") = true <-> echoable block.
Proof.
  unfold echoable. rewrite andb_true_iff, negb_true_iff, String.eqb_eq, String.eqb_neq.
  reflexivity.
Qed.

Lemma firstText_found (before after : list ContentBlock) (block : ContentBlock) :
  Forall (fun c => ~ echoable c) before -> echoable block ->
  firstText (before ++ block :: after)%list = ContentBlock_Text block.
Proof.
  intros Hbefore Hblock. induction Hbefore as [| c before Hc _ IH]; simpl.
  - apply echoable_test in Hblock. rewrite Hblock. reflexivity.
  - destruct (String.eqb (ContentBlock_Type c) "text"
              && negb (String.eqb (ContentBlock_Text c) "")) eqn:Htest; [| exact IH].
    apply echoable_test in Htest. contradiction.
Qed.

Lemma firstText_none (content : list ContentBlock) :
  Forall (fun c => ~ echoable c) content -> firstText content = "".
Proof.
  intros Hnone. induction Hnone as [| c content Hc _ IH]; simpl; [reflexivity |].
  destruct (String.eqb (ContentBlock_Type c) "text"
            && negb (String.eqb (ContentBlock_Text c) "")) eqn:Htest; [| exact IH].
  apply echoable_test in Htest. contradiction.
Qed.

(** The messages after the last user message are skipped. *)
Lemma lastUserPrompt_skip (before after : list Message) (msg : Message) (k : nat) :
  Forall (fun m => Message_Role m <> "user") after ->
  (k <= length after)%nat ->
  lastUserPrompt (before ++ msg :: after)%list (S (length before) + k)
  = lastUserPrompt (before ++ msg :: after)%list (S (length before)).
Proof.
  intros Hafter. induction k as [| k IH]; intros Hk.
  - rewrite Nat.add_0_r. reflexivity.
  - rewrite Nat.add_succ_r. cbn [lastUserPrompt].
    destruct (lookup_lt_is_Some_2 after k) as [m Hm]; [lia |].
    assert (Hlook : (before ++ msg :: after)%list !! (S (length before) + k)%nat = Some m).
    { rewrite lookup_app_r by lia.
      replace (S (length before) + k - length before)%nat with (S k) by lia. exact Hm. }
    rewrite Hlook.
    assert (Hrole : Message_Role m <> "user").
    { rewrite Forall_forall in Hafter. apply Hafter. eapply list_elem_of_lookup_2, Hm. }
    apply String.eqb_neq in Hrole. rewrite Hrole. apply IH. lia.
Qed.

Lemma lastUserPrompt_found (before after : list Message) (msg : Message) :
  Message_Role msg = "user" ->
  Forall (fun m => Message_Role m <> "user") after ->
  lastUserPrompt (before ++ msg :: after)%list (length (before ++ msg :: after)%list)
  = firstText (Message_Content msg).
Proof.
  intros Hrole Hafter.
  replace (length (before ++ msg :: after)%list) with (S (length before) + length after)%nat
    by (rewrite length_app; simpl; lia).
  rewrite lastUserPrompt_skip by (exact Hafter || lia).
  cbn [lastUserPrompt]. rewrite list_lookup_middle by reflexivity.
  rewrite Hrole. reflexivity.
Qed.



Lemma Sprintf_mock (promptText : string) :
  Sprintf "[mock] %s" [ArgS promptText] = "[mock] " ++ promptText.
Proof. cbn. rewrite append_empty_r. reflexivity. Qed.

(** Without registered responses the mock answers with the echo. *)
Lemma MockBackend_Invoke_echo (req : InvokeRequest) (b : MockBackend) :
  MockBackend_responses b = [] ->
  MockBackend_Invoke req b
  = (inr {| InvokeResponse_Content :=
              [{| ResponseContent_Type := "text";
                  ResponseContent_Text :=
                    "[mock] " ++ lastUserPrompt (InvokeRequest_Messages req)
                                   (length (InvokeRequest_Messages req)) |}];
            InvokeResponse_Model := InvokeRequest_Model req;
            InvokeResponse_Usage := zeroUsageInfo;
            InvokeResponse_BudgetRemaining := zeroBudgetInfo;
            InvokeResponse_StopReason := "end_turn" |},
     {| MockBackend_responses := [];
        MockBackend_callLog := (MockBackend_callLog b ++ [req])%list |}).
Proof.
  intros Hnone. unfold MockBackend_Invoke. rewrite Hnone, Sprintf_mock. reflexivity.
Qed.

(** C8. Without registered responses the mock answers with one text block
    holding [[mock] ] followed by the text of the first non-empty text
    block of the last user message, with stop reason [end_turn] and the
    model of the request. *)
Theorem MockBackend_Invoke_default_echo
  (b : MockBackend) (req : InvokeRequest)
  (before after : list Message) (msg : Message)
  (skipped rest : list ContentBlock) (block : ContentBlock) :
  MockBackend_responses b = [] ->
  InvokeRequest_Messages req = (before ++ msg :: after)%list ->
  Message_Role msg = "user" ->
  Forall (fun m => Message_Role m <> "user") after ->
  Message_Content msg = (skipped ++ block :: rest)%list ->
  Forall (fun c => ~ echoable c) skipped ->
  echoable block ->
  exists resp,
    fst (MockBackend_Invoke req b) = inr resp /\
    InvokeResponse_Content resp
      = [{| ResponseContent_Type := "text";
            ResponseContent_Text := "[mock] " ++ ContentBlock_Text block |}] /\
    Text resp = "[mock] " ++ ContentBlock_Text block /\
    InvokeResponse_StopReason resp = "end_turn" /\
    InvokeResponse_Model resp = InvokeRequest_Model req.
Proof.
  intros Hnone Hmessages Hrole Hafter Hcontent Hskipped Hblock.
  rewrite (MockBackend_Invoke_echo req b Hnone). eexists. split; [reflexivity |].
  cbn [InvokeResponse_Content InvokeResponse_StopReason InvokeResponse_Model].
  rewrite Hmessages, (lastUserPrompt_found before after msg Hrole Hafter).
  rewrite Hcontent, (firstText_found skipped rest block Hskipped Hblock).
  repeat split. 
Qed.

Lemma MockBackend_Invoke_default_echo_witness :
  exists resp,
    fst (MockBackend_Invoke
           (newRequest ModelHaiku45 "" [UserMessage [TextBlock "Hello world"]])
           NewMockBackend) = inr resp /\
    InvokeResponse_Content resp
      = [{| ResponseContent_Type := "text";
            ResponseContent_Text := "[mock] Hello world" |}] /\
    Text resp = "[mock] Hello world" /\
    InvokeResponse_StopReason resp = "end_turn" /\
    InvokeResponse_Model resp = ModelHaiku45.
Proof.
  apply (MockBackend_Invoke_default_echo NewMockBackend
           (newRequest ModelHaiku45 "" [UserMessage [TextBlock "Hello world"]])
           [] [] (UserMessage [TextBlock "Hello world"]) [] [] (TextBlock "Hello world")).
  - reflexivity.
  - reflexivity.
  - reflexivity.
  - constructor.
  - reflexivity.
  - constructor.
  - split; [reflexivity | discriminate].
Defined.

Lemma invokeAll_cons (req : InvokeRequest) (reqs : list InvokeRequest) (b : MockBackend) :
  fst (invokeAll (req :: reqs) b)
  = fst (MockBackend_Invoke req b) :: fst (invokeAll reqs (snd (MockBackend_Invoke req b))).
Proof.
  cbn [invokeAll]. destruct (MockBackend_Invoke req b) as [r b']. cbn [fst snd].
  destruct (invokeAll reqs b') as [rs b'']. reflexivity.
Qed.

(** With responses registered, the calls return them in order and the
    last one again and again. *)
Lemma invokeAll_registered (reqs : list InvokeRequest) :
  forall (b : MockBackend) (i : nat),
    MockBackend_responses b <> [] ->
    (i < length reqs)%nat ->
    fst (invokeAll reqs b) !! i
    = inr <$> MockBackend_responses b
                !! Nat.min i (length (MockBackend_responses b) - 1).
Proof.
  induction reqs as [| req reqs IH]; intros b i Hsome Hi; [simpl in Hi; lia |].
  rewrite invokeAll_cons. unfold MockBackend_Invoke.
  destruct (MockBackend_responses b) as [| resp rest] eqn:Hresponses; [congruence |].
  destruct rest as [| next rest]; cbn [length Nat.ltb Nat.leb fst snd].
  - destruct i as [| i]; [reflexivity |].
    cbn [lookup list_lookup]. rewrite IH by (simpl in *; (discriminate || lia)).
    cbn [MockBackend_responses length]. rewrite Nat.min_0_r. reflexivity.
  - destruct i as [| i]; [reflexivity |].
    cbn [lookup list_lookup]. rewrite IH by (simpl in *; (discriminate || lia)).
    cbn [MockBackend_responses length].
    replace (Nat.min (S i) (S (S (length rest)) - 1)) with (S (Nat.min i (S (length rest) - 1)))
      by lia.
    reflexivity.
Qed.

(** C9. After [SetResponses] with a non-empty sequence, the call number
    [i] (from zero) returns the response at position [min i (n - 1)] of
    the sequence and no error; after [SetResponse] every call returns the
    one response. *)
Theorem MockBackend_responses_in_order
  (b : MockBackend) (reqs : list InvokeRequest) (i : nat) :
  (i < length reqs)%nat ->
  (forall responses : list InvokeResponse,
     responses <> [] ->
     fst (invokeAll reqs (SetResponses b responses)) !! i
     = inr <$> responses !! Nat.min i (length responses - 1)) /\
  (forall resp : InvokeResponse,
     fst (invokeAll reqs (SetResponse b resp)) !! i = Some (inr resp)).
Proof.
  intros Hi. split.
  - intros responses Hsome.
    apply (invokeAll_registered reqs (SetResponses b responses) i Hsome Hi).
  - intros resp.
    rewrite (invokeAll_registered reqs (SetResponse b resp) i) by (discriminate || exact Hi).
    cbn. rewrite Nat.min_0_r. reflexivity.
Qed.

Lemma MockBackend_responses_in_order_witness :
  fst (invokeAll [helloRequest "a"; helloRequest "b"; helloRequest "c"]
         (SetResponses NewMockBackend [sampleResponse "first"; sampleResponse "second"]))
    !! 2%nat
  = Some (inr (sampleResponse "second")) /\
  fst (invokeAll [helloRequest "a"; helloRequest "b"; helloRequest "c"]
         (SetResponses NewMockBackend [sampleResponse "first"; sampleResponse "second"]))
  = [inr (sampleResponse "first"); inr (sampleResponse "second");
     inr (sampleResponse "second")].
Proof.
  split.
  - apply (proj1 (MockBackend_responses_in_order NewMockBackend
                    [helloRequest "a"; helloRequest "b"; helloRequest "c"] 2
                    ltac:(simpl; lia))
             [sampleResponse "first"; sampleResponse "second"]).
    discriminate.
  - reflexivity.
Defined.



(** With no nil pointer registered and an unchanged store, the mock of
    pointers answers as the mock of values does. *)
Lemma MockBackendPtr_Invoke_values
  (store : Store) (l : loc) (responses : list InvokeResponse)
  (log : list (option loc)) (values : list InvokeRequest) :
  let b := {| MockBackendPtr_responses := Some <$> responses;
              MockBackendPtr_callLog := log |} in
  let v := {| MockBackend_responses := responses; MockBackend_callLog := values |} in
  exists resp,
    fst (MockBackend_Invoke (store l) v) = inr resp /\
    fst (MockBackendPtr_Invoke store (Some l) b) = (Some resp, None) /\
    MockBackendPtr_responses (snd (MockBackendPtr_Invoke store (Some l) b))
    = Some <$> MockBackend_responses (snd (MockBackend_Invoke (store l) v)).
Proof.
  intros b v. subst b v. unfold MockBackendPtr_Invoke, MockBackend_Invoke.
  cbn [MockBackendPtr_responses MockBackend_responses].
  destruct responses as [| resp [| next rest]]; eexists; repeat split.
Qed.




(* ================================================================== *)
(** * Further properties of the package                                *)
(* ================================================================== *)

(** ** Further properties: errors.go *)

(** X1. The five code predicates of a [GovernorError] exclude each other,
    and a code outside the five satisfies none of them. *)
Theorem GovernorError_predicates_exclusive (e : GovernorError) :
  (length (List.filter (fun holds : bool => holds)
             [IsBudgetExceeded e; IsModelNotAllowed e; IsProviderNotAllowed e;
              IsModelNotEnabled e; IsThrottled e]) <= 1)%nat /\
  (GovernorError_Code e
     ∉ ["budget_exceeded"; "model_not_allowed"; "provider_not_allowed";
        "model_not_enabled"; "bedrock_throttled"] ->
   List.filter (fun holds : bool => holds)
     [IsBudgetExceeded e; IsModelNotAllowed e; IsProviderNotAllowed e;
      IsModelNotEnabled e; IsThrottled e] = []).
Proof.
  unfold IsBudgetExceeded, IsModelNotAllowed, IsProviderNotAllowed,
    IsModelNotEnabled, IsThrottled.
  split.
  - destruct (String.eqb_spec (GovernorError_Code e) "budget_exceeded") as [-> | _];
      [cbn; lia |].
    destruct (String.eqb_spec (GovernorError_Code e) "model_not_allowed") as [-> | _];
      [cbn; lia |].
    destruct (String.eqb_spec (GovernorError_Code e) "provider_not_allowed") as [-> | _];
      [cbn; lia |].
    destruct (String.eqb_spec (GovernorError_Code e) "model_not_enabled") as [-> | _];
      [cbn; lia |].
    destruct (String.eqb (GovernorError_Code e) "bedrock_throttled"); cbn; lia.
  - intros Hother.
    assert (Hne : forall code,
              code ∈ ["budget_exceeded"; "model_not_allowed"; "provider_not_allowed";
                      "model_not_enabled"; "bedrock_throttled"] ->
              String.eqb (GovernorError_Code e) code = false).
    { intros code Hcode. apply String.eqb_neq. intros Heq. apply Hother.
      rewrite Heq. exact Hcode. }
    rewrite !Hne by set_solver. reflexivity.
Qed.

Lemma GovernorError_predicates_exclusive_witness :
  List.filter (fun holds : bool => holds)
    [IsBudgetExceeded (governorErrorOf notAnError);
     IsModelNotAllowed (governorErrorOf notAnError);
     IsProviderNotAllowed (governorErrorOf notAnError);
     IsModelNotEnabled (governorErrorOf notAnError);
     IsThrottled (governorErrorOf notAnError)] = [].
Proof.
  apply (proj2 (GovernorError_predicates_exclusive (governorErrorOf notAnError))).
  apply (bool_decide_unpack _). vm_compute. exact I.
Defined.

(** ** Further properties: the text of a response *)

Lemma append_assoc (s1 s2 s3 : string) : (s1 ++ s2) ++ s3 = s1 ++ (s2 ++ s3).
Proof.
  induction s1 as [| c s1 IH]; [reflexivity |].
  change (String c ((s1 ++ s2) ++ s3) = String c (s1 ++ (s2 ++ s3))). f_equal. exact IH.
Qed.

Lemma fold_left_append_text (content : list ResponseContent) (acc : string) :
  fold_left
    (fun text c =>
       if String.eqb (ResponseContent_Type c) "text"
       then text ++ ResponseContent_Text c else text)
    content acc
  = acc ++ String.concat ""
             (map ResponseContent_Text
                (List.filter (fun c => String.eqb (ResponseContent_Type c) "text") content)).
Proof.
  revert acc. induction content as [| c content IH]; intros acc.
  - cbn. rewrite append_empty_r. reflexivity.
  - cbn [fold_left List.filter]. rewrite IH.
    destruct (String.eqb (ResponseContent_Type c) "text"); [| reflexivity].
    cbn [map String.concat].
    destruct (map ResponseContent_Text
                (List.filter (fun c0 => String.eqb (ResponseContent_Type c0) "text") content))
      as [| t ts] eqn:Hrest.
    + cbn. rewrite !append_empty_r. reflexivity.
    + change (String.concat "" (ResponseContent_Text c :: t :: ts))
        with (ResponseContent_Text c ++ "" ++ String.concat "" (t :: ts)).
      change ("" ++ String.concat "" (t :: ts)) with (String.concat "" (t :: ts)).
      rewrite append_assoc. reflexivity.
Qed.

(** X2. [Text] is the concatenation, in order, of the texts of the
    blocks of type [text]; blocks of another type contribute nothing, and
    the text of two content lists put end to end is the two texts put
    end to end. *)
Theorem Text_concatenates (r : InvokeResponse) :
  Text r
  = String.concat ""
      (map ResponseContent_Text
         (List.filter (fun c => String.eqb (ResponseContent_Type c) "text")
                      (InvokeResponse_Content r))) /\
  (forall front back : list ResponseContent,
     InvokeResponse_Content r = (front ++ back)%list ->
     Text r
     = Text {| InvokeResponse_Content := front;
               InvokeResponse_Model := InvokeResponse_Model r;
               InvokeResponse_Usage := InvokeResponse_Usage r;
               InvokeResponse_BudgetRemaining := InvokeResponse_BudgetRemaining r;
               InvokeResponse_StopReason := InvokeResponse_StopReason r |}
       ++ Text {| InvokeResponse_Content := back;
                  InvokeResponse_Model := InvokeResponse_Model r;
                  InvokeResponse_Usage := InvokeResponse_Usage r;
                  InvokeResponse_BudgetRemaining := InvokeResponse_BudgetRemaining r;
                  InvokeResponse_StopReason := InvokeResponse_StopReason r |}).
Proof.
  split.
  - unfold Text. rewrite fold_left_append_text. reflexivity.
  - intros front back Hcontent. unfold Text. cbn [InvokeResponse_Content].
    rewrite Hcontent, fold_left_app.
    rewrite (fold_left_append_text back), (fold_left_append_text back "").
    reflexivity.
Qed.

Lemma Text_concatenates_witness :
  Text {| InvokeResponse_Content :=
            [{| ResponseContent_Type := "text"; ResponseContent_Text := "Hello " |};
             {| ResponseContent_Type := "tool_use"; ResponseContent_Text := "ignored" |};
             {| ResponseContent_Type := "text"; ResponseContent_Text := "world" |}];
          InvokeResponse_Model := "";
          InvokeResponse_Usage := zeroUsageInfo;
          InvokeResponse_BudgetRemaining := zeroBudgetInfo;
          InvokeResponse_StopReason := "" |}
  = "Hello " ++ "world".
Proof.
  apply (proj2 (Text_concatenates
           {| InvokeResponse_Content :=
                [{| ResponseContent_Type := "text"; ResponseContent_Text := "Hello " |};
                 {| ResponseContent_Type := "tool_use"; ResponseContent_Text := "ignored" |};
                 {| ResponseContent_Type := "text"; ResponseContent_Text := "world" |}];
              InvokeResponse_Model := "";
              InvokeResponse_Usage := zeroUsageInfo;
              InvokeResponse_BudgetRemaining := zeroBudgetInfo;
              InvokeResponse_StopReason := "" |})
           [{| ResponseContent_Type := "text"; ResponseContent_Text := "Hello " |};
            {| ResponseContent_Type := "tool_use"; ResponseContent_Text := "ignored" |}]
           [{| ResponseContent_Type := "text"; ResponseContent_Text := "world" |}]).
  reflexivity.
Defined.

(** ** Further properties: the content-block codec *)

Lemma textMap_type (text : string) : textMap text !! "type" = Some (VString "text").
Proof. unfold textMap. apply lookup_insert_eq. Qed.

Lemma sourceMap_type (typ mediaType data : string) :
  sourceMap typ mediaType data !! "type" = Some (VString typ).
Proof. unfold sourceMap. apply lookup_insert_eq. Qed.

Lemma sourceMap_data (typ mediaType data : string) :
  exists source : gmap string Value,
    sourceMap typ mediaType data !! "source" = Some (VMap source) /\
    source !! "media_type" = Some (VString mediaType) /\
    source !! "data" = Some (VString data).
Proof.
  eexists. unfold sourceMap. split; [| split].
  - rewrite lookup_insert_ne by discriminate. apply lookup_insert_eq.
  - rewrite lookup_insert_ne by discriminate. apply lookup_insert_eq.
  - rewrite !lookup_insert_ne by discriminate. apply lookup_insert_eq.
Qed.

(** X3. Whatever the block and the file system, the wire block has a
    [type] entry that is [text], [image] or [document]: the types
    [efs_document] and anything unknown never reach the provider. *)
Theorem convertContentBlock_wire_type (ReadFile : FileSystem) (block : ContentBlock) :
  exists typ,
    convertContentBlock ReadFile block !! "type" = Some (VString typ) /\
    typ ∈ ["text"; "image"; "document"].
Proof.
  unfold convertContentBlock.
  destruct (String.eqb (ContentBlock_Type block) "text");
    [exists "text"; split; [apply textMap_type | set_solver] |].
  destruct (String.eqb (ContentBlock_Type block) "image");
    [exists "image"; split; [apply sourceMap_type | set_solver] |].
  destruct (String.eqb (ContentBlock_Type block) "document");
    [exists "document"; split; [apply sourceMap_type | set_solver] |].
  destruct (String.eqb (ContentBlock_Type block) "efs_document");
    [| exists "text"; split; [apply textMap_type | set_solver]].
  unfold convertEFSDocument.
  destruct (String.eqb (ContentBlock_Path block) "");
    [exists "text"; split; [apply textMap_type | set_solver] |].
  destruct (ReadFile (ContentBlock_Path block));
    [exists "text"; split; [apply textMap_type | set_solver] |].
  exists "document". split; [apply sourceMap_type | set_solver].
Qed.

(** X4. A [text] block converts to the map with [type] [text] and its
    own text under [text]; an [image] block to the map with [type]
    [image] and a [source] map with [type] [base64], the data of the
    block under [data], and under [media_type] the block's [MediaType]
    when that is set, else [image/] followed by the [Format] when that is
    set, else the empty string. *)
Theorem convertContentBlock_text_image (ReadFile : FileSystem) (block : ContentBlock) :
  (ContentBlock_Type block = "text" ->
   convertContentBlock ReadFile block
   = <["type" := VString "text"]> (<["text" := VString (ContentBlock_Text block)]> ∅)) /\
  (ContentBlock_Type block = "image" -> ContentBlock_MediaType block <> "" ->
   convertContentBlock ReadFile block
   = <["type" := VString "image"]>
     (<["source" := VMap (<["type" := VString "base64"]>
                         (<["media_type" := VString (ContentBlock_MediaType block)]>
                         (<["data" := VString (ContentBlock_Data block)]> ∅)))]> ∅)) /\
  (ContentBlock_Type block = "image" -> ContentBlock_MediaType block = "" ->
   ContentBlock_Format block <> "" ->
   convertContentBlock ReadFile block
   = <["type" := VString "image"]>
     (<["source" := VMap (<["type" := VString "base64"]>
                         (<["media_type" := VString ("image/" ++ ContentBlock_Format block)]>
                         (<["data" := VString (ContentBlock_Data block)]> ∅)))]> ∅)) /\
  (ContentBlock_Type block = "image" -> ContentBlock_MediaType block = "" ->
   ContentBlock_Format block = "" ->
   convertContentBlock ReadFile block
   = <["type" := VString "image"]>
     (<["source" := VMap (<["type" := VString "base64"]>
                         (<["media_type" := VString ""]>
                         (<["data" := VString (ContentBlock_Data block)]> ∅)))]> ∅)).
Proof.
  unfold convertContentBlock. repeat split.
  - intros ->. reflexivity.
  - intros -> Hmedia. apply String.eqb_neq in Hmedia. cbn. rewrite Hmedia. reflexivity.
  - intros -> -> Hformat. apply String.eqb_neq in Hformat. cbn. rewrite Hformat. reflexivity.
  - intros -> -> ->. reflexivity.
Qed.

Lemma convertContentBlock_text_image_witness :
  convertContentBlock noSuchFile (TextBlock "Hello")
  = <["type" := VString "text"]> (<["text" := VString "Hello"]> ∅) /\
  convertContentBlock noSuchFile (ImageBlock "png" "base64data")
  = <["type" := VString "image"]>
    (<["source" := VMap (<["type" := VString "base64"]>
                        (<["media_type" := VString "image/png"]>
                        (<["data" := VString "base64data"]> ∅)))]> ∅) /\
  convertContentBlock noSuchFile (ImageBlock "" "base64data")
  = <["type" := VString "image"]>
    (<["source" := VMap (<["type" := VString "base64"]>
                        (<["media_type" := VString ""]>
                        (<["data" := VString "base64data"]> ∅)))]> ∅).
Proof.
  split; [| split].
  - apply (proj1 (convertContentBlock_text_image noSuchFile (TextBlock "Hello"))).
    reflexivity.
  - apply (proj1 (proj2 (proj2 (convertContentBlock_text_image noSuchFile
                                  (ImageBlock "png" "base64data")))));
      [reflexivity | reflexivity | discriminate].
  - apply (proj2 (proj2 (proj2 (convertContentBlock_text_image noSuchFile
                                  (ImageBlock "" "base64data"))))); reflexivity.
Defined.

(** X5. An inline [document] block converts to the map with [type]
    [document] and a [source] map with [type] [base64], the data of the
    block under [data], and under [media_type] the block's [MediaType]
    when that is set and the table entry of its [Format] otherwise, that
    is [application/octet-stream] for a format outside the table (the
    empty one included). *)
Theorem convertContentBlock_document (ReadFile : FileSystem) (block : ContentBlock) :
  ContentBlock_Type block = "document" ->
  (ContentBlock_MediaType block <> "" ->
   convertContentBlock ReadFile block
   = <["type" := VString "document"]>
     (<["source" := VMap (<["type" := VString "base64"]>
                         (<["media_type" := VString (ContentBlock_MediaType block)]>
                         (<["data" := VString (ContentBlock_Data block)]> ∅)))]> ∅)) /\
  (ContentBlock_MediaType block = "" ->
   convertContentBlock ReadFile block
   = <["type" := VString "document"]>
     (<["source" := VMap (<["type" := VString "base64"]>
                         (<["media_type" := VString (docMediaType (ContentBlock_Format block))]>
                         (<["data" := VString (ContentBlock_Data block)]> ∅)))]> ∅)) /\
  (ContentBlock_MediaType block = "" ->
   ContentBlock_Format block ∉ ["pdf"; "csv"; "txt"; "md"; "html"] ->
   convertContentBlock ReadFile block
   = <["type" := VString "document"]>
     (<["source" := VMap (<["type" := VString "base64"]>
                         (<["media_type" := VString "application/octet-stream"]>
                         (<["data" := VString (ContentBlock_Data block)]> ∅)))]> ∅)).
Proof.
  intros Htype. unfold convertContentBlock. rewrite Htype. cbn. repeat split.
  - intros Hmedia. apply String.eqb_neq in Hmedia. rewrite Hmedia. reflexivity.
  - intros ->. reflexivity.
  - intros -> Hformat. cbn. rewrite docMediaType_unknown by exact Hformat. reflexivity.
Qed.

Lemma convertContentBlock_document_witness :
  convertContentBlock noSuchFile
    {| ContentBlock_Type := "document"; ContentBlock_Text := ""; ContentBlock_Path := "";
       ContentBlock_Format := "pdf"; ContentBlock_Data := "base64pdf";
       ContentBlock_MediaType := ""; ContentBlock_Name := "report" |}
  = <["type" := VString "document"]>
    (<["source" := VMap (<["type" := VString "base64"]>
                        (<["media_type" := VString "application/pdf"]>
                        (<["data" := VString "base64pdf"]> ∅)))]> ∅).
Proof.
  apply (proj1 (proj2 (convertContentBlock_document noSuchFile
           {| ContentBlock_Type := "document"; ContentBlock_Text := "";
              ContentBlock_Path := ""; ContentBlock_Format := "pdf";
              ContentBlock_Data := "base64pdf"; ContentBlock_MediaType := "";
              ContentBlock_Name := "report" |} eq_refl))).
  reflexivity.
Defined.

(** The loop of [filepath.Ext] walks over a plain name without stopping. *)
Lemma Ext_loop_plain (before name : string) (k : nat) :
  plainName name = true -> (k <= String.length name)%nat ->
  Ext_loop (before ++ name) (String.length before + k)
  = Ext_loop (before ++ name) (String.length before).
Proof.
  intros Hname. induction k as [| k IH]; intros Hk.
  - rewrite Nat.add_0_r. reflexivity.
  - rewrite Nat.add_succ_r. cbn [Ext_loop]. rewrite get_append_r.
    destruct (get_lt name k) as [c Hc]; [lia |]. rewrite Hc.
    destruct (plainName_get name k c Hname Hc) as [-> ->]. apply IH. lia.
Qed.

(** [filepath.Ext] of a path whose last element has no dot. *)
Lemma Ext_no_dot (dir name : string) :
  plainName name = true ->
  Ext name = "" /\ Ext (dir ++ String "/" name) = "".
Proof.
  intros Hname. unfold Ext. split.
  - rewrite <- (Nat.add_0_l (String.length name)).
    apply (Ext_loop_plain "" name (String.length name) Hname). lia.
  - replace (dir ++ String "/" name) with ((dir ++ "/") ++ name)
      by (rewrite append_assoc; reflexivity).
    rewrite (length_append (dir ++ "/") name).
    rewrite Ext_loop_plain by (exact Hname || lia).
    rewrite length_append. cbn [String.length]. rewrite Nat.add_1_r. cbn [Ext_loop].
    rewrite append_assoc, get_append_length. reflexivity.
Qed.

(** X6. A readable [efs_document] whose file name has no dot (alone or
    after a directory, whose own name may have dots) converts to the map
    with [type] [document] and a [source] map with [type] [base64],
    [media_type] [application/octet-stream] and the base64 of the bytes
    under [data]. *)
Theorem convert_efs_document_without_extension
  (ReadFile : FileSystem) (block : ContentBlock) (dir name : string) (B : list byte) :
  ContentBlock_Type block = "efs_document" ->
  plainName name = true -> name <> "" ->
  ContentBlock_Path block = name \/ ContentBlock_Path block = dir ++ String "/" name ->
  ReadFile (ContentBlock_Path block) = inr B ->
  convertContentBlock ReadFile block
  = <["type" := VString "document"]>
    (<["source" := VMap (<["type" := VString "base64"]>
                        (<["media_type" := VString "application/octet-stream"]>
                        (<["data" := VString (EncodeToString B)]> ∅)))]> ∅).
Proof.
  intros Htype Hname Hnonempty Hpath Hread.
  unfold convertContentBlock. rewrite Htype. cbn [String.eqb Ascii.eqb Bool.eqb]. cbv iota.
  unfold convertEFSDocument. rewrite Hread.
  destruct (Ext_no_dot dir name Hname) as [Hext1 Hext2].
  destruct Hpath as [-> | ->].
  - apply String.eqb_neq in Hnonempty. rewrite Hnonempty, Hext1. reflexivity.
  - replace (String.eqb (dir ++ String "/" name) "") with false
      by (destruct dir; reflexivity).
    rewrite Hext2. reflexivity.
Qed.

Lemma convert_efs_document_without_extension_witness :
  convertContentBlock (fun _ => inr ["f"; "a"; "k"; "e"]%byte) (FileBlock "run.1/output/README")
  = <["type" := VString "document"]>
    (<["source" := VMap (<["type" := VString "base64"]>
                        (<["media_type" := VString "application/octet-stream"]>
                        (<["data" := VString "ZmFrZQ=="]> ∅)))]> ∅).
Proof.
  apply (convert_efs_document_without_extension
           (fun _ => inr ["f"; "a"; "k"; "e"]%byte) (FileBlock "run.1/output/README")
           "run.1/output" "README" ["f"; "a"; "k"; "e"]%byte).
  - reflexivity.
  - reflexivity.
  - discriminate.
  - right. reflexivity.
  - reflexivity.
Defined.

(** A readable file always converts to a document with the encoded bytes. *)
Lemma convertEFSDocument_readable
  (ReadFile : FileSystem) (block : ContentBlock) (B : list byte) :
  ContentBlock_Type block = "efs_document" ->
  ContentBlock_Path block <> "" ->
  ReadFile (ContentBlock_Path block) = inr B ->
  convertContentBlock ReadFile block
  = sourceMap "document"
      (docMediaType (TrimPrefix (Ext (ContentBlock_Path block)) "."))
      (EncodeToString B).
Proof.
  intros Htype Hpath Hread.
  unfold convertContentBlock. rewrite Htype. cbn [String.eqb Ascii.eqb Bool.eqb]. cbv iota.
  unfold convertEFSDocument. rewrite Hread.
  apply String.eqb_neq in Hpath. rewrite Hpath. reflexivity.
Qed.

(** X7. The wire block of a readable [efs_document] determines the bytes
    of the file: two file systems under which the block converts to the
    same wire block hold the same bytes at its path. *)
Theorem convert_efs_document_injective
  (ReadFile1 ReadFile2 : FileSystem) (block : ContentBlock) (B1 B2 : list byte) :
  ContentBlock_Type block = "efs_document" ->
  ContentBlock_Path block <> "" ->
  ReadFile1 (ContentBlock_Path block) = inr B1 ->
  ReadFile2 (ContentBlock_Path block) = inr B2 ->
  convertContentBlock ReadFile1 block = convertContentBlock ReadFile2 block ->
  B1 = B2.
Proof.
  intros Htype Hpath Hread1 Hread2 Hsame.
  rewrite (convertEFSDocument_readable ReadFile1 block B1 Htype Hpath Hread1) in Hsame.
  rewrite (convertEFSDocument_readable ReadFile2 block B2 Htype Hpath Hread2) in Hsame.
  assert (Hdata : EncodeToString B1 = EncodeToString B2).
  { destruct (sourceMap_data "document"
                (docMediaType (TrimPrefix (Ext (ContentBlock_Path block)) "."))
                (EncodeToString B1)) as (s1 & Hs1 & _ & Hd1).
    destruct (sourceMap_data "document"
                (docMediaType (TrimPrefix (Ext (ContentBlock_Path block)) "."))
                (EncodeToString B2)) as (s2 & Hs2 & _ & Hd2).
    rewrite Hsame, Hs2 in Hs1. injection Hs1 as <-.
    rewrite Hd2 in Hd1. injection Hd1 as Hd1. symmetry. exact Hd1. }
  apply (f_equal DecodeString) in Hdata.
  rewrite !DecodeString_EncodeToString in Hdata. injection Hdata as Hdata. exact Hdata.
Qed.

Lemma convert_efs_document_injective_witness :
  ["f"; "a"; "k"; "e"]%byte = ["f"; "a"; "k"; "e"]%byte.
Proof.
  apply (convert_efs_document_injective
           (fun _ => inr ["f"; "a"; "k"; "e"]%byte)
           (fun path => if String.eqb path "a.pdf" then inr ["f"; "a"; "k"; "e"]%byte
                        else inl (externalError "no such file"))
           (FileBlock "a.pdf")).
  - reflexivity.
  - discriminate.
  - reflexivity.
  - reflexivity.
  - reflexivity.
Defined.

(** X8. [convertMessages] keeps the messages in order: message [i] of the
    result carries the role of message [i] and a content list with one
    wire block for each of its content blocks. *)
Theorem convertMessages_structure
  (ReadFile : FileSystem) (messages : list Message) (i : nat) (msg : Message) :
  messages !! i = Some msg ->
  length (convertMessages ReadFile messages) = length messages /\
  exists (wire : gmap string Value) (blocks : list Value),
    convertMessages ReadFile messages !! i = Some wire /\
    wire !! "role" = Some (VString (Message_Role msg)) /\
    wire !! "content" = Some (VList blocks) /\
    length blocks = length (Message_Content msg) /\
    forall (j : nat) (block : ContentBlock),
      Message_Content msg !! j = Some block ->
      blocks !! j = Some (VMap (convertContentBlock ReadFile block)).
Proof.
  intros Hmsg. rewrite convertMessages_map. split; [apply length_map |].
  exists (convertMessage ReadFile msg).
  exists (map (fun block => VMap (convertContentBlock ReadFile block)) (Message_Content msg)).
  split; [| split; [| split; [| split]]].
  - rewrite list_lookup_fmap, Hmsg. reflexivity.
  - unfold convertMessage. apply lookup_insert_eq.
  - unfold convertMessage. rewrite lookup_insert_ne by discriminate. apply lookup_insert_eq.
  - apply length_map.
  - intros j block Hblock. rewrite list_lookup_fmap, Hblock. reflexivity.
Qed.

Lemma convertMessages_structure_witness :
  length (convertMessages noSuchFile
            [UserMessage [TextBlock "Summarize this"; FileBlock "report.pdf"];
             AssistantMessage [TextBlock "It is a report."]]) = 2%nat.
Proof.
  apply (proj1 (convertMessages_structure noSuchFile
                  [UserMessage [TextBlock "Summarize this"; FileBlock "report.pdf"];
                   AssistantMessage [TextBlock "It is a report."]]
                  1 (AssistantMessage [TextBlock "It is a report."]) eq_refl)).
Defined.

(** ** Further properties: the Lambda backend *)

Section LambdaTraffic.
Context `{Env} {P R : Type}.
Context `{Marshaler P} `{Unmarshaler ErrorResponse} `{Unmarshaler R}.

(** The outcome of [call], step by step. *)
Lemma LambdaBackend_call_unfold (payload : P) (b : LambdaBackend) (w : World) :
  LambdaBackend_call (R := R) payload (b, w) =
  match LambdaBackend_ensureClient (b, w) with
  | (inl err, s) => (inl err, s)
  | (inr client, (b', w')) =>
      match Marshal payload with
      | inl err => (inl (Errorf_w "failed to marshal request: %w" err), (b', w'))
      | inr payloadBytes =>
          let input := {| InvokeInput_FunctionName := LambdaBackend_functionName b';
                          InvokeInput_Payload := payloadBytes |} in
          let sent := {| World_invocations := (World_invocations w' ++ [input])%list;
                         World_requests := World_requests w' |} in
          match lambdaClient_Invoke client input with
          | inl err => (inl (Errorf_w "failed to invoke governor: %w" err), (b', sent))
          | inr output => handleOutput output (b', sent)
          end
      end
  end.
Proof.
  unfold LambdaBackend_call, bind.
  destruct (LambdaBackend_ensureClient (b, w)) as [[err | client] [b' w']]; [reflexivity |].
  destruct (Marshal payload) as [err | payloadBytes]; [reflexivity |].
  cbn. destruct (lambdaClient_Invoke client _); reflexivity.
Qed.

Lemma LambdaBackend_ensureClient_cases (b : LambdaBackend) (w : World) :
  LambdaBackend_ensureClient (b, w) =
  match LambdaBackend_lambdaClient b, LoadDefaultConfig with
  | Some client, _ => (inr client, (b, w))
  | None, inl err => (inl (Errorf_w "failed to load AWS config: %w" err), (b, w))
  | None, inr cfg =>
      (inr (awsConfig_client cfg),
       (NewLambdaBackend (LambdaBackend_functionName b) (Some (awsConfig_client cfg)), w))
  end.
Proof.
  unfold LambdaBackend_ensureClient.
  destruct (LambdaBackend_lambdaClient b); [reflexivity |].
  destruct LoadDefaultConfig; reflexivity.
Qed.

(** X9. [call] hands at most one input to the invocation channel, under
    the backend's function name, and never touches the HTTP transport;
    when the client cannot be made or the payload does not encode,
    nothing is sent at all. *)
Theorem LambdaBackend_call_traffic (payload : P) (b : LambdaBackend) (w : World) :
  let w' := snd (snd (LambdaBackend_call (R := R) payload (b, w))) in
  World_requests w' = World_requests w /\
  (World_invocations w' = World_invocations w \/
   exists payloadBytes,
     Marshal payload = inr payloadBytes /\
     World_invocations w'
     = (World_invocations w
          ++ [{| InvokeInput_FunctionName := LambdaBackend_functionName b;
                 InvokeInput_Payload := payloadBytes |}])%list) /\
  (forall err, Marshal payload = inl err -> w' = w) /\
  (forall err, LambdaBackend_lambdaClient b = None -> LoadDefaultConfig = inl err ->
               w' = w).
Proof.
  intros w'. subst w'. rewrite LambdaBackend_call_unfold, LambdaBackend_ensureClient_cases.
  destruct (LambdaBackend_lambdaClient b) as [client |] eqn:Hclient;
    [| destruct LoadDefaultConfig as [e | cfg]];
    (destruct (Marshal payload) as [e' | payloadBytes] eqn:Hpayload; cbn;
     [| try match goal with
            | |- context [lambdaClient_Invoke ?c ?i] =>
                destruct (lambdaClient_Invoke c i) as [e'' | output]
            end; rewrite ?handleOutput_cases; cbn]);
    repeat split; try (intros; discriminate); eauto.
Qed.

(** X10. [call] keeps the function name; a client that is there is
    kept, a missing one is made from the default configuration once and
    stays in the backend whatever the call then returns, and a
    configuration that cannot be loaded is the error of the call. *)
Theorem LambdaBackend_call_lazy_client (payload : P) (b : LambdaBackend) (w : World) :
  let result := fst (LambdaBackend_call (R := R) payload (b, w)) in
  let b' := fst (snd (LambdaBackend_call (R := R) payload (b, w))) in
  LambdaBackend_functionName b' = LambdaBackend_functionName b /\
  (forall client, LambdaBackend_lambdaClient b = Some client -> b' = b) /\
  (forall cfg, LambdaBackend_lambdaClient b = None -> LoadDefaultConfig = inr cfg ->
               LambdaBackend_lambdaClient b' = Some (awsConfig_client cfg)) /\
  (forall err, LambdaBackend_lambdaClient b = None -> LoadDefaultConfig = inl err ->
               b' = b /\
               result = inl (Errorf_w "failed to load AWS config: %w" err)).
Proof.
  intros result b'. subst result b'.
  rewrite LambdaBackend_call_unfold, LambdaBackend_ensureClient_cases.
  destruct (LambdaBackend_lambdaClient b) as [client |] eqn:Hclient.
  - destruct (Marshal payload) as [e | payloadBytes]; cbn.
    + repeat split; intros; congruence.
    + destruct (lambdaClient_Invoke client _) as [e | output]; cbn;
        rewrite ?handleOutput_cases; cbn; repeat split; intros; congruence.
  - destruct LoadDefaultConfig as [e | cfg]; cbn.
    + repeat split; intros; congruence.
    + destruct (Marshal payload) as [e | payloadBytes]; cbn.
      * repeat split; intros; congruence.
      * destruct (lambdaClient_Invoke (awsConfig_client cfg) _) as [e | output]; cbn;
          rewrite ?handleOutput_cases; cbn; repeat split; intros; congruence.
Qed.

(** X11. A [GovernorError] comes out of [call] only from an answer of
    the backend's own channel: the client is the one the backend holds,
    or the one of the default configuration when it holds none; the
    payload encoded; the one input sent carries the backend's function
    name and the encoded payload; the client answered that very input
    with an output without function error whose payload decodes as an
    error envelope with a non-empty error code; and the error returned
    has the five fields of that envelope. *)
Theorem LambdaBackend_call_GovernorError (payload : P) (b : LambdaBackend) (w : World)
  (ge : GovernorError) :
  fst (LambdaBackend_call (R := R) payload (b, w)) = inl (governorError ge) ->
  exists (client : lambdaClient) (payloadBytes : string) (output : InvokeOutput)
         (errResp : ErrorResponse),
    (LambdaBackend_lambdaClient b = Some client \/
     LambdaBackend_lambdaClient b = None /\
     exists cfg, LoadDefaultConfig = inr cfg /\ client = awsConfig_client cfg) /\
    fst (LambdaBackend_ensureClient (b, w)) = inr client /\
    Marshal payload = inr payloadBytes /\
    lambdaClient_Invoke client
      {| InvokeInput_FunctionName := LambdaBackend_functionName b;
         InvokeInput_Payload := payloadBytes |} = inr output /\
    World_invocations (snd (snd (LambdaBackend_call (R := R) payload (b, w))))
    = (World_invocations w
         ++ [{| InvokeInput_FunctionName := LambdaBackend_functionName b;
                InvokeInput_Payload := payloadBytes |}])%list /\
    World_requests (snd (snd (LambdaBackend_call (R := R) payload (b, w))))
    = World_requests w /\
    InvokeOutput_FunctionError output = None /\
    Unmarshal (InvokeOutput_Payload output) = inr errResp /\
    ErrorResponse_Error errResp <> "" /\
    ge = {| GovernorError_Code := ErrorResponse_Error errResp;
            GovernorError_Msg := ErrorResponse_Message errResp;
            GovernorError_AllowedModels := ErrorResponse_AllowedModels errResp;
            GovernorError_BudgetRemaining := ErrorResponse_BudgetRemaining errResp;
            GovernorError_RetryAfterSec := ErrorResponse_RetryAfterSec errResp |} /\
    GovernorError_Code ge <> "".
Proof.
  rewrite LambdaBackend_call_unfold, LambdaBackend_ensureClient_cases.
  assert (Hout : forall output (s : LambdaBackend) (w1 : World),
            fst (handleOutput (R := R) output (s, w1)) = inl (governorError ge) ->
            InvokeOutput_FunctionError output = None /\
            exists errResp, Unmarshal (InvokeOutput_Payload output) = inr errResp /\
                            ErrorResponse_Error errResp <> "" /\
                            ge = governorErrorOf errResp).
  { intros output s w1 Hge. rewrite handleOutput_cases in Hge. cbn in Hge.
    unfold Errorf_w, Errorf in Hge.
    destruct (InvokeOutput_FunctionError output); [discriminate |].
    destruct (Unmarshal (InvokeOutput_Payload output)) as [e | errResp] eqn:Henv.
    - destruct (@Unmarshal R _ (InvokeOutput_Payload output)); discriminate.
    - destruct (String.eqb_spec (ErrorResponse_Error errResp) "") as [Hempty | Hcode];
        cbv iota in Hge.
      + destruct (@Unmarshal R _ (InvokeOutput_Payload output)); discriminate.
      + injection Hge as <-. split; [reflexivity |]. eauto. }
  destruct (LambdaBackend_lambdaClient b) as [client |] eqn:Hclient.
  - destruct (Marshal payload) as [e | payloadBytes]; cbn; [discriminate |].
    destruct (lambdaClient_Invoke client _) as [e | output] eqn:Hinvoke; cbn;
      [discriminate |].
    intros Hge. destruct (Hout _ _ _ Hge) as (Hnone & errResp & Henv & Hcode & ->).
    exists client, payloadBytes, output, errResp.
    rewrite handleOutput_cases. cbn.
    split; [left; reflexivity |]. split; [reflexivity |]. split; [reflexivity |].
    split; [exact Hinvoke |]. split; [reflexivity |]. split; [reflexivity |].
    split; [exact Hnone |]. split; [exact Henv |]. split; [exact Hcode |].
    split; [reflexivity | exact Hcode].
  - destruct LoadDefaultConfig as [e | cfg] eqn:Hconfig; cbn; [discriminate |].
    destruct (Marshal payload) as [e | payloadBytes]; cbn; [discriminate |].
    destruct (lambdaClient_Invoke (awsConfig_client cfg) _) as [e | output] eqn:Hinvoke;
      cbn; [discriminate |].
    intros Hge. destruct (Hout _ _ _ Hge) as (Hnone & errResp & Henv & Hcode & ->).
    exists (awsConfig_client cfg), payloadBytes, output, errResp.
    rewrite handleOutput_cases. cbn.
    split; [right; split; [reflexivity | exists cfg; split; reflexivity] |].
    split; [reflexivity |]. split; [reflexivity |].
    split; [exact Hinvoke |]. split; [reflexivity |]. split; [reflexivity |].
    split; [exact Hnone |]. split; [exact Henv |]. split; [exact Hcode |].
    split; [reflexivity | exact Hcode].
Qed.


End LambdaTraffic.

Lemma LambdaBackend_call_GovernorError_witness :
  exists (client : lambdaClient) (payloadBytes : string) (output : InvokeOutput)
         (errResp : ErrorResponse),
    (Some sampleLambdaClient = Some client \/
     Some sampleLambdaClient = None /\
     exists cfg, @LoadDefaultConfig (sampleEnv noEnv) = inr cfg /\
                 client = awsConfig_client cfg) /\
    fst (@LambdaBackend_ensureClient (sampleEnv noEnv)
           (NewLambdaBackend "my-func" (Some sampleLambdaClient), emptyWorld))
    = inr client /\
    (inr "{}" : error + string) = inr payloadBytes /\
    lambdaClient_Invoke client
      {| InvokeInput_FunctionName := "my-func"; InvokeInput_Payload := payloadBytes |}
    = inr output /\
    World_invocations
      (snd (snd (@LambdaBackend_call InvokeRequest InvokeResponse (sampleEnv noEnv)
                   (fun _ => inr "{}") (fun _ => inr budgetExceeded)
                   (fun _ => inr (sampleResponse "answer"))
                   (helloRequest ModelHaiku45)
                   (NewLambdaBackend "my-func" (Some sampleLambdaClient), emptyWorld))))
    = ([] ++ [{| InvokeInput_FunctionName := "my-func";
                 InvokeInput_Payload := payloadBytes |}])%list /\
    World_requests
      (snd (snd (@LambdaBackend_call InvokeRequest InvokeResponse (sampleEnv noEnv)
                   (fun _ => inr "{}") (fun _ => inr budgetExceeded)
                   (fun _ => inr (sampleResponse "answer"))
                   (helloRequest ModelHaiku45)
                   (NewLambdaBackend "my-func" (Some sampleLambdaClient), emptyWorld))))
    = [] /\
    InvokeOutput_FunctionError output = None /\
    (inr budgetExceeded : error + ErrorResponse) = inr errResp /\
    ErrorResponse_Error errResp <> "" /\
    governorErrorOf budgetExceeded
    = {| GovernorError_Code := ErrorResponse_Error errResp;
         GovernorError_Msg := ErrorResponse_Message errResp;
         GovernorError_AllowedModels := ErrorResponse_AllowedModels errResp;
         GovernorError_BudgetRemaining := ErrorResponse_BudgetRemaining errResp;
         GovernorError_RetryAfterSec := ErrorResponse_RetryAfterSec errResp |} /\
    GovernorError_Code (governorErrorOf budgetExceeded) <> "".
Proof.
  apply (@LambdaBackend_call_GovernorError (sampleEnv noEnv) InvokeRequest InvokeResponse
           (fun _ => inr "{}") (fun _ => inr budgetExceeded)
           (fun _ => inr (sampleResponse "answer"))
           (helloRequest ModelHaiku45)
           (NewLambdaBackend "my-func" (Some sampleLambdaClient)) emptyWorld
           (governorErrorOf budgetExceeded) eq_refl).
Defined.


(** ** Further properties: the Anthropic backend *)

Section AnthropicErrors.
Context `{Env} `{Marshaler anthropicRequest}.
Context `{Unmarshaler anthropicResponse} `{Unmarshaler anthropicErrorResponse}.

(** The outcome of [Invoke], step by step. *)
Lemma AnthropicBackend_Invoke_unfold (b : AnthropicBackend) (req : InvokeRequest) (w : World) :
  AnthropicBackend_Invoke b req w =
  match Marshal (apiRequest req) with
  | inl err => (inl (Errorf_w "failed to marshal Anthropic request: %w" err), w)
  | inr body =>
      let sent := {| World_invocations := World_invocations w;
                     World_requests := (World_requests w ++ [newMessagesRequest b body])%list |} in
      match httpClient_Do (AnthropicBackend_httpClient b) (newMessagesRequest b body) with
      | inl err => (inl (Errorf_w "Anthropic API request failed: %w" err), sent)
      | inr resp =>
          match httpResponse_Body resp with
          | inl err => (inl (Errorf_w "failed to read response body: %w" err), sent)
          | inr respBody =>
              if (httpResponse_StatusCode resp =? StatusOK)%Z then
                match Unmarshal respBody with
                | inl err =>
                    (inl (Errorf_w "failed to unmarshal Anthropic response: %w" err), sent)
                | inr apiResp => (inr (responseOf apiResp), sent)
                end
              else
                match Unmarshal respBody with
                | inr errResp =>
                    if String.eqb (anthropicErrorResponse_Error_Message errResp) "" then
                      (inl (Errorf "Anthropic API returned status %d: %s"
                              [ArgD (httpResponse_StatusCode resp); ArgS respBody]), sent)
                    else
                      (inl (Errorf "Anthropic API error (%s): %s"
                              [ArgS (anthropicErrorResponse_Error_Type errResp);
                               ArgS (anthropicErrorResponse_Error_Message errResp)]), sent)
                | inl _ =>
                    (inl (Errorf "Anthropic API returned status %d: %s"
                            [ArgD (httpResponse_StatusCode resp); ArgS respBody]), sent)
                end
          end
      end
  end.
Proof.
  unfold AnthropicBackend_Invoke, bind.
  destruct (Marshal (apiRequest req)) as [err | body]; [reflexivity |]. cbn [wrapErr ret Do].
  destruct (httpClient_Do (AnthropicBackend_httpClient b) (newMessagesRequest b body))
    as [err | resp]; [reflexivity |]. cbn [wrapErr ret].
  destruct (httpResponse_Body resp) as [err | respBody]; [reflexivity |]. cbn [wrapErr ret].
  destruct (httpResponse_StatusCode resp =? StatusOK)%Z; cbn [negb].
  - destruct (@Unmarshal anthropicResponse _ respBody); reflexivity.
  - destruct (@Unmarshal anthropicErrorResponse _ respBody) as [err | errResp]; [reflexivity |].
    destruct (String.eqb (anthropicErrorResponse_Error_Message errResp) ""); reflexivity.
Qed.

(** X13. On a status other than 200 the backend returns no response: the
    error reads [Anthropic API error (type): message] when the body
    decodes to an error envelope with a message, and
    [Anthropic API returned status N: body] otherwise. *)
Theorem AnthropicBackend_Invoke_status_error
  (b : AnthropicBackend) (req : InvokeRequest) (w : World)
  (body : string) (resp : httpResponse) (respBody : string) :
  Marshal (apiRequest req) = inr body ->
  httpClient_Do (AnthropicBackend_httpClient b) (newMessagesRequest b body) = inr resp ->
  httpResponse_Body resp = inr respBody ->
  httpResponse_StatusCode resp <> StatusOK ->
  exists err,
    fst (AnthropicBackend_Invoke b req w) = inl err /\
    (forall errResp,
       Unmarshal respBody = inr errResp ->
       anthropicErrorResponse_Error_Message errResp <> "" ->
       error_Error err
       = "Anthropic API error (" ++ anthropicErrorResponse_Error_Type errResp ++ "): "
           ++ anthropicErrorResponse_Error_Message errResp) /\
    ((forall errResp,
        Unmarshal respBody = inr errResp ->
        anthropicErrorResponse_Error_Message errResp = "") ->
     error_Error err
     = "Anthropic API returned status " ++ itoa (httpResponse_StatusCode resp) ++ ": "
         ++ respBody).
Proof.
  intros Hbody Hdo Hread Hstatus.
  rewrite AnthropicBackend_Invoke_unfold, Hbody. cbv zeta. rewrite Hdo, Hread.
  apply Z.eqb_neq in Hstatus. rewrite Hstatus.
  assert (Hgeneric :
            error_Error (Errorf "Anthropic API returned status %d: %s"
                           [ArgD (httpResponse_StatusCode resp); ArgS respBody])
            = "Anthropic API returned status " ++ itoa (httpResponse_StatusCode resp) ++ ": "
                ++ respBody).
  { cbn. rewrite append_empty_r. reflexivity. }
  destruct (@Unmarshal anthropicErrorResponse _ respBody) as [e | errResp].
  - eexists. split; [reflexivity |]. split; [intros ? [=] | intros _; exact Hgeneric].
  - destruct (String.eqb_spec (anthropicErrorResponse_Error_Message errResp) "")
      as [Hempty | Hmessage].
    + eexists. split; [reflexivity |]. split; [| intros _; exact Hgeneric].
      intros ? [= <-] Hne. contradiction.
    + eexists. split; [reflexivity |]. split.
      * intros ? [= <-] _. cbn. rewrite append_empty_r. reflexivity.
      * intros Hall. destruct Hmessage. apply Hall. reflexivity.
Qed.

(** X14. Whatever happens, [Invoke] of the Anthropic backend never
    returns a [GovernorError], never uses the invocation channel, and
    sends at most one HTTP request: a POST to the messages URL with the
    backend's key in [x-api-key]; when the request does not encode,
    nothing is sent. *)
Theorem AnthropicBackend_Invoke_traffic
  (b : AnthropicBackend) (req : InvokeRequest) (w : World) :
  let result := fst (AnthropicBackend_Invoke b req w) in
  let w' := snd (AnthropicBackend_Invoke b req w) in
  (forall err, result = inl err -> IsGovernorError err = (None, false)) /\
  World_invocations w' = World_invocations w /\
  (World_requests w' = World_requests w \/
   exists httpReq,
     World_requests w' = (World_requests w ++ [httpReq])%list /\
     httpRequest_Method httpReq = "POST" /\
     httpRequest_URL httpReq = "https://api.anthropic.com/v1/messages" /\
     httpRequest_Header httpReq !! "x-api-key" = Some (AnthropicBackend_apiKey b) /\
     httpRequest_Header httpReq !! "anthropic-version" = Some "2023-06-01" /\
     httpRequest_Header httpReq !! "Content-Type" = Some "application/json" /\
     Marshal (apiRequest req) = inr (httpRequest_Body httpReq)) /\
  (forall err, Marshal (apiRequest req) = inl err -> w' = w).
Proof.
  intros result w'. subst result w'. rewrite AnthropicBackend_Invoke_unfold.
  assert (Hsent : forall body,
            Marshal (apiRequest req) = inr body ->
            exists httpReq,
              (World_requests w ++ [newMessagesRequest b body])%list
              = (World_requests w ++ [httpReq])%list /\
              httpRequest_Method httpReq = "POST" /\
              httpRequest_URL httpReq = "https://api.anthropic.com/v1/messages" /\
              httpRequest_Header httpReq !! "x-api-key" = Some (AnthropicBackend_apiKey b) /\
              httpRequest_Header httpReq !! "anthropic-version" = Some "2023-06-01" /\
              httpRequest_Header httpReq !! "Content-Type" = Some "application/json" /\
              Marshal (apiRequest req) = inr (httpRequest_Body httpReq)).
  { intros body Hbody. exists (newMessagesRequest b body).
    split; [reflexivity |]. split; [reflexivity |]. split; [reflexivity |].
    split; [| split; [| split; [| exact Hbody]]]; cbn [newMessagesRequest httpRequest_Header].
    - rewrite lookup_insert_ne by discriminate. apply lookup_insert_eq.
    - apply lookup_insert_eq.
    - rewrite !lookup_insert_ne by discriminate. apply lookup_insert_eq. }
  destruct (Marshal (apiRequest req)) as [e | body] eqn:Hbody.
  - cbn. repeat split; auto. intros err [= <-]. reflexivity.
  - specialize (Hsent body eq_refl). cbv zeta.
    destruct (httpClient_Do (AnthropicBackend_httpClient b) (newMessagesRequest b body))
      as [e | resp];
      [| destruct (httpResponse_Body resp) as [e | respBody];
         [| destruct (httpResponse_StatusCode resp =? StatusOK)%Z;
            [ destruct (@Unmarshal anthropicResponse _ respBody)
            | destruct (@Unmarshal anthropicErrorResponse _ respBody) as [e | errResp];
              [| destruct (String.eqb (anthropicErrorResponse_Error_Message errResp) "")]]]];
      cbn [fst snd World_invocations World_requests];
      (split; [intros err [= <-]; reflexivity || intros err [=] |]);
      (split; [reflexivity |]); (split; [right; exact Hsent |]); intros err [=].
Qed.

End AnthropicErrors.

Lemma AnthropicBackend_Invoke_status_error_witness :
  exists err,
    fst (@AnthropicBackend_Invoke (sampleEnv noEnv) (fun _ => inr "{}")
           (fun _ => inr sampleReply)
           (fun _ => inr {| anthropicErrorResponse_Error_Type := "overloaded_error";
                            anthropicErrorResponse_Error_Message := "Overloaded" |})
           {| AnthropicBackend_apiKey := "sk-ant-test";
              AnthropicBackend_httpClient :=
                {| httpClient_Do := fun _ =>
                     inr {| httpResponse_StatusCode := 529;
                            httpResponse_Body := inr "{}" |} |} |}
           (helloRequest ModelSonnet46) emptyWorld) = inl err /\
    error_Error err = "Anthropic API error (overloaded_error): Overloaded".
Proof.
  destruct (@AnthropicBackend_Invoke_status_error (sampleEnv noEnv) (fun _ => inr "{}")
              (fun _ => inr sampleReply)
              (fun _ => inr {| anthropicErrorResponse_Error_Type := "overloaded_error";
                               anthropicErrorResponse_Error_Message := "Overloaded" |})
              {| AnthropicBackend_apiKey := "sk-ant-test";
                 AnthropicBackend_httpClient :=
                   {| httpClient_Do := fun _ =>
                        inr {| httpResponse_StatusCode := 529;
                               httpResponse_Body := inr "{}" |} |} |}
              (helloRequest ModelSonnet46) emptyWorld
              "{}" {| httpResponse_StatusCode := 529; httpResponse_Body := inr "{}" |} "{}"
              eq_refl eq_refl eq_refl ltac:(discriminate))
    as (err & Herr & Henvelope & _).
  exists err. split; [exact Herr |].
  apply (Henvelope {| anthropicErrorResponse_Error_Type := "overloaded_error";
                      anthropicErrorResponse_Error_Message := "Overloaded" |});
    [reflexivity | discriminate].
Defined.

(** ** Further properties: the mock backend *)

Lemma invokeAll_cons_state (req : InvokeRequest) (reqs : list InvokeRequest) (b : MockBackend) :
  snd (invokeAll (req :: reqs) b) = snd (invokeAll reqs (snd (MockBackend_Invoke req b))).
Proof.
  cbn [invokeAll]. destruct (MockBackend_Invoke req b) as [r b']. cbn [fst snd].
  destruct (invokeAll reqs b') as [rs b'']. reflexivity.
Qed.

Lemma MockBackend_Invoke_state (req : InvokeRequest) (b : MockBackend) :
  snd (MockBackend_Invoke req b)
  = {| MockBackend_responses :=
         drop (Nat.min 1 (length (MockBackend_responses b) - 1)) (MockBackend_responses b);
       MockBackend_callLog := (MockBackend_callLog b ++ [req])%list |}.
Proof.
  unfold MockBackend_Invoke.
  destruct (MockBackend_responses b) as [| resp [| next rest]]; reflexivity.
Qed.

Lemma MockBackendPtr_Invoke_log (store : Store) (req : option loc) (b : MockBackendPtr) :
  CallsPtr (snd (MockBackendPtr_Invoke store req b)) = (CallsPtr b ++ [req])%list.
Proof.
  unfold MockBackendPtr_Invoke.
  destruct (MockBackendPtr_responses b) as [| resp [| next rest]]; [destruct req | |];
    reflexivity.
Qed.

Lemma invokeAllPtr_cons_state
  (store : Store) (req : option loc) (calls : list (Store * option loc)) (b : MockBackendPtr) :
  snd (invokeAllPtr ((store, req) :: calls) b)
  = snd (invokeAllPtr calls (snd (MockBackendPtr_Invoke store req b))).
Proof.
  cbn [invokeAllPtr]. destruct (MockBackendPtr_Invoke store req b) as [r b']. cbn [fst snd].
  destruct (invokeAllPtr calls b') as [rs b'']. reflexivity.
Qed.

(** X15. The call log holds the pointers the callers passed, not copies
    of the requests, and is append-only: after any sequence of calls it
    is the log before followed by the pointers in the order received (a
    nil pointer and a call that panics on it included), whatever
    responses are registered and whatever the requests hold; registering
    responses leaves it alone. Through the governor the pointer logged is
    the caller's own, and the request it points to has been rewritten in
    place: the action and the execution run id are filled in when they
    were empty, and no other request of the store is touched. *)
Theorem MockBackend_call_log (calls : list (Store * option loc)) (b : MockBackendPtr) :
  CallsPtr (snd (invokeAllPtr calls b)) = (CallsPtr b ++ map snd calls)%list /\
  (forall resp, CallsPtr (SetResponsePtr b resp) = CallsPtr b) /\
  (forall responses, CallsPtr (SetResponsesPtr b responses) = CallsPtr b) /\
  (forall (g : Governor) (req : loc) (store : Store),
     CallsPtr (fst (snd (Governor_InvokePtr g req store b))) = (CallsPtr b ++ [Some req])%list /\
     snd (snd (Governor_InvokePtr g req store b)) req
     = {| InvokeRequest_Action :=
            if String.eqb (InvokeRequest_Action (store req)) "" then "invoke"
            else InvokeRequest_Action (store req);
          InvokeRequest_Model := InvokeRequest_Model (store req);
          InvokeRequest_Messages := InvokeRequest_Messages (store req);
          InvokeRequest_System := InvokeRequest_System (store req);
          InvokeRequest_MaxTokens := InvokeRequest_MaxTokens (store req);
          InvokeRequest_Temperature := InvokeRequest_Temperature (store req);
          InvokeRequest_ExecutionRunID :=
            if String.eqb (InvokeRequest_ExecutionRunID (store req)) ""
            then Governor_executionRunID g
            else InvokeRequest_ExecutionRunID (store req);
          InvokeRequest_ExecutionBudgetUsd :=
            InvokeRequest_ExecutionBudgetUsd (store req) |} /\
     (forall l, l <> req -> snd (snd (Governor_InvokePtr g req store b)) l = store l)).
Proof.
  split; [| split; [reflexivity | split; [reflexivity |]]].
  - revert b. induction calls as [| [store req] calls IH]; intros b.
    + cbn. rewrite app_nil_r. reflexivity.
    + rewrite invokeAllPtr_cons_state, IH, MockBackendPtr_Invoke_log.
      cbn [map snd]. rewrite <- app_assoc. reflexivity.
  - intros g req store. unfold Governor_InvokePtr.
    pose proof (MockBackendPtr_Invoke_log
                  (storeAt store req (withDefaults g (store req))) (Some req) b) as Hlog.
    destruct (MockBackendPtr_Invoke _ (Some req) b) as [r b']. cbn [fst snd] in *.
    split; [exact Hlog |]. unfold storeAt. split.
    + rewrite Nat.eqb_refl. reflexivity.
    + intros l Hl. apply Nat.eqb_neq in Hl. rewrite Hl. reflexivity.
Qed.

(** X16. The registered responses are used up from the front but never
    run out: after [k] calls the queue is the registered sequence without
    its first [min k (n - 1)] entries, so a non-empty queue stays
    non-empty and an empty one stays empty. *)
Theorem MockBackend_queue_after_calls (reqs : list InvokeRequest) (b : MockBackend) :
  MockBackend_responses (snd (invokeAll reqs b))
  = drop (Nat.min (length reqs) (length (MockBackend_responses b) - 1))
         (MockBackend_responses b) /\
  (MockBackend_responses b <> [] -> MockBackend_responses (snd (invokeAll reqs b)) <> []) /\
  (MockBackend_responses b = [] -> MockBackend_responses (snd (invokeAll reqs b)) = []).
Proof.
  assert (Hqueue : forall reqs b,
            MockBackend_responses (snd (invokeAll reqs b))
            = drop (Nat.min (length reqs) (length (MockBackend_responses b) - 1))
                   (MockBackend_responses b)).
  { clear. induction reqs as [| req reqs IH]; intros b; [reflexivity |].
    rewrite invokeAll_cons_state, IH, MockBackend_Invoke_state.
    cbn [MockBackend_responses]. rewrite drop_drop, length_drop. f_equal.
    cbn [length]. lia. }
  split; [apply Hqueue |]. split.
  - intros Hsome. rewrite Hqueue. intros Hnil.
    apply (f_equal length) in Hnil. rewrite length_drop in Hnil. cbn in Hnil.
    destruct (MockBackend_responses b); [congruence | cbn in Hnil; lia].
  - intros Hnone. rewrite Hqueue, Hnone. apply drop_nil.
Qed.

Lemma MockBackend_queue_after_calls_witness :
  MockBackend_responses
    (snd (invokeAll [helloRequest "a"; helloRequest "b"; helloRequest "c"]
            (SetResponses NewMockBackend [sampleResponse "first"; sampleResponse "second"])))
  <> [].
Proof.
  apply (proj1 (proj2 (MockBackend_queue_after_calls
                         [helloRequest "a"; helloRequest "b"; helloRequest "c"]
                         (SetResponses NewMockBackend
                            [sampleResponse "first"; sampleResponse "second"])))).
  discriminate.
Defined.

(** X17. With a response registered, what [Invoke] returns and the queue
    it leaves do not depend on the request: a canned response is returned
    even for a request without messages, and its model is the registered
    one, not the requested one. *)
Theorem MockBackend_canned_ignores_request (b : MockBackend) (req1 req2 : InvokeRequest) :
  MockBackend_responses b <> [] ->
  fst (MockBackend_Invoke req1 b) = fst (MockBackend_Invoke req2 b) /\
  MockBackend_responses (snd (MockBackend_Invoke req1 b))
  = MockBackend_responses (snd (MockBackend_Invoke req2 b)) /\
  exists resp,
    head (MockBackend_responses b) = Some resp /\
    fst (MockBackend_Invoke req1 b) = inr resp.
Proof.
  intros Hsome. unfold MockBackend_Invoke.
  destruct (MockBackend_responses b) as [| resp [| next rest]]; [congruence | |];
    (split; [reflexivity |]); (split; [reflexivity |]); exists resp; split; reflexivity.
Qed.

Lemma MockBackend_canned_ignores_request_witness :
  fst (MockBackend_Invoke (helloRequest ModelHaiku45)
         (SetResponse NewMockBackend (sampleResponse "canned response")))
  = fst (MockBackend_Invoke (newRequest ModelSonnet46 "" [])
           (SetResponse NewMockBackend (sampleResponse "canned response"))).
Proof.
  apply (proj1 (MockBackend_canned_ignores_request
                  (SetResponse NewMockBackend (sampleResponse "canned response"))
                  (helloRequest ModelHaiku45) (newRequest ModelSonnet46 "" [])
                  ltac:(discriminate))).
Defined.

(** ** Further properties: the governor with backends *)

Lemma firstText_single (prompt : string) (rest : list ContentBlock) :
  Forall (fun c => ~ echoable c) rest ->
  firstText (TextBlock prompt :: rest) = prompt.
Proof.
  intros Hrest. cbn. destruct (String.eqb_spec prompt "") as [-> | _]; cbn; [| reflexivity].
  apply firstText_none, Hrest.
Qed.

Lemma FileBlock_not_echoable (path : string) : ~ echoable (FileBlock path).
Proof. intros [Htype _]. discriminate Htype. Qed.

Lemma Text_single (text : string) model usage budget stop :
  Text {| InvokeResponse_Content :=
            [{| ResponseContent_Type := "text"; ResponseContent_Text := text |}];
          InvokeResponse_Model := model; InvokeResponse_Usage := usage;
          InvokeResponse_BudgetRemaining := budget; InvokeResponse_StopReason := stop |}
  = text.
Proof. reflexivity. Qed.

Section Facade.
Context `{Env} `{Codecs}.

(** [Invoke] of a governor whose backend is a mock. *)
Lemma Governor_Invoke_mock (g : Governor) (mock : MockBackend) (req : InvokeRequest) (w : World) :
  Governor_backend g = MockB mock ->
  Governor_Invoke req (g, w)
  = (fst (MockBackend_Invoke (withDefaults g req) mock),
     (setBackend g (MockB (snd (MockBackend_Invoke (withDefaults g req) mock))), w)).
Proof.
  intros Hmock. unfold Governor_Invoke, onBackend, Backend_Invoke. rewrite Hmock.
  destruct (MockBackend_Invoke (withDefaults g req) mock) as [r mock']. reflexivity.
Qed.

(** X18. On a governor whose backend is a mock without registered
    responses, [Ask], [AskWithSystem] and [AskAboutFile] return [[mock] ]
    followed by the prompt (the system prompt and the file are not
    echoed) and touch no transport. Each of the three leaves the governor
    as it was but for the mock's log, which gains one request: the one
    the convenience built (the model, one user message with the prompt as
    a text block, followed for [AskAboutFile] by the [efs_document] block
    of the file; the system prompt for [AskWithSystem]), with the action
    [invoke] and the governor's execution run id filled in by [Invoke]. *)
Theorem Governor_Ask_mock_echo
  (g : Governor) (mock : MockBackend) (w : World) (model prompt : string) :
  Governor_backend g = MockB mock ->
  MockBackend_responses mock = [] ->
  fst (Ask model prompt (g, w)) = inr ("[mock] " ++ prompt) /\
  (forall system, fst (AskWithSystem model system prompt (g, w)) = inr ("[mock] " ++ prompt)) /\
  (forall filePath,
     fst (AskAboutFile model prompt filePath (g, w)) = inr ("[mock] " ++ prompt)) /\
  snd (Ask model prompt (g, w))
  = (setBackend g
       (MockB {| MockBackend_responses := [];
                 MockBackend_callLog :=
                   (MockBackend_callLog mock
                      ++ [{| InvokeRequest_Action := "invoke";
                             InvokeRequest_Model := model;
                             InvokeRequest_Messages := [UserMessage [TextBlock prompt]];
                             InvokeRequest_System := "";
                             InvokeRequest_MaxTokens := 0;
                             InvokeRequest_Temperature := zeroFloat;
                             InvokeRequest_ExecutionRunID := Governor_executionRunID g;
                             InvokeRequest_ExecutionBudgetUsd := zeroFloat |}])%list |}),
     w) /\
  (forall system,
     snd (AskWithSystem model system prompt (g, w))
     = (setBackend g
          (MockB {| MockBackend_responses := [];
                    MockBackend_callLog :=
                      (MockBackend_callLog mock
                         ++ [{| InvokeRequest_Action := "invoke";
                                InvokeRequest_Model := model;
                                InvokeRequest_Messages := [UserMessage [TextBlock prompt]];
                                InvokeRequest_System := system;
                                InvokeRequest_MaxTokens := 0;
                                InvokeRequest_Temperature := zeroFloat;
                                InvokeRequest_ExecutionRunID := Governor_executionRunID g;
                                InvokeRequest_ExecutionBudgetUsd := zeroFloat |}])%list |}),
        w)) /\
  (forall filePath,
     snd (AskAboutFile model prompt filePath (g, w))
     = (setBackend g
          (MockB {| MockBackend_responses := [];
                    MockBackend_callLog :=
                      (MockBackend_callLog mock
                         ++ [{| InvokeRequest_Action := "invoke";
                                InvokeRequest_Model := model;
                                InvokeRequest_Messages :=
                                  [{| Message_Role := "user";
                                      Message_Content :=
                                        [{| ContentBlock_Type := "text";
                                            ContentBlock_Text := prompt;
                                            ContentBlock_Path := "";
                                            ContentBlock_Format := "";
                                            ContentBlock_Data := "";
                                            ContentBlock_MediaType := "";
                                            ContentBlock_Name := "" |};
                                         {| ContentBlock_Type := "efs_document";
                                            ContentBlock_Text := "";
                                            ContentBlock_Path := filePath;
                                            ContentBlock_Format := "";
                                            ContentBlock_Data := "";
                                            ContentBlock_MediaType := "";
                                            ContentBlock_Name := "" |}] |}];
                                InvokeRequest_System := "";
                                InvokeRequest_MaxTokens := 0;
                                InvokeRequest_Temperature := zeroFloat;
                                InvokeRequest_ExecutionRunID := Governor_executionRunID g;
                                InvokeRequest_ExecutionBudgetUsd := zeroFloat |}])%list |}),
        w)).
Proof.
  intros Hmock Hnone.
  assert (Hecho : forall system rest,
            Forall (fun c => ~ echoable c) rest ->
            Governor_Invoke (newRequest model system [UserMessage (TextBlock prompt :: rest)])
                            (g, w)
            = (inr {| InvokeResponse_Content :=
                        [{| ResponseContent_Type := "text";
                            ResponseContent_Text := "[mock] " ++ prompt |}];
                      InvokeResponse_Model := model;
                      InvokeResponse_Usage := zeroUsageInfo;
                      InvokeResponse_BudgetRemaining := zeroBudgetInfo;
                      InvokeResponse_StopReason := "end_turn" |},
               (setBackend g
                  (MockB {| MockBackend_responses := [];
                            MockBackend_callLog :=
                              (MockBackend_callLog mock
                                 ++ [withDefaults g
                                       (newRequest model system
                                          [UserMessage (TextBlock prompt :: rest)])])%list |}),
                w))).
  { intros system rest Hrest.
    rewrite (Governor_Invoke_mock g mock _ w Hmock).
    rewrite (MockBackend_Invoke_echo _ mock Hnone). cbn [fst snd].
    cbn [withDefaults newRequest InvokeRequest_Messages InvokeRequest_Model length
         lastUserPrompt lookup list_lookup UserMessage Message_Role Message_Content].
    change (String.eqb "user" "user") with true. cbv iota.
    rewrite (firstText_single prompt rest Hrest). reflexivity. }
  unfold Ask, AskWithSystem, AskAboutFile, bind.
  split; [| split; [| split; [| split; [| split]]]].
  - rewrite (Hecho "" [] ltac:(constructor)). reflexivity.
  - intros system. rewrite (Hecho system [] ltac:(constructor)). reflexivity.
  - intros filePath.
    rewrite (Hecho "" [FileBlock filePath]
               ltac:(repeat constructor; apply FileBlock_not_echoable)).
    reflexivity.
  - rewrite (Hecho "" [] ltac:(constructor)). reflexivity.
  - intros system. rewrite (Hecho system [] ltac:(constructor)). reflexivity.
  - intros filePath.
    rewrite (Hecho "" [FileBlock filePath]
               ltac:(repeat constructor; apply FileBlock_not_echoable)).
    reflexivity.
Qed.



End Facade.

Lemma Governor_Ask_mock_echo_witness :
  fst (@Ask (sampleEnv noEnv) (sampleCodecs notAnError) ModelHaiku45 "Hello"
         (@NewGovernor (sampleEnv noEnv) [], emptyWorld))
  = inr "[mock] Hello".
Proof.
  apply (proj1 (@Governor_Ask_mock_echo (sampleEnv noEnv) (sampleCodecs notAnError)
                  (@NewGovernor (sampleEnv noEnv) []) NewMockBackend emptyWorld
                  ModelHaiku45 "Hello" eq_refl eq_refl)).
Defined.

Section Construction.
Context `{Env}.

(** X20. [NewGovernor] never leaves the backend nil and selects the
    backend without touching the configuration: the function name, the
    execution run id and the client are those of the environment as
    overridden by the options, the last option of a kind winning. *)
Theorem NewGovernor_configuration (opts : list GovernorOption) :
  let g := NewGovernor opts in
  Governor_backend g <> nilBackend /\
  Governor_functionName g = Governor_functionName (configured opts) /\
  Governor_executionRunID g = Governor_executionRunID (configured opts) /\
  Governor_lambdaClient g = Governor_lambdaClient (configured opts) /\
  (opts = [] ->
   Governor_functionName g = Getenv "LLM_GOVERNOR_FUNCTION" /\
   Governor_executionRunID g = Getenv "EXECUTION_RUN_ID") /\
  (forall before id, opts = (before ++ [WithExecutionRunID id])%list ->
                     Governor_executionRunID g = id) /\
  (forall before name, opts = (before ++ [WithFunctionName name])%list ->
                       Governor_functionName g = name).
Proof.
  intros g.
  assert (Hfields : Governor_functionName g = Governor_functionName (configured opts) /\
                    Governor_executionRunID g = Governor_executionRunID (configured opts) /\
                    Governor_lambdaClient g = Governor_lambdaClient (configured opts)).
  { subst g. unfold NewGovernor. destruct (Governor_backend (configured opts));
      try (repeat split; reflexivity).
    destruct (negb (String.eqb (Governor_functionName (configured opts)) ""));
      [repeat split; reflexivity |].
    destruct (negb (String.eqb (Getenv "ANTHROPIC_API_KEY") "")); repeat split; reflexivity. }
  destruct Hfields as (Hname & Hid & Hclient).
  split; [| split; [exact Hname | split; [exact Hid | split; [exact Hclient |]]]].
  - subst g. unfold NewGovernor.
    destruct (Governor_backend (configured opts)) eqn:Hbackend;
      try (rewrite Hbackend; discriminate).
    destruct (negb (String.eqb (Governor_functionName (configured opts)) ""));
      [discriminate |].
    destruct (negb (String.eqb (Getenv "ANTHROPIC_API_KEY") "")); discriminate.
  - split; [| split].
    + intros ->. rewrite Hname, Hid. split; reflexivity.
    + intros before id ->. rewrite Hid. unfold configured.
      rewrite fold_left_app. reflexivity.
    + intros before name ->. rewrite Hname. unfold configured.
      rewrite fold_left_app. reflexivity.
Qed.

End Construction.

Lemma NewGovernor_configuration_witness :
  Governor_functionName
    (@NewGovernor (sampleEnv (setenv "LLM_GOVERNOR_FUNCTION" "my-governor"))
       [WithFunctionName "custom-func"; WithExecutionRunID "custom-run"]) = "custom-func" /\
  Governor_executionRunID
    (@NewGovernor (sampleEnv (setenv "LLM_GOVERNOR_FUNCTION" "my-governor"))
       [WithFunctionName "custom-func"; WithExecutionRunID "custom-run"]) = "custom-run".
Proof.
  pose proof (@NewGovernor_configuration
                (sampleEnv (setenv "LLM_GOVERNOR_FUNCTION" "my-governor"))
                [WithFunctionName "custom-func"; WithExecutionRunID "custom-run"])
    as (_ & Hname & _ & _ & _ & Hid & _).
  split.
  - rewrite Hname. reflexivity.
  - apply (Hid [WithFunctionName "custom-func"] "custom-run"). reflexivity.
Defined.

Section LocalBackends.
Context `{Env} `{Codecs}.

Lemma setBackend_same (g : Governor) : setBackend g (Governor_backend g) = g.
Proof. destruct g. reflexivity. Qed.

(** X21. With the mock or the Anthropic backend, [CheckBudget] and
    [ListModels] of the governor answer locally: they never fail, send
    nothing, leave the governor as it is, and [ListModels] returns the
    four models of the catalog, all [available]. *)
Theorem Governor_local_backends (g : Governor) (w : World) :
  (exists mock, Governor_backend g = MockB mock) \/
  (exists b, Governor_backend g = AnthropicB b) ->
  Governor_ListModels (g, w) = (inr {| ListModelsResponse_Models := allModels |}, (g, w)) /\
  (exists budget, Governor_CheckBudget (g, w) = (inr budget, (g, w))) /\
  map ModelInfo_ModelID allModels = [ModelHaiku45; ModelSonnet45; ModelSonnet46; ModelSonnet4] /\
  Forall (fun m => ModelInfo_Status m = "available") allModels.
Proof.
  intros Hlocal.
  unfold Governor_ListModels, Governor_CheckBudget, onBackend,
    Backend_ListModels, Backend_CheckBudget.
  split; [| split; [| split; [reflexivity | repeat constructor]]].
  - destruct Hlocal as [[mock Hb] | [b Hb]]; rewrite Hb; cbn;
      rewrite <- Hb, setBackend_same; reflexivity.
  - destruct Hlocal as [[mock Hb] | [b Hb]]; rewrite Hb; cbn;
      rewrite <- Hb, setBackend_same; eauto.
Qed.

(** X22. With the Lambda backend, [CheckBudget] of the governor sends the
    map with [action] [check-budget] and the governor's own execution run
    id, and [ListModels] the map with [action] [list-models], each as one
    input under the backend's function name. *)
Theorem Governor_Lambda_payloads
  (g : Governor) (b : LambdaBackend) (client : lambdaClient) (w : World) :
  Governor_backend g = LambdaB b ->
  LambdaBackend_lambdaClient b = Some client ->
  (forall payloadBytes,
     Marshal (<["action" := VString "check-budget"]>
              (<["executionRunId" := VString (Governor_executionRunID g)]>
                 (∅ : gmap string Value))) = inr payloadBytes ->
     World_invocations (snd (snd (Governor_CheckBudget (g, w))))
     = (World_invocations w
          ++ [{| InvokeInput_FunctionName := LambdaBackend_functionName b;
                 InvokeInput_Payload := payloadBytes |}])%list) /\
  (forall payloadBytes,
     Marshal (<["action" := VString "list-models"]> (∅ : gmap string Value))
       = inr payloadBytes ->
     World_invocations (snd (snd (Governor_ListModels (g, w))))
     = (World_invocations w
          ++ [{| InvokeInput_FunctionName := LambdaBackend_functionName b;
                 InvokeInput_Payload := payloadBytes |}])%list).
Proof.
  intros Hb Hclient. split; intros payloadBytes Hpayload.
  - unfold Governor_CheckBudget, onBackend, Backend_CheckBudget. rewrite Hb.
    unfold LambdaBackend_CheckBudget. rewrite LambdaBackend_call_unfold.
    rewrite LambdaBackend_ensureClient_cases, Hclient, Hpayload. cbn.
    destruct (lambdaClient_Invoke client _) as [e | output]; cbn; [reflexivity |].
    rewrite handleOutput_cases. reflexivity.
  - unfold Governor_ListModels, onBackend, Backend_ListModels. rewrite Hb.
    unfold LambdaBackend_ListModels. rewrite LambdaBackend_call_unfold.
    rewrite LambdaBackend_ensureClient_cases, Hclient, Hpayload. cbn.
    destruct (lambdaClient_Invoke client _) as [e | output]; cbn; [reflexivity |].
    rewrite handleOutput_cases. reflexivity.
Qed.

End LocalBackends.

Lemma Governor_local_backends_witness :
  @Governor_ListModels (sampleEnv noEnv) (sampleCodecs notAnError)
    (@NewGovernor (sampleEnv noEnv) [], emptyWorld)
  = (inr {| ListModelsResponse_Models := allModels |},
     (@NewGovernor (sampleEnv noEnv) [], emptyWorld)).
Proof.
  apply (proj1 (@Governor_local_backends (sampleEnv noEnv) (sampleCodecs notAnError)
                  (@NewGovernor (sampleEnv noEnv) []) emptyWorld
                  (or_introl (ex_intro _ NewMockBackend eq_refl)))).
Defined.

Lemma Governor_Lambda_payloads_witness :
  World_invocations
    (snd (snd (@Governor_CheckBudget functionOnly showCodecs
                 (@NewGovernor functionOnly
                    [WithLambdaClient (Some sampleLambdaClient); WithExecutionRunID "run-1"],
                  emptyWorld))))
  = [{| InvokeInput_FunctionName := "my-func"; InvokeInput_Payload := "{}" |}].
Proof.
  apply (proj1 (@Governor_Lambda_payloads functionOnly showCodecs
                  (@NewGovernor functionOnly
                     [WithLambdaClient (Some sampleLambdaClient); WithExecutionRunID "run-1"])
                  (NewLambdaBackend "my-func" (Some sampleLambdaClient))
                  sampleLambdaClient emptyWorld eq_refl eq_refl) "{}").
  reflexivity.
Defined.

(** ** Further properties: the governor of src/llm/governor.go *)

Section LambdaOnly.
Context `{Env} `{Codecs}.

Lemma LambdaGovernor_invoke_unavailable {P R : Type}
  `{Marshaler P} `{Unmarshaler R}
  (payload : P) (g : LambdaGovernor.Governor) (w : World) :
  LambdaGovernor.Available g = false ->
  LambdaGovernor.invoke (R := R) payload (g, w) = (inl notAvailable, (g, w)).
Proof.
  intros Hno. unfold LambdaGovernor.invoke, bind, gets. cbn [fst]. rewrite Hno. reflexivity.
Qed.

(** X23. Without a function name the governor is not available, and then
    [CheckBudget], [ListModels] and an [Invoke] that carries an execution
    run id all return the "not available" error without loading an AWS
    configuration and without sending anything. *)
Theorem LambdaGovernor_unavailable (g : LambdaGovernor.Governor) (w : World) :
  LambdaGovernor.Governor_functionName g = "" ->
  LambdaGovernor.Available g = false /\
  LambdaGovernor.CheckBudget (g, w) = (inl notAvailable, (g, w)) /\
  LambdaGovernor.ListModels (g, w) = (inl notAvailable, (g, w)) /\
  (forall req,
     InvokeRequest_ExecutionRunID (LambdaGovernor.withDefaults g req) <> "" ->
     LambdaGovernor.Invoke req (g, w) = (inl notAvailable, (g, w))).
Proof.
  intros Hname.
  assert (Hno : LambdaGovernor.Available g = false).
  { unfold LambdaGovernor.Available. rewrite Hname. reflexivity. }
  split; [exact Hno |]. split; [| split].
  - unfold LambdaGovernor.CheckBudget. apply LambdaGovernor_invoke_unavailable, Hno.
  - unfold LambdaGovernor.ListModels. apply LambdaGovernor_invoke_unavailable, Hno.
  - intros req Hid. unfold LambdaGovernor.Invoke.
    apply String.eqb_neq in Hid. rewrite Hid.
    apply LambdaGovernor_invoke_unavailable, Hno.
Qed.

(** X24. The three conveniences build a request without an execution run
    id, so on a governor that has none configured [Ask], [AskWithSystem]
    and [AskAboutFile] return the "executionRunId is required" error and
    send nothing, whether or not a function name is set. *)
Theorem LambdaGovernor_Ask_requires_executionRunID
  (g : LambdaGovernor.Governor) (w : World) (model prompt : string) :
  LambdaGovernor.Governor_executionRunID g = "" ->
  LambdaGovernor.Ask model prompt (g, w) = (inl runIdRequired, (g, w)) /\
  (forall system,
     LambdaGovernor.AskWithSystem model system prompt (g, w)
     = (inl runIdRequired, (g, w))) /\
  (forall filePath,
     LambdaGovernor.AskAboutFile model prompt filePath (g, w)
     = (inl runIdRequired, (g, w))).
Proof.
  intros Hid.
  unfold LambdaGovernor.Ask, LambdaGovernor.AskWithSystem, LambdaGovernor.AskAboutFile, bind.
  split; [| split]; intros;
    rewrite LambdaGovernor_Invoke_requires_executionRunID by (exact Hid || reflexivity);
    reflexivity.
Qed.

(** The outcome of [invoke], step by step. *)
Lemma LambdaGovernor_invoke_unfold {P R : Type} `{Marshaler P} `{Unmarshaler R}
  (payload : P) (g : LambdaGovernor.Governor) (w : World) :
  LambdaGovernor.invoke (R := R) payload (g, w) =
  if LambdaGovernor.Available g then
    match LambdaGovernor.ensureClient (g, w) with
    | (inl err, s) => (inl err, s)
    | (inr client, (g', w')) =>
        match Marshal payload with
        | inl err => (inl (Errorf_w "failed to marshal request: %w" err), (g', w'))
        | inr payloadBytes =>
            let input := {| InvokeInput_FunctionName := LambdaGovernor.Governor_functionName g';
                            InvokeInput_Payload := payloadBytes |} in
            let sent := {| World_invocations := (World_invocations w' ++ [input])%list;
                           World_requests := World_requests w' |} in
            match lambdaClient_Invoke client input with
            | inl err => (inl (Errorf_w "failed to invoke governor: %w" err), (g', sent))
            | inr output => handleOutput output (g', sent)
            end
        end
    end
  else (inl notAvailable, (g, w)).
Proof.
  unfold LambdaGovernor.invoke, bind, gets. cbn [fst].
  destruct (LambdaGovernor.Available g); cbn [negb]; [| reflexivity].
  destruct (LambdaGovernor.ensureClient (g, w)) as [[err | client] [g' w']]; [reflexivity |].
  destruct (Marshal payload) as [err | payloadBytes]; [reflexivity |].
  cbn. destruct (lambdaClient_Invoke client _); reflexivity.
Qed.

Lemma LambdaGovernor_ensureClient_cases (g : LambdaGovernor.Governor) (w : World) :
  LambdaGovernor.ensureClient (g, w) =
  match LambdaGovernor.Governor_lambdaClient g, LoadDefaultConfig with
  | Some client, _ => (inr client, (g, w))
  | None, inl err => (inl (Errorf_w "failed to load AWS config: %w" err), (g, w))
  | None, inr cfg =>
      (inr (awsConfig_client cfg),
       (LambdaGovernor.WithLambdaClient (Some (awsConfig_client cfg)) g, w))
  end.
Proof.
  unfold LambdaGovernor.ensureClient.
  destruct (LambdaGovernor.Governor_lambdaClient g); [reflexivity |].
  destruct LoadDefaultConfig; reflexivity.
Qed.

(** X25. For a request that has an execution run id after the
    defaulting, the governor with a Lambda backend and the governor of
    src/llm/governor.go with the same function name, run id and client
    return the same result and send the same input. *)
Theorem Governor_Lambda_agrees_with_LambdaGovernor
  (functionName executionRunID : string) (client : option lambdaClient)
  (req : InvokeRequest) (w : World) :
  let g := {| Governor_functionName := functionName;
              Governor_executionRunID := executionRunID;
              Governor_lambdaClient := client;
              Governor_backend := LambdaB (NewLambdaBackend functionName client) |} in
  let g0 := {| LambdaGovernor.Governor_functionName := functionName;
               LambdaGovernor.Governor_executionRunID := executionRunID;
               LambdaGovernor.Governor_lambdaClient := client |} in
  functionName <> "" ->
  InvokeRequest_ExecutionRunID (withDefaults g req) <> "" ->
  fst (Governor_Invoke req (g, w)) = fst (LambdaGovernor.Invoke req (g0, w)) /\
  snd (snd (Governor_Invoke req (g, w))) = snd (snd (LambdaGovernor.Invoke req (g0, w))).
Proof.
  intros g g0 Hname Hid.
  unfold Governor_Invoke, onBackend, Backend_Invoke. cbn [Governor_backend g].
  unfold LambdaBackend_Invoke. rewrite LambdaBackend_call_unfold.
  rewrite LambdaBackend_ensureClient_cases.
  unfold LambdaGovernor.Invoke.
  change (LambdaGovernor.withDefaults g0 req) with (withDefaults g req).
  apply String.eqb_neq in Hid. rewrite Hid.
  rewrite LambdaGovernor_invoke_unfold, LambdaGovernor_ensureClient_cases.
  unfold LambdaGovernor.Available.
  cbn [LambdaGovernor.Governor_functionName LambdaGovernor.Governor_lambdaClient g0
       NewLambdaBackend LambdaBackend_lambdaClient LambdaBackend_functionName].
  apply String.eqb_neq in Hname. rewrite Hname. cbn [negb].
  destruct client as [c |]; [| destruct LoadDefaultConfig as [e | cfg]]; cbn;
    try (split; reflexivity);
    (destruct (Marshal (withDefaults g req)) as [e' | payloadBytes]; cbn;
     [split; reflexivity |]);
    match goal with
    | |- context [lambdaClient_Invoke ?c ?i] =>
        destruct (lambdaClient_Invoke c i) as [e'' | output]
    end; cbn; rewrite ?handleOutput_cases; split; reflexivity.
Qed.

End LambdaOnly.

Lemma LambdaGovernor_unavailable_witness :
  LambdaGovernor.Available (@LambdaGovernor.NewGovernor (sampleEnv noEnv) []) = false /\
  @LambdaGovernor.ListModels (sampleEnv noEnv) (fun _ => inr "{}")
     (fun _ => inr notAnError) (fun _ => inr {| ListModelsResponse_Models := allModels |})
     (@LambdaGovernor.NewGovernor (sampleEnv noEnv) [], emptyWorld)
  = (inl notAvailable, (@LambdaGovernor.NewGovernor (sampleEnv noEnv) [], emptyWorld)).
Proof.
  pose proof (@LambdaGovernor_unavailable (sampleEnv noEnv) (sampleCodecs notAnError)
                (@LambdaGovernor.NewGovernor (sampleEnv noEnv) []) emptyWorld eq_refl)
    as (Hno & _ & Hlist & _).
  split; [exact Hno | exact Hlist].
Defined.

Lemma LambdaGovernor_Ask_requires_executionRunID_witness :
  @LambdaGovernor.Ask functionOnly showRequest (fun _ => inr notAnError)
     (fun _ => inr (sampleResponse "answer")) ModelHaiku45 "What is mitosis?"
     (@LambdaGovernor.NewGovernor functionOnly
        [LambdaGovernor.WithLambdaClient (Some sampleLambdaClient)], emptyWorld)
  = (inl runIdRequired,
     (@LambdaGovernor.NewGovernor functionOnly
        [LambdaGovernor.WithLambdaClient (Some sampleLambdaClient)], emptyWorld)).
Proof.
  apply (proj1 (@LambdaGovernor_Ask_requires_executionRunID functionOnly showCodecs
                  (@LambdaGovernor.NewGovernor functionOnly
                     [LambdaGovernor.WithLambdaClient (Some sampleLambdaClient)])
                  emptyWorld ModelHaiku45 "What is mitosis?" eq_refl)).
Defined.

Lemma Governor_Lambda_agrees_with_LambdaGovernor_witness :
  fst (@Governor_Invoke functionOnly showCodecs (helloRequest ModelHaiku45)
         ({| Governor_functionName := "my-func";
             Governor_executionRunID := "run-1";
             Governor_lambdaClient := Some sampleLambdaClient;
             Governor_backend :=
               LambdaB (NewLambdaBackend "my-func" (Some sampleLambdaClient)) |},
          emptyWorld))
  = fst (@LambdaGovernor.Invoke functionOnly showRequest (fun _ => inr notAnError)
           (fun _ => inr (sampleResponse "answer")) (helloRequest ModelHaiku45)
           ({| LambdaGovernor.Governor_functionName := "my-func";
               LambdaGovernor.Governor_executionRunID := "run-1";
               LambdaGovernor.Governor_lambdaClient := Some sampleLambdaClient |},
            emptyWorld)).
Proof.
  apply (proj1 (@Governor_Lambda_agrees_with_LambdaGovernor functionOnly showCodecs
                  "my-func" "run-1" (Some sampleLambdaClient)
                  (helloRequest ModelHaiku45) emptyWorld
                  ltac:(discriminate) ltac:(discriminate))).
Defined.

Section FacadeAnthropic.
Context `{Env} `{Codecs}.

(** X26. The request built for the provider does not depend on the
    action or the execution run id, so a governor whose backend is the
    Anthropic backend returns what that backend returns for the request
    as given and sends the same HTTP request; the governor itself is
    unchanged. *)
Theorem Governor_Invoke_Anthropic
  (g : Governor) (b : AnthropicBackend) (req : InvokeRequest) (w : World) :
  Governor_backend g = AnthropicB b ->
  apiRequest (withDefaults g req) = apiRequest req /\
  Governor_Invoke req (g, w)
  = (fst (AnthropicBackend_Invoke b req w), (g, snd (AnthropicBackend_Invoke b req w))).
Proof.
  intros Hb.
  assert (Hsame : AnthropicBackend_Invoke b (withDefaults g req) w
                  = AnthropicBackend_Invoke b req w) by reflexivity.
  split; [reflexivity |].
  unfold Governor_Invoke, onBackend, Backend_Invoke. rewrite Hb, Hsame.
  destruct (AnthropicBackend_Invoke b req w) as [r w']. cbn [fst snd].
  rewrite <- Hb, setBackend_same. reflexivity.
Qed.

End FacadeAnthropic.

Lemma Governor_Invoke_Anthropic_witness :
  fst (@Governor_Invoke (sampleEnv (setenv "ANTHROPIC_API_KEY" "sk-ant-test"))
         (sampleCodecs notAnError) (helloRequest ModelSonnet46)
         (@NewGovernor (sampleEnv (setenv "ANTHROPIC_API_KEY" "sk-ant-test")) [],
          emptyWorld))
  = inr (responseOf sampleReply).
Proof.
  rewrite (proj2 (@Governor_Invoke_Anthropic
                    (sampleEnv (setenv "ANTHROPIC_API_KEY" "sk-ant-test"))
                    (sampleCodecs notAnError)
                    (@NewGovernor (sampleEnv (setenv "ANTHROPIC_API_KEY" "sk-ant-test")) [])
                    (@NewAnthropicBackend
                       (sampleEnv (setenv "ANTHROPIC_API_KEY" "sk-ant-test")) [])
                    (helloRequest ModelSonnet46) emptyWorld eq_refl)).
  reflexivity.
Defined.
